(** * Aqualytics ml-service: prediction engine, validator, evaluator, trainer

    A shallow embedding of

    - [inference/predictor.py]  ([PredictionInput], [PredictionOutput],
      [WaterQualityPredictor], [MockModel], [MockScaler]),
    - [utils/data_validator.py] ([validate_inference_data],
      [validate_model_output]),
    - [utils/model_evaluator.py] ([ModelEvaluator._calculate_overfitting]),
    - [train/trainer.py] ([WaterQualityTrainer.save_model], [train_from_file],
      [_handle_missing_values]),
    - [app.py] (the endpoints [/predict], [/predict/batch], [/model/info],
      [/model/reload] and the startup of [lifespan]),

    followed by the properties the specification states about them, and by
    further properties of the same code: its verdicts and error paths, what
    it leaves untouched, and how saving, loading, predicting and the
    endpoints compose.

    Conventions of the embedding.

    - A Python [float] is a [pyfloat]: a finite value, held as an exact
      rational, or one of [inf], [-inf], [nan].  Comparisons follow IEEE 754
      (every comparison with [nan] is false).  Rounding is not modelled:
      arithmetic on finite values is exact.
    - Exceptions, the log and the file system are threaded through a small
      state-and-exception monad [M]; the state survives a raise, as the
      side effects of a Python call survive the exception that ends it.
    - [self] is passed explicitly; a method that assigns to [self] runs over
      the pair of [self] and the world.
    - Every [ValueError] carries, next to its message, the name the
      specification gives to that kind of failure; a pydantic
      [ValidationError] carries the fields that failed and the bound each
      one broke.
    - A log record keeps its level and its f-string; the text pydantic and
      [logging] would render for an exception or a formatted float is not
      modelled, the value stays in the record.
    - A Python class is a module; its instances are the record [t] of the
      module, its constructor is [new] or [__init__].
    - An endpoint of app.py runs over the world of the core and the log of
      app.py's own logger; what it raises is an exception of the core or an
      [HTTPException].  The validation FastAPI does on a request before it
      calls the endpoint is not part of the endpoint, and is not modelled. *)

From Stdlib Require Import QArith Qminmax Qabs ZArith Lia Lqa.
From stdpp Require Import gmap strings list pretty.

Open Scope Q_scope.

(** ** Python floats *)

Inductive pyfloat : Type :=
| Fin (q : Q)
| PosInf
| NegInf
| NaN.

(** [x <= y] *)
Definition fle (x y : pyfloat) : bool :=
  match x, y with
  | NaN, _ | _, NaN => false
  | Fin a, Fin b => Qle_bool a b
  | NegInf, _ => true
  | _, PosInf => true
  | _, _ => false
  end.

(** [x < y] *)
Definition flt (x y : pyfloat) : bool :=
  match x, y with
  | NaN, _ | _, NaN => false
  | Fin a, Fin b => negb (Qle_bool b a)
  | NegInf, NegInf | PosInf, _ | _, NegInf => false
  | _, _ => true
  end.

Definition isnan (x : pyfloat) : bool := match x with NaN => true | _ => false end.
Definition isinf (x : pyfloat) : bool :=
  match x with PosInf | NegInf => true | _ => false end.

(** An [int] literal met in a float comparison. *)
Definition of_int (z : Z) : pyfloat := Fin (inject_Z z).

(** The builtin [max] over a sequence keeps the first element that no later
    element exceeds; it has no answer on an empty sequence. *)
Definition py_max (xs : list pyfloat) : option pyfloat :=
  match xs with
  | [] => None
  | x :: rest => Some (fold_left (fun best y => if flt best y then y else best) rest x)
  end.

(** [max(a, b)] and [min(a, b)] on finite values. *)
Definition qmax2 (a b : Q) : Q := if negb (Qle_bool b a) then b else a.
Definition qmin2 (a b : Q) : Q := if negb (Qle_bool a b) then b else a.

(** Mathematical order on [pyfloat], used to state bounds. *)
Definition in_unit_interval (x : pyfloat) : Prop :=
  match x with Fin q => 0 <= q /\ q <= 1 | _ => False end.

Definition at_least (x : pyfloat) (c : Q) : Prop :=
  match x with Fin q => c <= q | PosInf => True | _ => False end.

(** Equality of floats as numbers ([Q] fractions are not normalised). *)
Definition same_float (x y : pyfloat) : Prop :=
  match x, y with
  | Fin a, Fin b => a == b
  | PosInf, PosInf | NegInf, NegInf | NaN, NaN => True
  | _, _ => False
  end.

(** ** Exceptions *)

(** The specification's names for the failures of the core (section 7).
    Python sees a [ValueError] at every one of these raise sites; the class
    records which kind of check raised. *)
Inductive error_class : Type :=
| ShapeError
| NonFiniteError
| RangeError
| PersistenceError.

(** What a pydantic field check reports: [Field(...)] without a value,
    [ge=], [le=], or a [@validator] that raised [ValueError(msg)]. *)
Inductive field_error : Type :=
| FieldRequired
| NotGe (limit : Z)
| NotLe (limit : Z)
| ValidatorError (msg : string).

Inductive exn : Type :=
| ValueError (cls : error_class) (msg : string)
| ValidationError (model : string) (errors : list (string * field_error))
| IndexError
| AttributeError
| TypeError
| ZeroDivisionError
| OSError (path : string)
| ExternalError (msg : string).

(** The class of a failure, where the taxonomy names one.  A pydantic bound
    violation is a range violation; a missing field is a malformed shape. *)
Definition field_error_class (fe : field_error) : error_class :=
  match fe with
  | FieldRequired => ShapeError
  | NotGe _ | NotLe _ | ValidatorError _ => RangeError
  end.

Definition class_of (e : exn) : option error_class :=
  match e with
  | ValueError cls _ => Some cls
  | ValidationError _ ((_, fe) :: _) => Some (field_error_class fe)
  | _ => None
  end.

(** ** Log records *)

Inductive level : Type := DEBUG | INFO | WARNING | ERROR.

(** An f-string: literal text interleaved with the values it interpolates.
    Integers and strings are rendered; the text of an exception and a float
    under the [.3f] format are not, and stay in the record as values. *)
Inductive fragment : Type :=
| Lit (s : string)
| Exc (e : exn)
| Float3 (x : pyfloat).

Record log_record : Type := LogRecord {
  levelname : level;
  msg : list fragment
}.

(** ** Outcomes and the state-and-exception monad *)

Inductive outcome (A : Type) : Type :=
| Returns (a : A)
| Raises (e : exn).
Arguments Returns {A} a.
Arguments Raises {A} e.

(** A computation over a state [S]: it ends by returning or by raising, and
    in both cases leaves a state behind. *)
Definition M (S A : Type) : Type := S -> outcome A * S.

Definition ret {S A} (a : A) : M S A := fun s => (Returns a, s).

Definition raise {S A} (e : exn) : M S A := fun s => (Raises e, s).

Definition bind {S A B} (m : M S A) (k : A -> M S B) : M S B :=
  fun s =>
    match m s with
    | (Returns a, s') => k a s'
    | (Raises e, s') => (Raises e, s')
    end.

Notation "x <- m ;; k" := (bind m (fun x => k))
  (at level 20, m at level 99, k at level 200, format "x  <-  m  ;;  '/' k").
Notation "m ;; k" := (bind m (fun _ => k))
  (at level 100, k at level 200, right associativity, format "m  ;;  '/' k").

(** [try: m except Exception as e: h e] *)
Definition try_except {S A} (m : M S A) (h : exn -> M S A) : M S A :=
  fun s =>
    match m s with
    | (Returns a, s') => (Returns a, s')
    | (Raises e, s') => h e s'
    end.

(** A call that returns or raises without touching the state. *)
Definition lift {S A} (o : outcome A) : M S A := fun s => (o, s).

(** [if c: m] *)
Definition when {S} (c : bool) (m : M S unit) : M S unit :=
  if c then m else ret tt.

(** [l[i]] *)
Definition index {S A} (l : list A) (i : nat) : M S A :=
  match l !! i with
  | Some x => ret x
  | None => raise IndexError
  end.

(** [for x in l: body x] *)
Fixpoint for_each {S A} (l : list A) (body : A -> M S unit) : M S unit :=
  match l with
  | [] => ret tt
  | x :: rest => body x ;; for_each rest body
  end.

(** [str(n)] for an [int]. *)
Definition str_nat (n : nat) : string := pretty n.
Definition str_int (z : Z) : string := pretty z.

(** ** Estimators and transformers *)

(** A 2-D [numpy] array, row by row.  All rows have the same length. *)
Definition matrix : Type := list (list pyfloat).

(** [X.shape[1]], for an array with at least one row.  The list of rows does
    not record the width of an array without rows and gives it the width 0;
    what is stated about widths is stated for matrices with a row. *)
Definition shape1 (X : matrix) : nat :=
  match X with
  | [] => 0%nat
  | row :: _ => length row
  end.

(** [X[:, i]] *)
Definition column (X : matrix) (i : nat) : list pyfloat :=
  omap (fun row : list pyfloat => row !! i) X.

(** [np.any(p(X))] *)
Definition np_any (p : pyfloat -> bool) (X : matrix) : bool :=
  existsb (existsb p) X.

(** Whatever object answers [predict] and [predict_proba]. *)
Module Estimator.
Record t : Type := Build {
  type_name : string;
  predict : matrix -> outcome (list Z);
  predict_proba : matrix -> outcome matrix
}.
End Estimator.

(** Whatever object answers [transform]. *)
Module Transformer.
Record t : Type := Build {
  type_name : string;
  transform : matrix -> outcome matrix
}.
End Transformer.

(** ** The world: file system and log *)

(** What [joblib.load] can give back. *)
Inductive pyobj : Type :=
| ObjModel (m : Estimator.t)
| ObjScaler (s : Transformer.t)
| ObjNames (names : list string).

(** A file either unpickles to an object or makes [joblib.load] raise. *)
Inductive file : Type :=
| Corrupt
| Pickle (o : pyobj).

(** [unwritable] holds the paths at which [joblib.dump] raises [OSError]. *)
Record world : Type := World {
  fs : gmap string file;
  unwritable : gset string;
  logs : list log_record
}.

Definition with_fs (f : gmap string file) (w : world) : world :=
  {| fs := f; unwritable := unwritable w; logs := logs w |}.

Definition with_logs (l : list log_record) (w : world) : world :=
  {| fs := fs w; unwritable := unwritable w; logs := l |}.

(** [logger.<level>(msg)] *)
Definition logger (lv : level) (m : list fragment) : M world unit :=
  fun w => (Returns tt, with_logs (logs w ++ [LogRecord lv m]) w).

(** [os.path.join(dir, name)] *)
Definition path_join (dir name : string) : string := dir +:+ "/" +:+ name.

(** [os.path.exists(p)] *)
Definition path_exists (p : string) : M world bool :=
  fun w => (Returns (bool_decide (is_Some (fs w !! p))), w).

(** [joblib.load(p)] *)
Definition joblib_load (p : string) : M world pyobj :=
  fun w =>
    match fs w !! p with
    | Some (Pickle o) => (Returns o, w)
    | Some Corrupt => (Raises (ExternalError "unpickling failed"), w)
    | None => (Raises (OSError p), w)
    end.

(** [joblib.dump(o, p)] *)
Definition joblib_dump (o : pyobj) (p : string) : M world unit :=
  fun w =>
    if bool_decide (p ∈ unwritable w) then (Raises (OSError p), w)
    else (Returns tt, with_fs (<[p := Pickle o]> (fs w)) w).

(** Methods that assign to [self] run over the pair of [self] and the world. *)
Definition io {Self A} (m : M world A) : M (Self * world) A :=
  fun '(self, w) => let '(o, w') := m w in (o, (self, w')).

Definition get_self {Self} : M (Self * world) Self :=
  fun '(self, w) => (Returns self, (self, w)).

Definition set_self {Self} (f : Self -> Self) : M (Self * world) unit :=
  fun '(self, w) => (Returns tt, (f self, w)).

(** ** utils/data_validator.py *)

(** The table of [validate_inference_data]: feature index, minimum and
    typical maximum. *)
Definition feature_ranges : list (nat * (Z * Z)) :=
  [ (0%nat, (0, 14)%Z);      (* pH *)
    (1%nat, (0, 1000)%Z);    (* Hardness *)
    (2%nat, (0, 50000)%Z);   (* Solids *)
    (3%nat, (0, 20)%Z);      (* Chloramines *)
    (4%nat, (0, 1000)%Z);    (* Sulfate *)
    (5%nat, (0, 2000)%Z);    (* Conductivity *)
    (6%nat, (0, 50)%Z);      (* Organic_carbon *)
    (7%nat, (0, 200)%Z);     (* Trihalomethanes *)
    (8%nat, (0, 20)%Z) ].    (* Turbidity *)

(** The body of the loop over [feature_ranges.items()]. *)
Definition check_feature_range (features : matrix) (feature_names : list string)
    (item : nat * (Z * Z)) : M world unit :=
  let '(i, (min_val, max_val)) := item in
  when (i <? shape1 features)%nat (
    let feature_values := column features i in
    when (existsb (fun v => flt v (of_int min_val)) feature_values) (
      name <- index feature_names i ;;
      raise (ValueError RangeError
               ("Feature " +:+ name +:+ " has values below minimum ("
                +:+ str_int min_val +:+ ")"))) ;;
    when (existsb (fun v => flt (of_int max_val) v) feature_values) (
      name <- index feature_names i ;;
      logger WARNING
        [Lit ("Feature " +:+ name +:+ " has values above typical maximum ("
              +:+ str_int max_val +:+ ")")])).

(** [validate_inference_data(features, feature_names)].  The test
    [features.ndim != 2] is settled by the type [matrix]. *)
Definition validate_inference_data (features : matrix) (feature_names : list string)
    : M world unit :=
  when (negb (shape1 features =? length feature_names)%nat) (
    raise (ValueError ShapeError
             ("Expected " +:+ str_nat (length feature_names)
              +:+ " features, got " +:+ str_nat (shape1 features)))) ;;
  when (np_any isnan features) (
    raise (ValueError NonFiniteError "Features contain NaN values")) ;;
  when (np_any isinf features) (
    raise (ValueError NonFiniteError "Features contain infinite values")) ;;
  for_each feature_ranges (check_feature_range features feature_names) ;;
  logger DEBUG [Lit "Inference data validation passed"].

(** ** inference/predictor.py: the pydantic models *)

(** The checks pydantic runs on one field, in order; the first that fails is
    the one reported for the field.  On a float with both bounds pydantic
    tests the upper bound ([le]) before the lower one ([ge]), so a NaN, which
    fails both, is reported against the upper bound. *)
Definition check_ge (limit : Z) (v : pyfloat) : option field_error :=
  if fle (of_int limit) v then None else Some (NotGe limit).

Definition check_le (limit : Z) (v : pyfloat) : option field_error :=
  if fle v (of_int limit) then None else Some (NotLe limit).

Fixpoint first_error (checks : list (pyfloat -> option field_error)) (v : pyfloat)
    : option field_error :=
  match checks with
  | [] => None
  | c :: rest =>
      match c v with
      | Some fe => Some fe
      | None => first_error rest v
      end
  end.

(** Every field of a model is checked and all failures are reported
    together, in the order the fields are declared. *)
Definition field_errors (fields : list (string * list (pyfloat -> option field_error)))
    (kwargs : gmap string pyfloat) : list (string * field_error) :=
  omap (fun '(name, checks) =>
          match kwargs !! name with
          | None => Some (name, FieldRequired)
          | Some v =>
              match first_error checks v with
              | Some fe => Some (name, fe)
              | None => None
              end
          end) fields.

Module PredictionInput.

Record t : Type := Build {
  pH : pyfloat;
  Hardness : pyfloat;
  Solids : pyfloat;
  Chloramines : pyfloat;
  Sulfate : pyfloat;
  Conductivity : pyfloat;
  Organic_carbon : pyfloat;
  Trihalomethanes : pyfloat;
  Turbidity : pyfloat
}.

(** [@validator('pH')] *)
Definition validate_ph (v : pyfloat) : option field_error :=
  if negb (fle (of_int 0) v && fle v (of_int 14))
  then Some (ValidatorError "pH must be between 0 and 14")
  else None.

Definition fields : list (string * list (pyfloat -> option field_error)) :=
  [ ("pH", [check_le 14; check_ge 0; validate_ph]);
    ("Hardness", [check_ge 0]);
    ("Solids", [check_ge 0]);
    ("Chloramines", [check_ge 0]);
    ("Sulfate", [check_ge 0]);
    ("Conductivity", [check_ge 0]);
    ("Organic_carbon", [check_ge 0]);
    ("Trihalomethanes", [check_ge 0]);
    ("Turbidity", [check_ge 0]) ].

(** A field that passed its checks is present. *)
Definition field (kwargs : gmap string pyfloat) (name : string) : pyfloat :=
  default NaN (kwargs !! name).

(** The constructor, from keyword arguments.  Keys that name no field are
    ignored. *)
Definition new {S} (kwargs : gmap string pyfloat) : M S t :=
  match field_errors fields kwargs with
  | [] =>
      ret {| pH := field kwargs "pH";
             Hardness := field kwargs "Hardness";
             Solids := field kwargs "Solids";
             Chloramines := field kwargs "Chloramines";
             Sulfate := field kwargs "Sulfate";
             Conductivity := field kwargs "Conductivity";
             Organic_carbon := field kwargs "Organic_carbon";
             Trihalomethanes := field kwargs "Trihalomethanes";
             Turbidity := field kwargs "Turbidity" |}
  | errors => raise (ValidationError "PredictionInput" errors)
  end.

(** [to_array]: one row, in the canonical feature order. *)
Definition to_array (self : t) : matrix :=
  [ [ pH self; Hardness self; Solids self; Chloramines self; Sulfate self;
      Conductivity self; Organic_carbon self; Trihalomethanes self;
      Turbidity self ] ].

End PredictionInput.

Module PredictionOutput.

Record t : Type := Build {
  prediction : Z;
  probability : pyfloat;
  confidence : pyfloat;
  result : string;
  model_version : string;
  features_used : list string
}.

Definition fields : list (string * list (pyfloat -> option field_error)) :=
  [ ("probability", [check_le 1; check_ge 0]);
    ("confidence", [check_le 1; check_ge 0]) ].

(** [PredictionOutput(prediction=..., probability=..., ...)]: the two
    constrained fields are the float ones. *)
Definition new {S} (prediction : Z) (probability confidence : pyfloat)
    (result model_version : string) (features_used : list string) : M S t :=
  match field_errors fields
          (<["probability" := probability]> (<["confidence" := confidence]> ∅)) with
  | [] =>
      ret {| prediction := prediction;
             probability := probability;
             confidence := confidence;
             result := result;
             model_version := model_version;
             features_used := features_used |}
  | errors => raise (ValidationError "PredictionOutput" errors)
  end.

End PredictionOutput.

(** ** inference/predictor.py: the fallback model and scaler *)

(** [results = []; for x in X: results.append(f(x))], where [f] may raise. *)
Fixpoint collect {A B} (f : A -> outcome B) (X : list A) : outcome (list B) :=
  match X with
  | [] => Returns []
  | x :: rest =>
      match f x with
      | Raises e => Raises e
      | Returns y =>
          match collect f rest with
          | Raises e => Raises e
          | Returns ys => Returns (y :: ys)
          end
      end
  end.

Module MockModel.

(** [pH = x[0]] and [turbidity = x[8] if len(x) > 8 else 5.0] *)
Definition row_inputs (x : list pyfloat) : outcome (pyfloat * pyfloat) :=
  match x !! 0%nat with
  | None => Raises IndexError
  | Some pH =>
      let turbidity := if (8 <? length x)%nat then default NaN (x !! 8%nat)
                       else Fin 5.0 in
      Returns (pH, turbidity)
  end.

Definition predict_row (x : list pyfloat) : outcome Z :=
  match row_inputs x with
  | Raises e => Raises e
  | Returns (pH, turbidity) =>
      if fle (Fin 6.5) pH && fle pH (Fin 8.5) && fle turbidity (Fin 5.0)
      then Returns 1%Z    (* Safe *)
      else Returns 0%Z    (* Not safe *)
  end.

Definition predict (X : matrix) : outcome (list Z) := collect predict_row X.

Definition predict_proba_row (x : list pyfloat) : outcome (list pyfloat) :=
  match row_inputs x with
  | Raises e => Raises e
  | Returns (pH, turbidity) =>
      let base_prob := 0.5 in
      let base_prob :=
        if fle (Fin 6.5) pH && fle pH (Fin 8.5) then base_prob + 0.25
        else base_prob in
      let base_prob :=
        if fle turbidity (Fin 5.0) then base_prob + 0.15 else base_prob in
      let safe_prob := qmin2 0.99 (qmax2 0.01 base_prob) in
      let unsafe_prob := 1 - safe_prob in
      Returns [Fin unsafe_prob; Fin safe_prob]
  end.

Definition predict_proba (X : matrix) : outcome matrix :=
  collect predict_proba_row X.

Definition new : Estimator.t :=
  {| Estimator.type_name := "MockModel";
     Estimator.predict := predict;
     Estimator.predict_proba := predict_proba |}.

End MockModel.

Module MockScaler.

(** [np.array(X, dtype=float)] *)
Definition transform (X : matrix) : outcome matrix := Returns X.

Definition new : Transformer.t :=
  {| Transformer.type_name := "MockScaler";
     Transformer.transform := transform |}.

End MockScaler.

(** ** inference/predictor.py: the prediction engine *)

Definition canonical_feature_names : list string :=
  [ "pH"; "Hardness"; "Solids"; "Chloramines"; "Sulfate"; "Conductivity";
    "Organic_carbon"; "Trihalomethanes"; "Turbidity" ].

(** Attribute access on whatever object an attribute holds. *)
Definition as_estimator {S} (o : option pyobj) : M S Estimator.t :=
  match o with
  | Some (ObjModel m) => ret m
  | _ => raise AttributeError
  end.

Definition as_transformer {S} (o : option pyobj) : M S Transformer.t :=
  match o with
  | Some (ObjScaler s) => ret s
  | _ => raise AttributeError
  end.

(** [len(o)] and iteration need a list. *)
Definition as_names {S} (o : option pyobj) : M S (list string) :=
  match o with
  | Some (ObjNames names) => ret names
  | _ => raise TypeError
  end.

(** [type(o).__name__] *)
Definition type_name_of (o : pyobj) : string :=
  match o with
  | ObjModel m => Estimator.type_name m
  | ObjScaler s => Transformer.type_name s
  | ObjNames _ => "list"
  end.

(** Truth value of an attribute: [None] and the empty list are false. *)
Definition truthy (o : option pyobj) : bool :=
  match o with
  | None | Some (ObjNames []) => false
  | Some _ => true
  end.

(** [all(os.path.exists(p) for p in paths)] *)
Fixpoint all_exist (paths : list string) : M world bool :=
  match paths with
  | [] => ret true
  | p :: rest =>
      e <- path_exists p ;;
      if e then all_exist rest else ret false
  end.

(** What [predict] accepts: a [PredictionInput], a [dict] or a [list]. *)
Inductive input : Type :=
| InModel (r : PredictionInput.t)
| InDict (d : gmap string pyfloat)
| InList (l : list pyfloat).

(** A value of the dictionary [get_model_info] returns. *)
Inductive info_value : Type :=
| InfoNone
| InfoBool (b : bool)
| InfoStr (s : string)
| InfoObj (o : pyobj).

Module WaterQualityPredictor.

Record t : Type := Build {
  model_dir : string;
  model : option pyobj;
  scaler : option pyobj;
  feature_names : option pyobj;
  model_version : string;
  is_loaded : bool
}.

Definition set_model (v : option pyobj) (self : t) : t :=
  {| model_dir := model_dir self; model := v; scaler := scaler self;
     feature_names := feature_names self; model_version := model_version self;
     is_loaded := is_loaded self |}.

Definition set_scaler (v : option pyobj) (self : t) : t :=
  {| model_dir := model_dir self; model := model self; scaler := v;
     feature_names := feature_names self; model_version := model_version self;
     is_loaded := is_loaded self |}.

Definition set_feature_names (v : option pyobj) (self : t) : t :=
  {| model_dir := model_dir self; model := model self; scaler := scaler self;
     feature_names := v; model_version := model_version self;
     is_loaded := is_loaded self |}.

Definition set_model_version (v : string) (self : t) : t :=
  {| model_dir := model_dir self; model := model self; scaler := scaler self;
     feature_names := feature_names self; model_version := v;
     is_loaded := is_loaded self |}.

Definition set_is_loaded (v : bool) (self : t) : t :=
  {| model_dir := model_dir self; model := model self; scaler := scaler self;
     feature_names := feature_names self; model_version := model_version self;
     is_loaded := v |}.

(** [load_model] *)
Definition load_model : M (t * world) bool :=
  try_except (
    self <- get_self ;;
    let model_path := path_join (model_dir self) "model.pkl" in
    let scaler_path := path_join (model_dir self) "scaler.pkl" in
    let feature_path := path_join (model_dir self) "features.pkl" in
    found <- io (all_exist [model_path; scaler_path]) ;;
    if negb found then
      io (logger WARNING [Lit ("Model files not found in " +:+ model_dir self)]) ;;
      ret false
    else
      m <- io (joblib_load model_path) ;;
      set_self (set_model (Some m)) ;;
      s <- io (joblib_load scaler_path) ;;
      set_self (set_scaler (Some s)) ;;
      (* Load feature names if available *)
      has_features <- io (path_exists feature_path) ;;
      (if has_features then
         names <- io (joblib_load feature_path) ;;
         set_self (set_feature_names (Some names))
       else
         set_self (set_feature_names (Some (ObjNames canonical_feature_names)))) ;;
      set_self (set_is_loaded true) ;;
      io (logger INFO [Lit "Model loaded successfully"]) ;;
      ret true)
  (fun e =>
     io (logger ERROR [Lit "Error loading model: "; Exc e]) ;;
     ret false).

(** [_initialize_fallback_model] *)
Definition _initialize_fallback_model : M (t * world) unit :=
  set_self (set_model (Some (ObjModel MockModel.new))) ;;
  set_self (set_scaler (Some (ObjScaler MockScaler.new))) ;;
  set_self (set_feature_names (Some (ObjNames canonical_feature_names))) ;;
  set_self (set_model_version "fallback-1.0.0") ;;
  io (logger INFO [Lit "Fallback model initialized"]).

(** [__init__(model_dir)]: the constructor returns the object it built. *)
Definition __init__ (model_dir : string) : M world t :=
  fun w =>
    let self :=
      {| model_dir := model_dir; model := None; scaler := None;
         feature_names := None; model_version := "1.0.0";
         is_loaded := false |} in
    let body :=
      (* Try to load model on initialization *)
      loaded <- load_model ;;
      when (negb loaded) (
        io (logger WARNING [Lit "No trained model found, using fallback model"]) ;;
        _initialize_fallback_model) in
    match body (self, w) with
    | (Returns _, (self', w')) => (Returns self', w')
    | (Raises e, (_, w')) => (Raises e, w')
    end.

(** The first step of [predict]: convert the input to a [PredictionInput]. *)
Definition convert_input (input_data : input) : M world PredictionInput.t :=
  match input_data with
  | InDict d => PredictionInput.new d
  | InList l =>
      when (negb (length l =? 9)%nat) (
        raise (ValueError ShapeError "Input list must have exactly 9 features")) ;;
      x0 <- index l 0 ;; x1 <- index l 1 ;; x2 <- index l 2 ;;
      x3 <- index l 3 ;; x4 <- index l 4 ;; x5 <- index l 5 ;;
      x6 <- index l 6 ;; x7 <- index l 7 ;; x8 <- index l 8 ;;
      PredictionInput.new
        (<["pH" := x0]> (<["Hardness" := x1]> (<["Solids" := x2]>
        (<["Chloramines" := x3]> (<["Sulfate" := x4]>
        (<["Conductivity" := x5]> (<["Organic_carbon" := x6]>
        (<["Trihalomethanes" := x7]> (<["Turbidity" := x8]> ∅)))))))))
  | InModel r => ret r
  end.

(** The last steps of [predict]: scale, run the classifier, derive
    probability and confidence, build the output. *)
Definition infer (self : t) (names : list string) (features : matrix)
    : M world PredictionOutput.t :=
  (* Scale features *)
  the_scaler <- as_transformer (scaler self) ;;
  features_scaled <- lift (Transformer.transform the_scaler features) ;;
  (* Make prediction *)
  the_model <- as_estimator (model self) ;;
  predictions <- lift (Estimator.predict the_model features_scaled) ;;
  prediction <- index predictions 0 ;;
  all_probabilities <- lift (Estimator.predict_proba the_model features_scaled) ;;
  probabilities <- index all_probabilities 0 ;;
  (* Calculate confidence and probability *)
  probability <-
    (if (1 <? length probabilities)%nat then index probabilities 1
     else index probabilities 0) ;;
  confidence <-
    (if (1 <? length probabilities)%nat then
       match py_max probabilities with
       | Some best => ret best
       | None => raise (ExternalError "max() arg is an empty sequence")
       end
     else index probabilities 0) ;;
  (* Determine result *)
  let result := if (prediction =? 1)%Z then "Safe" else "Not Safe" in
  output <- PredictionOutput.new prediction probability confidence result
              (model_version self) names ;;
  logger INFO [Lit ("Prediction made: " +:+ result +:+ " (confidence: ");
               Float3 confidence; Lit ")"] ;;
  ret output.

(** [predict(input_data)] *)
Definition predict (self : t) (input_data : input) : M world PredictionOutput.t :=
  try_except (
    (* Convert input to PredictionInput if needed *)
    input_data <- convert_input input_data ;;
    (* Validate input *)
    let features := PredictionInput.to_array input_data in
    names <- as_names (feature_names self) ;;
    validate_inference_data features names ;;
    infer self names features)
  (fun e =>
     logger ERROR [Lit "Error making prediction: "; Exc e] ;;
     raise e).

(** The loop of [predict_batch], with the list [results] it appends to. *)
Fixpoint predict_each (self : t) (input_batch : list input)
    (results : list PredictionOutput.t) : M world (list PredictionOutput.t) :=
  match input_batch with
  | [] => ret results
  | input_data :: rest =>
      result <- predict self input_data ;;
      predict_each self rest (results ++ [result])
  end.

(** [predict_batch(input_batch)] *)
Definition predict_batch (self : t) (input_batch : list input)
    : M world (list PredictionOutput.t) :=
  try_except (
    results <- predict_each self input_batch [] ;;
    logger INFO [Lit ("Batch prediction completed for "
                      +:+ str_nat (length input_batch) +:+ " samples")] ;;
    ret results)
  (fun e =>
     logger ERROR [Lit "Error in batch prediction: "; Exc e] ;;
     raise e).

(** [get_model_info()] *)
Definition get_model_info (self : t) : gmap string info_value :=
  <["model_loaded" := InfoBool (is_loaded self)]> (
  <["model_version" := InfoStr (model_version self)]> (
  <["feature_names" := from_option InfoObj InfoNone (feature_names self)]> (
  <["model_type" :=
      if truthy (model self)
      then from_option (fun o => InfoStr (type_name_of o)) InfoNone (model self)
      else InfoNone]> (
  <["scaler_type" :=
      if truthy (scaler self)
      then from_option (fun o => InfoStr (type_name_of o)) InfoNone (scaler self)
      else InfoNone]> ∅)))).

(** [validate_input(input_data)] *)
Definition validate_input (input_data : gmap string pyfloat) : M world bool :=
  try_except (
    _ <- PredictionInput.new input_data ;;
    ret true)
  (fun e =>
     logger ERROR [Lit "Input validation failed: "; Exc e] ;;
     ret false).

End WaterQualityPredictor.

(** ** utils/model_evaluator.py *)

(** A value of the results dictionary: a metric (a finite float), a flag, or
    an object that takes no part in float arithmetic (a confusion matrix, a
    classification report, an array of scores).  A metric that is NaN or
    infinite has no counterpart here. *)
Inductive pyval : Type :=
| VFloat (q : Q)
| VBool (b : bool)
| VOther.

(** The number a value stands for in arithmetic; [bool] is an [int]. *)
Definition as_number {S} (v : pyval) : M S Q :=
  match v with
  | VFloat q => ret q
  | VBool b => ret (if b then 1 else 0)
  | VOther => raise TypeError
  end.

(** [v == 0]: an object that is no number is not equal to [0]. *)
Definition eq_zero (v : pyval) : bool :=
  match v with
  | VFloat q => Qeq_bool q 0
  | VBool b => negb b
  | VOther => false
  end.

(** [a - b] and [a / b] *)
Definition py_sub {S} (a b : pyval) : M S pyval :=
  x <- as_number a ;; y <- as_number b ;; ret (VFloat (x - y)).

Definition py_div {S} (a b : pyval) : M S pyval :=
  x <- as_number a ;; y <- as_number b ;;
  if Qeq_bool y 0 then raise ZeroDivisionError else ret (VFloat (x / y)).

Module ModelEvaluator.

(** [_calculate_overfitting(results)] *)
Definition _calculate_overfitting {S} (results : gmap string pyval) : M S Q :=
  try_except (
    let train_f1 := default (VFloat 0) (results !! "train_f1") in
    let test_f1 := default (VFloat 0) (results !! "f1") in
    if eq_zero train_f1 then ret 0.0
    else
      difference <- py_sub train_f1 test_f1 ;;
      overfitting_score <- py_div difference train_f1 ;;
      score <- as_number overfitting_score ;;
      ret (qmax2 0.0 score))
  (fun _ => ret 0.0).

End ModelEvaluator.

(** ** train/trainer.py *)

Module WaterQualityTrainer.

Record t : Type := Build {
  model_dir : string;
  model : option pyobj;
  scaler : option pyobj;
  feature_names : list string
}.

Definition set_model (v : option pyobj) (self : t) : t :=
  {| model_dir := model_dir self; model := v; scaler := scaler self;
     feature_names := feature_names self |}.

Definition set_scaler (v : option pyobj) (self : t) : t :=
  {| model_dir := model_dir self; model := model self; scaler := v;
     feature_names := feature_names self |}.

(** [__init__(model_dir)].  Directories are not part of the file system
    model, so [os.makedirs] leaves no trace here. *)
Definition __init__ (model_dir : string) : M world t :=
  let self :=
    {| model_dir := model_dir; model := None; scaler := None;
       feature_names := canonical_feature_names |} in
  logger INFO [Lit ("Model directory: " +:+ model_dir)] ;;
  ret self.

(** The [try] block of [save_model]. *)
Definition save_model_body : M (t * world) bool :=
  self <- get_self ;;
  match model self, scaler self with
  | Some the_model, Some the_scaler =>
      let model_path := path_join (model_dir self) "model.pkl" in
      let scaler_path := path_join (model_dir self) "scaler.pkl" in
      io (joblib_dump the_model model_path) ;;
      io (joblib_dump the_scaler scaler_path) ;;
      io (logger INFO [Lit ("Model saved to " +:+ model_path)]) ;;
      io (logger INFO [Lit ("Scaler saved to " +:+ scaler_path)]) ;;
      (* Save feature names *)
      let feature_path := path_join (model_dir self) "features.pkl" in
      io (joblib_dump (ObjNames (feature_names self)) feature_path) ;;
      ret true
  | _, _ =>
      raise (ValueError PersistenceError "Model or scaler not trained")
  end.

(** [save_model()] *)
Definition save_model : M (t * world) bool :=
  try_except save_model_body
    (fun e =>
       io (logger ERROR [Lit "Error saving model: "; Exc e]) ;;
       ret false).

(** The stages that run pandas and scikit-learn enter [train_from_file] as
    they are called: methods of [self] that return or raise, and may
    assign to [self] ([preprocess_data] sets the scaler, [train_model] the
    model) and log. *)
Section Pipeline.

Variable DataFrame : Type.
Variable Dataset : Type.
Variable load_data : string -> M (t * world) DataFrame.
Variable preprocess_data : DataFrame -> M (t * world) Dataset.
Variable train_model : Dataset -> M (t * world) (gmap string pyval).

(** [train_from_file(data_path)] *)
Definition train_from_file (data_path : string)
    : M (t * world) (gmap string pyval) :=
  try_except (
    (* Load and preprocess data *)
    data <- load_data data_path ;;
    Xy <- preprocess_data data ;;
    (* Train model *)
    results <- train_model Xy ;;
    (* Save model *)
    saved <- save_model ;;
    if saved then
      let results := <["model_saved" := VBool true]> results in
      io (logger INFO [Lit "Training pipeline completed successfully"]) ;;
      ret results
    else
      let results := <["model_saved" := VBool false]> results in
      io (logger WARNING [Lit "Model training completed but saving failed"]) ;;
      ret results)
  (fun e =>
     io (logger ERROR [Lit "Training pipeline failed: "; Exc e]) ;;
     raise e).

End Pipeline.

End WaterQualityTrainer.

(** ** train/trainer.py: missing values *)

(** [x + y] and [x / 2] on floats. *)
Definition fadd (x y : pyfloat) : pyfloat :=
  match x, y with
  | NaN, _ | _, NaN => NaN
  | PosInf, NegInf | NegInf, PosInf => NaN
  | PosInf, _ | _, PosInf => PosInf
  | NegInf, _ | _, NegInf => NegInf
  | Fin a, Fin b => Fin (a + b)
  end.

Definition fhalf (x : pyfloat) : pyfloat :=
  match x with
  | Fin a => Fin (a / 2)
  | _ => x
  end.

(** The values in ascending order. *)
Fixpoint insert_float (x : pyfloat) (l : list pyfloat) : list pyfloat :=
  match l with
  | [] => [x]
  | y :: rest => if fle x y then x :: l else y :: insert_float x rest
  end.

Definition sort_floats (l : list pyfloat) : list pyfloat :=
  foldr insert_float [] l.

(** [np.median(values)] for values without NaN: the mean of the one or two
    values in the middle of the values in order.  The mean of two finite
    values is their exact mean here; in doubles their sum may overflow, and
    [np.median] then gives an infinity. *)
Definition np_median (values : list pyfloat) : pyfloat :=
  let ordered := sort_floats values in
  let n := length ordered in
  if Nat.even n
  then fhalf (fadd (default NaN (ordered !! (n / 2 - 1)%nat))
                   (default NaN (ordered !! (n / 2)%nat)))
  else default NaN (ordered !! (n / 2)%nat).

(** [col[mask]] with [mask = ~np.isnan(col)] *)
Definition present (col : list pyfloat) : list pyfloat :=
  filter (fun v => isnan v = false) col.

(** One turn of the loop of [_handle_missing_values]:
    [X[~mask, i] = median_val] when [mask.sum() > 0]. *)
Definition fill_column (X : matrix) (i : nat) : matrix :=
  let col := column X i in
  if (0 <? length (present col))%nat then
    let median_val := np_median (present col) in
    map (fun row : list pyfloat =>
           match row !! i with
           | Some v => if isnan v then <[i := median_val]> row else row
           | None => row
           end) X
  else X.

(** [_handle_missing_values(X)] of [WaterQualityTrainer], which makes no use
    of [self]; the array is changed in place and returned. *)
Definition _handle_missing_values (X : matrix) : matrix :=
  foldl fill_column X (seq 0 (shape1 X)).

(** ** utils/data_validator.py: the output of a model *)

(** [np.sum(row)] *)
Definition np_sum (row : list pyfloat) : pyfloat := foldl fadd (Fin 0) row.

(** [np.isclose(a, 1.0, rtol=1e-5)], with the default [atol=1e-8]: a finite
    [a] with [|a - 1.0| <= atol + rtol * |1.0|]. *)
Definition isclose_one (a : pyfloat) : bool :=
  match a with
  | Fin q => Qle_bool (Qabs (q - 1.0)) (0.00000001 + 0.00001 * Qabs 1.0)
  | _ => false
  end.

(** [validate_model_output(prediction, probabilities)].  Both arguments are
    arrays by their types, which settles the two [isinstance] tests; a matrix
    without rows stands for [np.array([])], which has one dimension. *)
Definition validate_model_output (prediction : list Z) (probabilities : matrix)
    : M world unit :=
  (* Check prediction format *)
  when (negb (forallb (fun p => (p =? 0)%Z || (p =? 1)%Z) prediction)) (
    raise (ValueError RangeError "Predictions must be 0 or 1")) ;;
  (* Check probabilities format *)
  when (match probabilities with
        | [] => true
        | _ :: _ => negb (shape1 probabilities =? 2)%nat
        end) (
    raise (ValueError ShapeError "Probabilities must be 2D array with 2 columns")) ;;
  (* Check probability ranges *)
  when (negb (forallb (forallb (fun v => fle (of_int 0) v && fle v (of_int 1)))
                probabilities)) (
    raise (ValueError RangeError "Probabilities must be between 0 and 1")) ;;
  (* Check probability sums *)
  let prob_sums := map np_sum probabilities in
  when (negb (forallb isclose_one prob_sums)) (
    raise (ValueError RangeError "Probabilities must sum to 1 for each sample")) ;;
  logger DEBUG [Lit "Model output validation passed"].

(** ** app.py *)

(** What is raised inside an endpoint: an exception of the core, or
    [HTTPException(status_code, detail)], whose detail is a text or the
    [str] of an exception of the core. *)
Inductive raised : Type :=
| Core (e : exn)
| HTTPException (status_code : Z) (detail : fragment).

(** [isinstance(e, ValueError)].  The [ValidationError] of pydantic is a
    [ValueError]; [ExternalError] stands for exceptions of other classes. *)
Definition is_ValueError (e : exn) : bool :=
  match e with
  | ValueError _ _ | ValidationError _ _ => true
  | _ => false
  end.

(** app.py logs to a logger of its own; its f-strings interpolate what was
    raised. *)
Inductive app_fragment : Type :=
| Text (s : string)
| Str (r : raised).

Record app_record : Type := AppRecord {
  app_levelname : level;
  app_msg : list app_fragment
}.

(** The state an endpoint runs in: the world of the core and the log of
    app.py. *)
Definition server : Type := (world * list app_record)%type.

Inductive reply (A : Type) : Type :=
| Reply (a : A)
| Raised (r : raised).
Arguments Reply {A} a.
Arguments Raised {A} r.

Definition Endpoint (A : Type) : Type := server -> reply A * server.

Definition reply_with {A} (a : A) : Endpoint A := fun s => (Reply a, s).

Definition raise_in_app {A} (r : raised) : Endpoint A := fun s => (Raised r, s).

Definition and_then {A B} (m : Endpoint A) (k : A -> Endpoint B) : Endpoint B :=
  fun s =>
    match m s with
    | (Reply a, s') => k a s'
    | (Raised r, s') => (Raised r, s')
    end.

Notation "x <~ m ;; k" := (and_then m (fun x => k))
  (at level 20, m at level 99, k at level 200, format "x  <~  m  ;;  '/' k").

(** A call into the core. *)
Definition core {A} (m : M world A) : Endpoint A :=
  fun '(w, app_log) =>
    match m w with
    | (Returns a, w') => (Reply a, (w', app_log))
    | (Raises e, w') => (Raised (Core e), (w', app_log))
    end.

(** [logger.<level>(msg)] of app.py *)
Definition app_logger (lv : level) (m : list app_fragment) : Endpoint unit :=
  fun '(w, app_log) => (Reply tt, (w, app_log ++ [AppRecord lv m])).

(** [if c: raise r] *)
Definition raise_if (c : bool) (r : raised) : Endpoint unit :=
  if c then raise_in_app r else reply_with tt.

(** [try: body except ValueError as e: h1 e except Exception as e: h2 e] *)
Definition try_except_ValueError {A} (body : Endpoint A)
    (on_value_error : exn -> Endpoint A) (on_exception : raised -> Endpoint A)
    : Endpoint A :=
  fun s =>
    match body s with
    | (Reply a, s') => (Reply a, s')
    | (Raised (Core e), s') =>
        if is_ValueError e then on_value_error e s' else on_exception (Core e) s'
    | (Raised r, s') => on_exception r s'
    end.

Module App.

(** [predict_water_quality(request)], the endpoint [/predict], with the
    global [predictor] and [request.features]. *)
Definition predict_water_quality (predictor : option WaterQualityPredictor.t)
    (features : list pyfloat) : Endpoint PredictionOutput.t :=
  try_except_ValueError (
    match predictor with
    | None => raise_in_app (HTTPException 503 (Lit "Predictor not available"))
    | Some predictor =>
        _ <~ app_logger INFO
               [Text ("Prediction request received: "
                      +:+ str_nat (length features) +:+ " features")] ;;
        (* Convert to PredictionInput *)
        x0 <~ core (index features 0) ;; x1 <~ core (index features 1) ;;
        x2 <~ core (index features 2) ;; x3 <~ core (index features 3) ;;
        x4 <~ core (index features 4) ;; x5 <~ core (index features 5) ;;
        x6 <~ core (index features 6) ;; x7 <~ core (index features 7) ;;
        x8 <~ core (index features 8) ;;
        prediction_input <~ core (PredictionInput.new
          (<["pH" := x0]> (<["Hardness" := x1]> (<["Solids" := x2]>
          (<["Chloramines" := x3]> (<["Sulfate" := x4]>
          (<["Conductivity" := x5]> (<["Organic_carbon" := x6]>
          (<["Trihalomethanes" := x7]> (<["Turbidity" := x8]> ∅)))))))))) ;;
        (* Make prediction *)
        result <~ core (WaterQualityPredictor.predict predictor
                          (InModel prediction_input)) ;;
        _ <~ app_logger INFO
               [Text ("Prediction completed: " +:+ PredictionOutput.result result)] ;;
        reply_with result
    end)
  (fun e =>
     _ <~ app_logger ERROR [Text "Validation error in prediction: "; Str (Core e)] ;;
     raise_in_app (HTTPException 400 (Exc e)))
  (fun r =>
     _ <~ app_logger ERROR [Text "Error in prediction: "; Str r] ;;
     raise_in_app (HTTPException 500 (Lit "Prediction failed"))).

(** The loop of [predict_batch], with the list [results] it appends to. *)
Fixpoint predict_samples (predictor : WaterQualityPredictor.t)
    (batch : list (list pyfloat)) (results : list PredictionOutput.t)
    : Endpoint (list PredictionOutput.t) :=
  match batch with
  | [] => reply_with results
  | features :: rest =>
      _ <~ raise_if (negb (length features =? 9)%nat)
             (Core (ValueError ShapeError
                      ("Each sample must have exactly 9 features, got "
                       +:+ str_nat (length features)))) ;;
      result <~ core (WaterQualityPredictor.predict predictor (InList features)) ;;
      predict_samples predictor rest (results ++ [result])
  end.

(** [predict_batch(request)], the endpoint [/predict/batch], with the global
    [predictor] and [request.batch]. *)
Definition predict_batch (predictor : option WaterQualityPredictor.t)
    (batch : list (list pyfloat)) : Endpoint (list PredictionOutput.t) :=
  try_except_ValueError (
    match predictor with
    | None => raise_in_app (HTTPException 503 (Lit "Predictor not available"))
    | Some predictor =>
        (* Limit batch size *)
        _ <~ raise_if (100 <? length batch)%nat
               (HTTPException 400 (Lit "Batch size too large (maximum 100 samples)")) ;;
        _ <~ app_logger INFO
               [Text ("Batch prediction request: "
                      +:+ str_nat (length batch) +:+ " samples")] ;;
        results <~ predict_samples predictor batch [] ;;
        _ <~ app_logger INFO
               [Text ("Batch prediction completed: "
                      +:+ str_nat (length results) +:+ " results")] ;;
        reply_with results
    end)
  (fun e =>
     _ <~ app_logger ERROR
            [Text "Validation error in batch prediction: "; Str (Core e)] ;;
     raise_in_app (HTTPException 400 (Exc e)))
  (fun r =>
     _ <~ app_logger ERROR [Text "Error in batch prediction: "; Str r] ;;
     raise_in_app (HTTPException 500 (Lit "Batch prediction failed"))).

(** [get_model_info()], the endpoint [/model/info]. *)
Definition get_model_info (predictor : option WaterQualityPredictor.t)
    : Endpoint (gmap string info_value) :=
  match predictor with
  | None => raise_in_app (HTTPException 503 (Lit "Predictor not available"))
  | Some predictor => reply_with (WaterQualityPredictor.get_model_info predictor)
  end.

End App.

(** The global [predictor] of app.py next to the state of the endpoints. *)
Definition service : Type := (option WaterQualityPredictor.t * server)%type.

(** [try: body except Exception as e: h e] *)
Definition try_except_Exception {A} (body : Endpoint A) (h : raised -> Endpoint A)
    : Endpoint A :=
  fun s =>
    match body s with
    | (Reply a, s') => (Reply a, s')
    | (Raised r, s') => h r s'
    end.

Module Service.

(** The startup half of [lifespan(app)], up to its [yield].  The global
    [predictor] is assigned in either branch. *)
Definition lifespan_startup : service -> service :=
  fun '(predictor, s) =>
    let started :=
      (_ <~ app_logger INFO [Text "Starting ML Service..."] ;;
       try_except_Exception (
         new_predictor <~ core (WaterQualityPredictor.__init__ "ml") ;;
         _ <~ app_logger INFO [Text "Predictor initialized successfully"] ;;
         reply_with (Some new_predictor))
       (fun e =>
          _ <~ app_logger ERROR [Text "Failed to initialize predictor: "; Str e] ;;
          reply_with None)) s in
    match started with
    | (Reply new_predictor, s') => (new_predictor, s')
    | (Raised _, s') => (predictor, s')
    end.

(** [reload_model()], the endpoint [/model/reload].  The global [predictor]
    is assigned only when the constructor returns. *)
Definition reload_model : service -> reply (gmap string string) * service :=
  fun '(predictor, s) =>
    let reloaded :=
      try_except_Exception (
        _ <~ app_logger INFO [Text "Reloading model..."] ;;
        new_predictor <~ core (WaterQualityPredictor.__init__ "ml") ;;
        _ <~ app_logger INFO [Text "Model reloaded successfully"] ;;
        reply_with (Some new_predictor))
      (fun e =>
         _ <~ app_logger ERROR [Text "Error reloading model: "; Str e] ;;
         raise_in_app (HTTPException 500 (Lit "Model reload failed"))) s in
    match reloaded with
    | (Reply new_predictor, s') =>
        (Reply (<["status" := "success"]> (<["message" := "Model reloaded"]> ∅)),
         (new_predictor, s'))
    | (Raised r, s') => (Raised r, (predictor, s'))
    end.

End Service.

(** ** Vocabulary of the properties *)

(** The world after more records have been logged. *)
Definition logged (records : list log_record) (w : world) : world :=
  with_logs (logs w ++ records) w.

(** A world without files, where every path can be written. *)
Definition empty_world : world := {| fs := ∅; unwritable := ∅; logs := [] |}.

(** [needle] occurs in [hay]. *)
Fixpoint occurs (needle hay : string) : bool :=
  String.prefix needle hay ||
  match hay with
  | EmptyString => false
  | String _ rest => occurs needle rest
  end.

(** Bounds on a float, as propositions. *)
Definition nonneg (x : pyfloat) : Prop :=
  match x with Fin q => 0 <= q | _ => False end.

Definition at_most (x : pyfloat) (c : Q) : Prop :=
  match x with Fin q => q <= c | NegInf => True | _ => False end.

Definition above (x : pyfloat) (c : Q) : Prop :=
  match x with Fin q => c < q | PosInf => True | _ => False end.

Definition in_range (lo hi : Q) (x : pyfloat) : Prop :=
  match x with Fin q => lo <= q /\ q <= hi | _ => False end.

(** A list that makes a FeatureRecord: nine finite values, none negative,
    the first (pH) at most 14. *)
Definition valid_features (l : list pyfloat) : Prop :=
  length l = 9%nat /\ Forall nonneg l /\
  exists pH, l !! 0%nat = Some pH /\ at_most pH 14.

(** [min(hi, max(lo, v))] with the order of the rationals. *)
Definition clamp (lo hi v : Q) : Q := Qmin hi (Qmax lo v).

(** The engine [__init__] leaves behind when it installs the fallback. *)
Definition fallback_engine (model_dir : string) : WaterQualityPredictor.t :=
  {| WaterQualityPredictor.model_dir := model_dir;
     WaterQualityPredictor.model := Some (ObjModel MockModel.new);
     WaterQualityPredictor.scaler := Some (ObjScaler MockScaler.new);
     WaterQualityPredictor.feature_names := Some (ObjNames canonical_feature_names);
     WaterQualityPredictor.model_version := "fallback-1.0.0";
     WaterQualityPredictor.is_loaded := false |}.

(** The inputs the specification names. *)
Definition safe_sample : list pyfloat :=
  map Fin [7.0; 200.0; 20000.0; 7.0; 300.0; 500.0; 15.0; 80.0; 4.0].

Definition ph15_sample : list pyfloat :=
  map Fin [15.0; 200.0; 20000.0; 7.0; 300.0; 500.0; 15.0; 80.0; 4.0].

Definition short_sample : list pyfloat := map Fin [7.0; 200.0; 20000.0].

Definition turbid_sample : list pyfloat :=
  map Fin [7.0; 200.0; 20000.0; 7.0; 300.0; 500.0; 15.0; 80.0; 6.0].

(** A failure that is a shape error whose message names the expected
    length, nine, and the length that was received. *)
Definition names_both_lengths (received : nat) (e : exn) : Prop :=
  exists text, e = ValueError ShapeError text /\
    occurs (str_nat 9) text = true /\ occurs (str_nat received) text = true.

(** The record [predict] logs before it raises again. *)
Definition prediction_error_record (e : exn) : log_record :=
  LogRecord ERROR [Lit "Error making prediction: "; Exc e].

(** What the loop of [validate_inference_data] finds for one entry of
    [feature_ranges]: a value of the feature below the minimum, a value above
    the typical maximum. *)
Definition below_minimum (features : matrix) (item : nat * (Z * Z)) : bool :=
  let '(i, (min_val, _)) := item in
  (i <? shape1 features)%nat &&
  existsb (fun v => flt v (of_int min_val)) (column features i).

Definition above_maximum (features : matrix) (item : nat * (Z * Z)) : bool :=
  let '(i, (_, max_val)) := item in
  (i <? shape1 features)%nat &&
  existsb (fun v => flt (of_int max_val) v) (column features i).

(** The warning logged for an entry with a value above the typical maximum. *)
Definition range_warning (feature_names : list string) (item : nat * (Z * Z))
    : log_record :=
  let '(i, (_, max_val)) := item in
  LogRecord WARNING
    [Lit ("Feature " +:+ default "" (feature_names !! i)
          +:+ " has values above typical maximum (" +:+ str_int max_val +:+ ")")].

Definition range_warnings (features : matrix) (feature_names : list string)
    (ranges : list (nat * (Z * Z))) : list log_record :=
  map (range_warning feature_names)
    (filter (fun item => above_maximum features item = true) ranges).

(** The message of the error raised for an entry with a value below the
    minimum. *)
Definition below_minimum_message (name : string) (min_val : Z) : string :=
  "Feature " +:+ name +:+ " has values below minimum (" +:+ str_int min_val +:+ ")".

Definition validation_passed_record : log_record :=
  LogRecord DEBUG [Lit "Inference data validation passed"].

(** A row with a negative hardness, and a row whose solids and turbidity are
    above their typical maxima. *)
Definition negative_sample : list pyfloat :=
  map Fin [7.0; -200.0; 20000.0; 7.0; 300.0; 500.0; 15.0; 80.0; 4.0].

Definition unusual_sample : list pyfloat :=
  map Fin [7.0; 200.0; 60000.0; 7.0; 300.0; 500.0; 15.0; 80.0; 25.0].

(** A results dictionary with a training F1 of 0.9 and a test F1 of 0.6. *)
Definition sample_results : gmap string pyval :=
  <["train_f1" := VFloat 0.9]> (<["f1" := VFloat 0.6]> ∅).

(** A training run to evaluate [train_from_file] on: stages that succeed
    at once, the second setting the scaler, the third setting the model and
    returning [sample_results]; and a world where the model file cannot be
    written. *)
Definition sample_load_data (data_path : string)
    : M (WaterQualityTrainer.t * world) unit :=
  ret tt.

Definition sample_preprocess_data (data : unit)
    : M (WaterQualityTrainer.t * world) unit :=
  set_self (WaterQualityTrainer.set_scaler (Some (ObjScaler MockScaler.new))).

Definition sample_train_model (Xy : unit)
    : M (WaterQualityTrainer.t * world) (gmap string pyval) :=
  set_self (WaterQualityTrainer.set_model (Some (ObjModel MockModel.new))) ;;
  ret sample_results.

Definition untrained (model_dir : string) : WaterQualityTrainer.t :=
  {| WaterQualityTrainer.model_dir := model_dir;
     WaterQualityTrainer.model := None;
     WaterQualityTrainer.scaler := None;
     WaterQualityTrainer.feature_names := canonical_feature_names |}.

Definition read_only_world : world :=
  {| fs := ∅; unwritable := {[ "ml/model.pkl" ]}; logs := [] |}.

(** The record [save_model] logs when its [try] block raises. *)
Definition save_error_record (e : exn) : log_record :=
  LogRecord ERROR [Lit "Error saving model: "; Exc e].

(** The record that closes [train_from_file], by the outcome of saving. *)
Definition pipeline_record (saved : bool) : log_record :=
  if saved then LogRecord INFO [Lit "Training pipeline completed successfully"]
  else LogRecord WARNING [Lit "Model training completed but saving failed"].

(** The trainer once the sample stages have run. *)
Definition trained (model_dir : string) : WaterQualityTrainer.t :=
  WaterQualityTrainer.set_model (Some (ObjModel MockModel.new))
    (WaterQualityTrainer.set_scaler (Some (ObjScaler MockScaler.new))
       (untrained model_dir)).

(** The probabilities the classifier of [self] gives for the first row of
    [features], once scaled by the scaler of [self]; and the label it gives. *)
Definition probabilities_of (self : WaterQualityPredictor.t) (features : matrix)
    (probabilities : list pyfloat) : Prop :=
  exists the_scaler the_model features_scaled rest,
    WaterQualityPredictor.scaler self = Some (ObjScaler the_scaler) /\
    WaterQualityPredictor.model self = Some (ObjModel the_model) /\
    Transformer.transform the_scaler features = Returns features_scaled /\
    Estimator.predict_proba the_model features_scaled = Returns (probabilities :: rest).

Definition label_of (self : WaterQualityPredictor.t) (features : matrix)
    (label : Z) : Prop :=
  exists the_scaler the_model features_scaled rest,
    WaterQualityPredictor.scaler self = Some (ObjScaler the_scaler) /\
    WaterQualityPredictor.model self = Some (ObjModel the_model) /\
    Transformer.transform the_scaler features = Returns features_scaled /\
    Estimator.predict the_model features_scaled = Returns (label :: rest).

(** [c] is the greater of [p0] and [p1]. *)
Definition is_max_of (c p0 p1 : pyfloat) : Prop :=
  (c = p0 \/ c = p1) /\ fle p0 c = true /\ fle p1 c = true.

(** What the fallback engine answers on [safe_sample], and the world it
    leaves behind when started in [empty_world]. *)
Definition safe_output : PredictionOutput.t :=
  {| PredictionOutput.prediction := 1;
     PredictionOutput.probability := Fin (0.5 + 0.25 + 0.15);
     PredictionOutput.confidence := Fin (0.5 + 0.25 + 0.15);
     PredictionOutput.result := "Safe";
     PredictionOutput.model_version := "fallback-1.0.0";
     PredictionOutput.features_used := canonical_feature_names |}.

Definition prediction_record (result : string) (confidence : pyfloat) : log_record :=
  LogRecord INFO [Lit ("Prediction made: " +:+ result +:+ " (confidence: ");
                  Float3 confidence; Lit ")"].

(** The two tests of the fallback rule, and the probability of the safe
    class they lead to. *)
Definition ph_in_rule (pH : pyfloat) : bool :=
  fle (Fin 6.5) pH && fle pH (Fin 8.5).

Definition turbidity_in_rule (turbidity : pyfloat) : bool :=
  fle turbidity (Fin 5.0).

Definition safe_probability (ph_ok turbidity_ok : bool) : Q :=
  let base_prob := 0.5 in
  let base_prob := if ph_ok then base_prob + 0.25 else base_prob in
  let base_prob := if turbidity_ok then base_prob + 0.15 else base_prob in
  qmin2 0.99 (qmax2 0.01 base_prob).

(** What the fallback engine answers on a record with these pH and
    turbidity. *)
Definition fallback_output (pH turbidity : pyfloat) : PredictionOutput.t :=
  let safe_prob := safe_probability (ph_in_rule pH) (turbidity_in_rule turbidity) in
  let unsafe_prob := 1 - safe_prob in
  let safe := ph_in_rule pH && turbidity_in_rule turbidity in
  {| PredictionOutput.prediction := if safe then 1%Z else 0%Z;
     PredictionOutput.probability := Fin safe_prob;
     PredictionOutput.confidence :=
       if flt (Fin unsafe_prob) (Fin safe_prob) then Fin safe_prob
       else Fin unsafe_prob;
     PredictionOutput.result := if safe then "Safe" else "Not Safe";
     PredictionOutput.model_version := "fallback-1.0.0";
     PredictionOutput.features_used := canonical_feature_names |}.

(** The records [__init__] logs when it finds no model files. *)
Definition fallback_records (model_dir : string) : list log_record :=
  [ LogRecord WARNING [Lit ("Model files not found in " +:+ model_dir)];
    LogRecord WARNING [Lit "No trained model found, using fallback model"];
    LogRecord INFO [Lit "Fallback model initialized"] ].

(** A computation that does nothing to the world but log: its outcome and
    the records it logs are the same in every world. *)
Definition logs_only {A} (m : M world A) : Prop :=
  exists o records, forall w, m w = (o, logged records w).

(** The outcome of [predict] on an input. *)
Definition answer (self : WaterQualityPredictor.t) (input_data : input)
    : outcome PredictionOutput.t :=
  fst (WaterQualityPredictor.predict self input_data empty_world).

(** The message of the shape error of [validate_inference_data]. *)
Definition width_message (expected received : nat) : string :=
  "Expected " +:+ str_nat expected +:+ " features, got " +:+ str_nat received.

(** The keyword arguments a list of values stands for, by position. *)
Definition as_kwargs (l : list pyfloat) : gmap string pyfloat :=
  list_to_map (zip canonical_feature_names l).

(** What the field checks of [PredictionInput] let through: a value that is
    not below 0, and for pH not above 14. *)
Definition passes_ge0 (x : pyfloat) : Prop := fle (of_int 0) x = true.

Definition passes_fields (l : list pyfloat) : Prop :=
  length l = 9%nat /\ Forall passes_ge0 l /\
  exists pH, l !! 0%nat = Some pH /\ fle pH (of_int 14) = true.

(** The record [validate_input] logs when the fields are rejected. *)
Definition input_validation_record (e : exn) : log_record :=
  LogRecord ERROR [Lit "Input validation failed: "; Exc e].

(** A dictionary that passes the field checks of [PredictionInput]. *)
Definition passes_dict (d : gmap string pyfloat) : Prop :=
  forall name, name ∈ canonical_feature_names ->
    exists v, d !! name = Some v /\ passes_ge0 v /\
              (name = "pH" -> fle v (of_int 14) = true).

(** The error of the check for infinite values. *)
Definition infinite_error : exn :=
  ValueError NonFiniteError "Features contain infinite values".

(** A sample whose solids are [inf], one whose solids are [nan], and the
    safe sample as a dictionary with one more key. *)
Definition infinite_sample : list pyfloat :=
  [Fin 7.0; Fin 200.0; PosInf; Fin 7.0; Fin 300.0; Fin 500.0; Fin 15.0;
   Fin 80.0; Fin 4.0].

Definition nan_sample : list pyfloat :=
  [Fin 7.0; Fin 200.0; NaN; Fin 7.0; Fin 300.0; Fin 500.0; Fin 15.0;
   Fin 80.0; Fin 4.0].

Definition nan_ph_sample : list pyfloat :=
  [NaN; Fin 200.0; Fin 20000.0; Fin 7.0; Fin 300.0; Fin 500.0; Fin 15.0;
   Fin 80.0; Fin 4.0].

(** The bound a NaN is reported against: the upper bound for the pH, which
    has one, and the lower bound for the other fields. *)
Definition nan_report (name : string) : field_error :=
  if String.eqb name "pH" then NotLe 14 else NotGe 0.

Definition safe_dict_with_source : gmap string pyfloat :=
  <["source" := Fin 1.0]> (as_kwargs safe_sample).

(** What the fallback classifier answers for one row: a label and a pair of
    probabilities, the second of which is the probability [p] of the safe
    class. *)
Definition mock_answer (label : Z) (row : list pyfloat) : Prop :=
  exists p : Q,
    row = [Fin (1 - p); Fin p] /\
    (p == 0.5 \/ p == 0.65 \/ p == 0.75 \/ p == 0.9) /\
    (label = 1%Z /\ p == 0.9 \/ label = 0%Z /\ ~ p == 0.9).

(** The files [load_model] needs in [model_dir]: a model file and a scaler
    file that unpickle, and a feature file that unpickles or is absent, in
    which case the names are the nine canonical ones. *)
Definition artifacts (model_dir : string) (w : world) (m s names : pyobj) : Prop :=
  fs w !! path_join model_dir "model.pkl" = Some (Pickle m) /\
  fs w !! path_join model_dir "scaler.pkl" = Some (Pickle s) /\
  (fs w !! path_join model_dir "features.pkl" = Some (Pickle names) \/
   fs w !! path_join model_dir "features.pkl" = None /\
   names = ObjNames canonical_feature_names).

(** The engine once [load_model] has succeeded. *)
Definition loaded_engine (model_dir version : string) (m s names : pyobj)
    : WaterQualityPredictor.t :=
  {| WaterQualityPredictor.model_dir := model_dir;
     WaterQualityPredictor.model := Some m;
     WaterQualityPredictor.scaler := Some s;
     WaterQualityPredictor.feature_names := Some names;
     WaterQualityPredictor.model_version := version;
     WaterQualityPredictor.is_loaded := true |}.

(** The records of [load_model]. *)
Definition load_error_record (e : exn) : log_record :=
  LogRecord ERROR [Lit "Error loading model: "; Exc e].

Definition model_loaded_record : log_record :=
  LogRecord INFO [Lit "Model loaded successfully"].

Definition files_not_found_record (model_dir : string) : log_record :=
  LogRecord WARNING [Lit ("Model files not found in " +:+ model_dir)].

(** A directory whose model file unpickles and whose scaler file does not. *)
Definition half_corrupt_world : world :=
  {| fs := <["ml/model.pkl" := Pickle (ObjModel MockModel.new)]>
             (<["ml/scaler.pkl" := Corrupt]> ∅);
     unwritable := ∅; logs := [] |}.

(** The engine as [__init__] sets it up before it tries to load. *)
Definition blank_engine (model_dir : string) : WaterQualityPredictor.t :=
  {| WaterQualityPredictor.model_dir := model_dir;
     WaterQualityPredictor.model := None;
     WaterQualityPredictor.scaler := None;
     WaterQualityPredictor.feature_names := None;
     WaterQualityPredictor.model_version := "1.0.0";
     WaterQualityPredictor.is_loaded := false |}.

(** The records [save_model] logs once model and scaler are written. *)
Definition saved_records (model_dir : string) : list log_record :=
  [ LogRecord INFO [Lit ("Model saved to " +:+ path_join model_dir "model.pkl")];
    LogRecord INFO [Lit ("Scaler saved to " +:+ path_join model_dir "scaler.pkl")] ].

(** [path] can be written. *)
Definition writable (w : world) (path : string) : Prop := path ∉ unwritable w.

(** A trainer whose model and scaler are set. *)
Definition ready (trainer : WaterQualityTrainer.t) (m s : pyobj) : Prop :=
  WaterQualityTrainer.model trainer = Some m /\
  WaterQualityTrainer.scaler trainer = Some s.

(** A directory that holds an earlier scaler and in which the scaler file
    cannot be written again. *)
Definition stale_scaler_world : world :=
  {| fs := <["ml/scaler.pkl" := Pickle (ObjScaler MockScaler.new)]> ∅;
     unwritable := {[ "ml/scaler.pkl" ]}; logs := [] |}.

(** The record [train_from_file] logs when a stage raises. *)
Definition pipeline_failed_record (e : exn) : log_record :=
  LogRecord ERROR [Lit "Training pipeline failed: "; Exc e].

(** The number a value of the results stands for, if it is one. *)
Definition number_of (v : pyval) : option Q :=
  match v with
  | VFloat q => Some q
  | VBool b => Some (if b then 1 else 0)
  | VOther => None
  end.

(** The record [predict_batch] logs when an input is rejected. *)
Definition batch_error_record (e : exn) : log_record :=
  LogRecord ERROR [Lit "Error in batch prediction: "; Exc e].

(** What an endpoint makes of an outcome of the core: the result, status
    400 with the text of the error for a [ValueError], status 500 with
    [failure] otherwise. *)
Definition delivered {A} (failure : string) (o : outcome A) : reply A :=
  match o with
  | Returns a => Reply a
  | Raises e =>
      if is_ValueError e then Raised (HTTPException 400 (Exc e))
      else Raised (HTTPException 500 (Lit failure))
  end.

(** The error of the batch endpoint for a sample of the wrong length. *)
Definition sample_length_error (received : nat) : exn :=
  ValueError ShapeError
    ("Each sample must have exactly 9 features, got " +:+ str_nat received).

(** The value at row [r] and column [j]. *)
Definition cell (X : matrix) (r j : nat) : option pyfloat :=
  X !! r ≫= (fun row : list pyfloat => row !! j).

(** What a value of column [j] of [X] becomes: a NaN becomes the median of
    the values of the column that are not NaN, when there is one. *)
Definition filled (X : matrix) (j : nat) (v : pyfloat) : pyfloat :=
  if isnan v && (0 <? length (present (column X j)))%nat
  then np_median (present (column X j))
  else v.

(** A column that does not hold both [inf] and [-inf]. *)
Definition one_sided (col : list pyfloat) : Prop :=
  Forall (fun v => v <> NegInf) col \/ Forall (fun v => v <> PosInf) col.

(** A matrix whose second column holds a NaN next to the values 1 and 3. *)
Definition gappy_matrix : matrix :=
  [ [Fin 7.0; Fin 1.0]; [Fin 6.5; NaN]; [Fin 8.0; Fin 3.0] ].

(** The record [validate_model_output] logs when it accepts. *)
Definition output_passed_record : log_record :=
  LogRecord DEBUG [Lit "Model output validation passed"].

(** The engine is what [__init__] makes of the directory "ml" in [w]: the
    engine loaded from its artifacts, or the fallback engine. *)
Definition engine_of_directory (w : world) (engine : WaterQualityPredictor.t)
    : Prop :=
  (exists m s names,
     artifacts "ml" w m s names /\ engine = loaded_engine "ml" "1.0.0" m s names) \/
  ((forall m s names, ~ artifacts "ml" w m s names) /\
   engine = fallback_engine "ml").

(** * Properties *)

(** ** The monad *)

Section MonadFacts.

Context {S A B : Type}.
Implicit Types (m : M S A) (k : A -> M S B) (s : S).

Lemma bind_returns m k s a s1 :
  m s = (Returns a, s1) -> bind m k s = k a s1.
Proof. intros H. unfold bind. now rewrite H. Qed.

Lemma bind_raises m k s e s1 :
  m s = (Raises e, s1) -> bind m k s = (Raises e, s1).
Proof. intros H. unfold bind. now rewrite H. Qed.

Lemma bind_inv_returns m k s b s2 :
  bind m k s = (Returns b, s2) ->
  exists a s1, m s = (Returns a, s1) /\ k a s1 = (Returns b, s2).
Proof.
  unfold bind. destruct (m s) as [[a|e] s1]; intros H.
  - now exists a, s1.
  - discriminate.
Qed.

Lemma try_except_returns m (h : exn -> M S A) s a s1 :
  m s = (Returns a, s1) -> try_except m h s = (Returns a, s1).
Proof. intros H. unfold try_except. now rewrite H. Qed.

Lemma try_except_raises m (h : exn -> M S A) s e s1 :
  m s = (Raises e, s1) -> try_except m h s = h e s1.
Proof. intros H. unfold try_except. now rewrite H. Qed.

End MonadFacts.

(** A handler that logs and raises again never turns a failure into a
    result. *)
Lemma reraise_inv_returns {A} (m : M world A) (note : exn -> list fragment) w a w' :
  try_except m (fun e => logger ERROR (note e) ;; raise e) w = (Returns a, w') ->
  m w = (Returns a, w').
Proof.
  unfold try_except. destruct (m w) as [[x|e] w1]; [easy|].
  unfold bind, logger, raise. discriminate.
Qed.

Lemma reraise_raises {A} (m : M world A) (note : exn -> list fragment) w e w1 :
  m w = (Raises e, w1) ->
  try_except m (fun e => logger ERROR (note e) ;; raise e) w
  = (Raises e, logged [LogRecord ERROR (note e)] w1).
Proof. intros H. unfold try_except. rewrite H. reflexivity. Qed.

(** ** Rejections of [predict] at its first step *)

Import WaterQualityPredictor.

Lemma convert_input_ph15 w :
  convert_input (InList ph15_sample) w
  = (Raises (ValidationError "PredictionInput" [("pH", NotLe 14)]), w).
Proof. reflexivity. Qed.

Lemma convert_input_wrong_length (l : list pyfloat) w :
  length l <> 9%nat ->
  convert_input (InList l) w
  = (Raises (ValueError ShapeError "Input list must have exactly 9 features"), w).
Proof.
  intros H. unfold convert_input.
  destruct (Nat.eqb_spec (length l) 9) as [E|E]; [contradiction|].
  reflexivity.
Qed.

(** What [predict] does when the conversion of the input raises: nothing
    after the conversion runs, the failure is logged and raised again. *)
Lemma predict_conversion_raises self input_data w e w1 :
  convert_input input_data w = (Raises e, w1) ->
  predict self input_data w = (Raises e, logged [prediction_error_record e] w1).
Proof.
  intros H. unfold predict.
  apply (reraise_raises _ (fun e => [Lit "Error making prediction: "; Exc e])).
  now apply bind_raises.
Qed.

(** C4.  [predict] on [[15.0, 200.0, 20000.0, 7.0, 300.0, 500.0, 15.0, 80.0,
    4.0]] fails with a range violation on pH (15 is above the bound 14).  The
    failure arises in the conversion of the list to a [PredictionInput], the
    first step of [predict], so the scaler and the classifier are not
    reached: the outcome is the same for every engine, whatever its scaler
    and classifier are, and the only trace left is the error record. *)
Theorem predict_ph15_range_error (self : WaterQualityPredictor.t) (w : world) :
  let e := ValidationError "PredictionInput" [("pH", NotLe 14)] in
  convert_input (InList ph15_sample) w = (Raises e, w) /\
  predict self (InList ph15_sample) w
  = (Raises e, logged [prediction_error_record e] w) /\
  class_of e = Some RangeError.
Proof.
  cbv zeta. split; [apply convert_input_ph15|]. split; [|reflexivity].
  apply predict_conversion_raises, convert_input_ph15.
Qed.

(** C5, as the specification states it, fails on the list
    [[7.0, 200.0, 20000.0]]: the failure of [predict] is a shape error, but
    its message does not name the received length 3. *)
Lemma short_list_message_omits_received_length :
  ~ exists e w',
      predict (fallback_engine "ml") (InList short_sample) empty_world = (Raises e, w') /\
      names_both_lengths (length short_sample) e.
Proof.
  intros (e & w' & H & text & -> & _ & H3).
  rewrite (predict_conversion_raises _ _ _ _ _
             (convert_input_wrong_length short_sample empty_world ltac:(discriminate))) in H.
  injection H as H _. subst text.
  vm_compute in H3. discriminate.
Qed.

(** C5, amended.  On every list whose length is not 9, [predict] fails with
    a shape error whose message is exactly "Input list must have exactly 9
    features": it names the expected length and is the same for every
    received length. *)
Theorem predict_wrong_length_shape_error
    (self : WaterQualityPredictor.t) (l : list pyfloat) (w : world) :
  length l <> 9%nat ->
  let text := "Input list must have exactly 9 features" in
  predict self (InList l) w
  = (Raises (ValueError ShapeError text),
     logged [prediction_error_record (ValueError ShapeError text)] w) /\
  class_of (ValueError ShapeError text) = Some ShapeError /\
  occurs (str_nat 9) text = true.
Proof.
  intros H. cbv zeta. split; [|split; reflexivity].
  now apply predict_conversion_raises, convert_input_wrong_length.
Qed.

Lemma predict_wrong_length_shape_error_witness :
  length short_sample <> 9%nat /\
  fst (predict (fallback_engine "ml") (InList short_sample) empty_world)
  = Raises (ValueError ShapeError "Input list must have exactly 9 features").
Proof.
  split; [discriminate|].
  rewrite (proj1 (predict_wrong_length_shape_error (fallback_engine "ml")
                    short_sample empty_world ltac:(discriminate))).
  reflexivity.
Defined.

(** ** The validator *)

Lemma logged_nil w : logged [] w = w.
Proof. destruct w. unfold logged, with_logs. simpl. now rewrite app_nil_r. Qed.

Lemma logged_logged l1 l2 w : logged l2 (logged l1 w) = logged (l1 ++ l2) w.
Proof. unfold logged, with_logs. simpl. now rewrite app_assoc. Qed.

Lemma check_feature_range_skips features names i mn mx w :
  (i <? shape1 features)%nat = false ->
  check_feature_range features names (i, (mn, mx)) w = (Returns tt, w).
Proof. intros H. unfold check_feature_range, when. now rewrite H. Qed.

Lemma check_feature_range_checks features names i mn mx w name :
  (i <? shape1 features)%nat = true ->
  names !! i = Some name ->
  check_feature_range features names (i, (mn, mx)) w =
    if below_minimum features (i, (mn, mx)) then
      (Raises (ValueError RangeError (below_minimum_message name mn)), w)
    else if above_maximum features (i, (mn, mx)) then
      (Returns tt, logged [range_warning names (i, (mn, mx))] w)
    else (Returns tt, w).
Proof.
  intros Hi Hn. unfold check_feature_range, below_minimum, above_maximum, range_warning.
  rewrite Hi, Hn. cbn [andb when default].
  unfold bind, when, index. rewrite Hn.
  destruct (existsb _ (column features i)); [reflexivity|].
  destruct (existsb _ (column features i)); reflexivity.
Qed.

Lemma for_each_ranges features names ranges w :
  shape1 features = length names ->
  if existsb (below_minimum features) ranges then
    exists i min_val max_val name w',
      In (i, (min_val, max_val)) ranges /\
      below_minimum features (i, (min_val, max_val)) = true /\
      names !! i = Some name /\
      for_each ranges (check_feature_range features names) w
      = (Raises (ValueError RangeError (below_minimum_message name min_val)), w')
  else
    for_each ranges (check_feature_range features names) w
    = (Returns tt, logged (range_warnings features names ranges) w).
Proof.
  intros Hshape. revert w.
  induction ranges as [|[i [mn mx]] rest IH]; intros w.
  - cbn. now rewrite logged_nil.
  - cbn [existsb for_each]. unfold range_warnings. cbn [filter list_filter].
    assert (forall w1,
      existsb (below_minimum features) rest = true ->
      exists i0 min_val max_val name w',
        In (i0, (min_val, max_val)) ((i, (mn, mx)) :: rest) /\
        below_minimum features (i0, (min_val, max_val)) = true /\
        names !! i0 = Some name /\
        for_each rest (check_feature_range features names) w1
        = (Raises (ValueError RangeError (below_minimum_message name min_val)), w'))
      as Hrest.
    { intros w1 Hb. specialize (IH w1). rewrite Hb in IH.
      destruct IH as (i0 & mn0 & mx0 & name & w' & Hin & Hlow & Hname & Hrun).
      exists i0, mn0, mx0, name, w'. repeat split; try assumption. now right. }
    destruct (i <? shape1 features)%nat eqn:Hi.
    + assert (exists name, names !! i = Some name) as [name Hn].
      { apply lookup_lt_is_Some. apply Nat.ltb_lt in Hi. lia. }
      pose proof (check_feature_range_checks _ _ _ mn mx w name Hi Hn) as Hc.
      destruct (below_minimum features (i, (mn, mx))) eqn:Hb; cbn [orb].
      { rewrite (bind_raises _ _ _ _ _ Hc).
        exists i, mn, mx, name, w. repeat split; try assumption. now left. }
      destruct (above_maximum features (i, (mn, mx))) eqn:Ha;
        rewrite (bind_returns _ _ _ _ _ Hc).
      * specialize (IH (logged [range_warning names (i, (mn, mx))] w)).
        destruct (existsb (below_minimum features) rest) eqn:Hb';
          [now apply Hrest|].
        rewrite IH, logged_logged, decide_True by reflexivity. reflexivity.
      * specialize (IH w).
        destruct (existsb (below_minimum features) rest) eqn:Hb';
          [now apply Hrest|].
        rewrite IH, decide_False by discriminate. reflexivity.
    + pose proof (check_feature_range_skips _ names _ mn mx w Hi) as Hc.
      rewrite (bind_returns _ _ _ _ _ Hc).
      assert (below_minimum features (i, (mn, mx)) = false) as ->
        by (unfold below_minimum; now rewrite Hi).
      assert (above_maximum features (i, (mn, mx)) = false) as ->
        by (unfold above_maximum; now rewrite Hi).
      rewrite decide_False by discriminate. cbn [orb].
      specialize (IH w).
      destruct (existsb (below_minimum features) rest) eqn:Hb';
        [now apply Hrest|exact IH].
Qed.

Lemma validate_inference_data_finite features names w :
  shape1 features = length names ->
  np_any isnan features = false ->
  np_any isinf features = false ->
  validate_inference_data features names w
  = (for_each feature_ranges (check_feature_range features names) ;;
     logger DEBUG [Lit "Inference data validation passed"]) w.
Proof.
  intros Hs Hn Hi. unfold validate_inference_data.
  rewrite Hs, Nat.eqb_refl, Hn, Hi. reflexivity.
Qed.

(** C6.  On a matrix that passes the checks made before the ranges are
    looked at (as wide as [feature_names], no NaN, no infinity),
    [validate_inference_data] fails exactly when some feature has a value
    strictly below its minimum, and then with the range error that names such
    a feature and its minimum.  Values above a typical maximum never make it
    fail: when no value is below its minimum the call returns, and all it
    leaves behind is one warning for each feature with a value above its
    typical maximum, followed by the closing debug record. *)
Theorem validate_inference_data_ranges
    (features : matrix) (feature_names : list string) (w : world) :
  shape1 features = length feature_names ->
  np_any isnan features = false ->
  np_any isinf features = false ->
  (existsb (below_minimum features) feature_ranges = true ->
   exists i min_val max_val name w',
     In (i, (min_val, max_val)) feature_ranges /\
     below_minimum features (i, (min_val, max_val)) = true /\
     feature_names !! i = Some name /\
     validate_inference_data features feature_names w
     = (Raises (ValueError RangeError (below_minimum_message name min_val)), w')) /\
  (existsb (below_minimum features) feature_ranges = false ->
   validate_inference_data features feature_names w
   = (Returns tt,
      logged (range_warnings features feature_names feature_ranges
              ++ [validation_passed_record]) w)).
Proof.
  intros Hs Hn Hi.
  rewrite (validate_inference_data_finite _ _ _ Hs Hn Hi).
  pose proof (for_each_ranges features feature_names feature_ranges w Hs) as H.
  split; intros Hb; rewrite Hb in H.
  - destruct H as (i & mn & mx & name & w' & Hin & Hlow & Hname & H).
    exists i, mn, mx, name, w'. repeat split; try assumption.
    now apply bind_raises.
  - rewrite (bind_returns _ _ _ _ _ H). unfold logger.
    now rewrite <- logged_logged.
Qed.

Lemma validate_inference_data_ranges_witness :
  (exists i min_val max_val name w',
     In (i, (min_val, max_val)) feature_ranges /\
     below_minimum [negative_sample] (i, (min_val, max_val)) = true /\
     canonical_feature_names !! i = Some name /\
     validate_inference_data [negative_sample] canonical_feature_names empty_world
     = (Raises (ValueError RangeError (below_minimum_message name min_val)), w')) /\
  validate_inference_data [unusual_sample] canonical_feature_names empty_world
  = (Returns tt,
     logged [ LogRecord WARNING
                [Lit "Feature Solids has values above typical maximum (50000)"];
              LogRecord WARNING
                [Lit "Feature Turbidity has values above typical maximum (20)"];
              validation_passed_record ] empty_world).
Proof.
  split.
  - apply (proj1 (validate_inference_data_ranges [negative_sample]
                    canonical_feature_names empty_world
                    eq_refl eq_refl eq_refl)).
    reflexivity.
  - apply (proj2 (validate_inference_data_ranges [unusual_sample]
                    canonical_feature_names empty_world
                    eq_refl eq_refl eq_refl)).
    reflexivity.
Defined.

(** ** The overfitting score *)

Lemma qmax2_Qmax a b : qmax2 a b == Qmax a b.
Proof.
  unfold qmax2. destruct (Qle_bool b a) eqn:E; cbn [negb].
  - apply Qle_bool_iff in E. symmetry. now apply Q.max_l.
  - assert (a <= b) as H.
    { apply Qlt_le_weak, Qnot_le_lt. intros H. apply Qle_bool_iff in H. congruence. }
    symmetry. now apply Q.max_r.
Qed.

Lemma zero_point_zero : 0.0 == 0.
Proof. reflexivity. Qed.

Lemma qmin2_Qmin a b : qmin2 a b == Qmin a b.
Proof.
  unfold qmin2. destruct (Qle_bool a b) eqn:E; cbn [negb].
  - apply Qle_bool_iff in E. symmetry. now apply Q.min_l.
  - assert (b <= a) as H.
    { apply Qlt_le_weak, Qnot_le_lt. intros H. apply Qle_bool_iff in H. congruence. }
    symmetry. now apply Q.min_r.
Qed.

Import ModelEvaluator.

Lemma _calculate_overfitting_floats {S} (results : gmap string pyval) (tr te : Q) (s : S) :
  results !! "train_f1" = Some (VFloat tr) ->
  results !! "f1" = Some (VFloat te) ->
  _calculate_overfitting results s
  = (Returns (if Qeq_bool tr 0 then 0.0 else qmax2 0.0 ((tr - te) / tr)), s).
Proof.
  intros Htr Hte. unfold _calculate_overfitting, try_except.
  rewrite Htr, Hte. cbn [default from_option id eq_zero].
  destruct (Qeq_bool tr 0) eqn:E; [reflexivity|].
  unfold py_sub, py_div, as_number, bind, ret. rewrite E. reflexivity.
Qed.

(** C7.  With a training F1 [train_f1] and a test F1 [test_f1] in the results,
    [_calculate_overfitting] returns a score that is
    [max(0, (train_f1 - test_f1) / train_f1)] when [train_f1] is not zero, 0
    when [train_f1] is zero, and 0 when the two are equal.  For a fixed
    positive [train_f1] the score tends to 1 as [test_f1] goes to 0: it stays
    at most 1 and, for every [eps > 0], is above [1 - eps] for all
    non-negative [test_f1] below some positive [delta]. *)
Theorem overfitting_score_formula :
  (forall (S : Type) (results : gmap string pyval) (train_f1 test_f1 : Q) (s : S),
     results !! "train_f1" = Some (VFloat train_f1) ->
     results !! "f1" = Some (VFloat test_f1) ->
     exists score,
       _calculate_overfitting results s = (Returns score, s) /\
       (~ train_f1 == 0 -> score == Qmax 0 ((train_f1 - test_f1) / train_f1)) /\
       (train_f1 == 0 -> score == 0) /\
       (train_f1 == test_f1 -> score == 0)) /\
  (forall train_f1 eps : Q, 0 < train_f1 -> 0 < eps ->
     exists delta, 0 < delta /\
       forall (S : Type) (results : gmap string pyval) (test_f1 : Q) (s : S),
         results !! "train_f1" = Some (VFloat train_f1) ->
         results !! "f1" = Some (VFloat test_f1) ->
         0 <= test_f1 -> test_f1 < delta ->
         exists score,
           _calculate_overfitting results s = (Returns score, s) /\
           1 - eps < score /\ score <= 1).
Proof.
  split.
  - intros S results tr te s Htr Hte.
    eexists. split; [apply (_calculate_overfitting_floats _ _ _ _ Htr Hte)|].
    destruct (Qeq_bool tr 0) eqn:E.
    + apply Qeq_bool_iff in E. repeat split; intros; try reflexivity. contradiction.
    + assert (~ tr == 0) as Hnz by (intros H; apply Qeq_bool_iff in H; congruence).
      repeat split.
      * intros _. now rewrite qmax2_Qmax, zero_point_zero.
      * intros H. contradiction.
      * intros H. rewrite qmax2_Qmax.
        assert ((tr - te) / tr == 0) as -> by (rewrite H; field; now rewrite <- H).
        reflexivity.
  - intros tr eps Htr Heps. exists (eps * tr). split.
    { apply Qmult_lt_0_compat; assumption. }
    intros S results te s Hl1 Hl2 Hte Hlt.
    eexists. split; [apply (_calculate_overfitting_floats _ _ _ _ Hl1 Hl2)|].
    assert (~ tr == 0) as Hnz by (intros H; rewrite H in Htr; now apply Qlt_irrefl in Htr).
    assert (Qeq_bool tr 0 = false) as ->.
    { destruct (Qeq_bool tr 0) eqn:E; [|reflexivity]. apply Qeq_bool_iff in E. contradiction. }
    rewrite qmax2_Qmax, zero_point_zero.
    assert ((tr - te) / tr == 1 - te / tr) as -> by (field; exact Hnz).
    assert (0 <= te / tr) as H0.
    { apply Qle_shift_div_l; [exact Htr|]. now rewrite Qmult_0_l. }
    assert (te / tr < eps) as H1.
    { apply Qlt_shift_div_r; assumption. }
    split.
    + apply Qlt_le_trans with (1 - te / tr).
      * apply Qplus_lt_r with (z := te / tr + eps - 1). ring_simplify. exact H1.
      * apply Q.le_max_r.
    + apply Q.max_lub; [discriminate|].
      apply Qplus_le_r with (z := te / tr - 1). ring_simplify. exact H0.
Qed.

Lemma overfitting_score_formula_witness :
  (exists score,
     _calculate_overfitting sample_results tt = (Returns score, tt) /\
     score == 1 # 3) /\
  (exists delta, 0 < delta /\
     forall (S : Type) (results : gmap string pyval) (test_f1 : Q) (s : S),
       results !! "train_f1" = Some (VFloat 0.9) ->
       results !! "f1" = Some (VFloat test_f1) ->
       0 <= test_f1 -> test_f1 < delta ->
       exists score,
         _calculate_overfitting results s = (Returns score, s) /\
         1 - 0.5 < score /\ score <= 1).
Proof.
  split.
  - destruct (proj1 overfitting_score_formula unit sample_results 0.9 0.6 tt
                eq_refl eq_refl) as (score & H & Hnz & _).
    exists score. split; [exact H|].
    rewrite Hnz by discriminate. reflexivity.
  - exact (proj2 overfitting_score_formula 0.9 0.5 eq_refl eq_refl).
Defined.

(** ** Probability and confidence of a prediction *)

Lemma fle_Fin a b : fle (Fin a) (Fin b) = true <-> a <= b.
Proof. apply Qle_bool_iff. Qed.

Lemma flt_Fin a b : flt (Fin a) (Fin b) = true <-> a < b.
Proof.
  cbn. rewrite negb_true_iff. split.
  - intros H. apply Qnot_le_lt. intros H1. apply Qle_bool_iff in H1. congruence.
  - intros H. destruct (Qle_bool b a) eqn:E; [|reflexivity].
    apply Qle_bool_iff in E. exfalso. exact (Qlt_not_le _ _ H E).
Qed.

Lemma flt_Fin_false a b : flt (Fin a) (Fin b) = false <-> b <= a.
Proof. cbn. rewrite negb_false_iff. apply Qle_bool_iff. Qed.

Lemma unit_checks_pass (p : pyfloat) :
  first_error [check_le 1; check_ge 0] p = None <-> in_unit_interval p.
Proof.
  unfold first_error, check_ge, check_le.
  destruct p as [q| | |]; cbn -[Qle_bool]; try (split; [discriminate|tauto]).
  change (inject_Z 0) with 0. change (inject_Z 1) with 1.
  destruct (Qle_bool 0 q) eqn:E0; destruct (Qle_bool q 1) eqn:E1;
    try apply Qle_bool_iff in E0; try apply Qle_bool_iff in E1;
    (split; [try discriminate; intros _; split; assumption|]).
  - reflexivity.
  - intros [_ H]. apply Qle_bool_iff in H. congruence.
  - intros [H _]. apply Qle_bool_iff in H. congruence.
  - intros [H _]. apply Qle_bool_iff in H. congruence.
Qed.

Lemma PredictionOutput_errors (probability confidence : pyfloat) :
  field_errors PredictionOutput.fields
    (<["probability" := probability]> (<["confidence" := confidence]> ∅))
  = match first_error [check_le 1; check_ge 0] probability with
    | Some fe => [("probability", fe)]
    | None => []
    end ++
    match first_error [check_le 1; check_ge 0] confidence with
    | Some fe => [("confidence", fe)]
    | None => []
    end.
Proof.
  unfold field_errors, PredictionOutput.fields. cbn [omap list_omap].
  change ((<["probability" := probability]> (<["confidence" := confidence]> ∅) : gmap string pyfloat)
            !! "probability") with (Some probability).
  change ((<["probability" := probability]> (<["confidence" := confidence]> ∅) : gmap string pyfloat)
            !! "confidence") with (Some confidence).
  cbv beta iota.
  destruct (first_error _ probability), (first_error _ confidence); reflexivity.
Qed.

Lemma PredictionOutput_new_inv {S} prediction probability confidence result
    version names (s s' : S) out :
  PredictionOutput.new prediction probability confidence result version names s
  = (Returns out, s') ->
  out = PredictionOutput.Build prediction probability confidence result version names /\
  s' = s /\ in_unit_interval probability /\ in_unit_interval confidence.
Proof.
  unfold PredictionOutput.new. rewrite PredictionOutput_errors.
  destruct (first_error _ probability) eqn:E1; [discriminate|].
  destruct (first_error _ confidence) eqn:E2; [discriminate|].
  apply unit_checks_pass in E1, E2.
  cbn. intros H. injection H as <- <-. auto.
Qed.

Lemma PredictionOutput_new_valid {S} prediction probability confidence result
    version names (s : S) :
  in_unit_interval probability -> in_unit_interval confidence ->
  PredictionOutput.new prediction probability confidence result version names s
  = (Returns (PredictionOutput.Build prediction probability confidence result
                version names), s).
Proof.
  intros H1 H2. apply unit_checks_pass in H1, H2.
  unfold PredictionOutput.new. rewrite PredictionOutput_errors, H1, H2. reflexivity.
Qed.

Section Inversions.

Context {S : Type}.
Implicit Types (s : S).

Lemma lift_inv {A} (o : outcome A) s s' a :
  lift o s = (Returns a, s') -> o = Returns a /\ s' = s.
Proof. unfold lift. intros H. injection H as -> ->. auto. Qed.

Lemma index_inv {A} (l : list A) i s s' a :
  index l i s = (Returns a, s') -> l !! i = Some a /\ s' = s.
Proof.
  unfold index. destruct (l !! i); [|discriminate].
  intros H. injection H as -> ->. auto.
Qed.

Lemma as_names_inv o s s' names :
  as_names o s = (Returns names, s') -> o = Some (ObjNames names) /\ s' = s.
Proof.
  destruct o as [[| |l]|]; try discriminate.
  intros H. injection H as -> ->. auto.
Qed.

Lemma as_estimator_inv o s s' m :
  as_estimator o s = (Returns m, s') -> o = Some (ObjModel m) /\ s' = s.
Proof.
  destruct o as [[| |l]|]; try discriminate.
  intros H. injection H as -> ->. auto.
Qed.

Lemma as_transformer_inv o s s' t :
  as_transformer o s = (Returns t, s') -> o = Some (ObjScaler t) /\ s' = s.
Proof.
  destruct o as [[| |l]|]; try discriminate.
  intros H. injection H as -> ->. auto.
Qed.

End Inversions.

Ltac bind_inv H :=
  let a := fresh "a" in let s := fresh "s" in let H1 := fresh "H" in
  apply bind_inv_returns in H as (a & s & H1 & H).

Lemma py_max_pair p0 p1 : py_max [p0; p1] = Some (if flt p0 p1 then p1 else p0).
Proof. reflexivity. Qed.

Lemma max_of_pair p0 p1 :
  in_unit_interval p1 ->
  in_unit_interval (if flt p0 p1 then p1 else p0) ->
  is_max_of (if flt p0 p1 then p1 else p0) p0 p1.
Proof.
  unfold is_max_of. intros H1 Hc.
  destruct p1 as [q1| | |]; try contradiction.
  destruct p0 as [q0| | |]; cbn in Hc; try contradiction.
  - destruct (flt (Fin q0) (Fin q1)) eqn:E.
    + apply flt_Fin in E. split; [now right|]. split.
      * apply fle_Fin. now apply Qlt_le_weak.
      * apply fle_Fin. apply Qle_refl.
    + apply flt_Fin_false in E. split; [now left|]. split.
      * apply fle_Fin. apply Qle_refl.
      * now apply fle_Fin.
  - cbn. split; [now right|]. split; [reflexivity|]. apply fle_Fin, Qle_refl.
Qed.

Lemma max_of_complements c q0 q1 :
  is_max_of c (Fin q0) (Fin q1) -> q0 + q1 == 1 -> at_least c 0.5.
Proof.
  intros ([-> | ->] & H0 & H1) Hsum; cbn; apply fle_Fin in H0, H1; lra.
Qed.

(** What a successful run of [infer] went through. *)
Lemma infer_inv self names features w out w' :
  infer self names features w = (Returns out, w') ->
  exists label probabilities,
    label_of self features label /\
    probabilities_of self features probabilities /\
    (if (1 <? length probabilities)%nat then probabilities !! 1%nat
     else probabilities !! 0%nat) = Some (PredictionOutput.probability out) /\
    (if (1 <? length probabilities)%nat then py_max probabilities
     else probabilities !! 0%nat) = Some (PredictionOutput.confidence out) /\
    in_unit_interval (PredictionOutput.probability out) /\
    in_unit_interval (PredictionOutput.confidence out) /\
    PredictionOutput.prediction out = label /\
    PredictionOutput.result out = (if (label =? 1)%Z then "Safe" else "Not Safe") /\
    PredictionOutput.model_version out = model_version self /\
    PredictionOutput.features_used out = names.
Proof.
  unfold infer. intros H.
  bind_inv H. apply as_transformer_inv in H0 as [Hsc ->].
  bind_inv H. apply lift_inv in H0 as [Htr ->].
  bind_inv H. apply as_estimator_inv in H0 as [Hm ->].
  bind_inv H. apply lift_inv in H0 as [Hpred ->].
  bind_inv H. apply index_inv in H0 as [Hlabel ->].
  bind_inv H. apply lift_inv in H0 as [Hproba ->].
  bind_inv H. apply index_inv in H0 as [Hrow ->].
  bind_inv H. bind_inv H. bind_inv H.
  apply PredictionOutput_new_inv in H2 as (-> & -> & Hp & Hc).
  bind_inv H. unfold ret in H. injection H as <- _.
  destruct a2 as [|label rest]; [discriminate|]. injection Hlabel as ->.
  destruct a4 as [|row rows]; [discriminate|]. injection Hrow as ->.
  exists a3, a5. cbn [PredictionOutput.probability PredictionOutput.confidence
    PredictionOutput.prediction PredictionOutput.result
    PredictionOutput.model_version PredictionOutput.features_used].
  split; [now exists a, a1, a0, rest|].
  split; [now exists a, a1, a0, rows|].
  split.
  { destruct (1 <? length a5)%nat; now apply index_inv in H0 as [-> _]. }
  split.
  { destruct (1 <? length a5)%nat.
    - destruct (py_max a5); [|discriminate]. unfold ret in H1. now injection H1 as ->.
    - now apply index_inv in H1 as [-> _]. }
  auto 10.
Qed.

(** What a successful run of [predict] went through. *)
Lemma predict_inv self input_data w out w' :
  predict self input_data w = (Returns out, w') ->
  exists record names w1 w2,
    convert_input input_data w = (Returns record, w1) /\
    feature_names self = Some (ObjNames names) /\
    validate_inference_data (PredictionInput.to_array record) names w1 = (Returns tt, w2) /\
    infer self names (PredictionInput.to_array record) w2 = (Returns out, w').
Proof.
  unfold predict. intros H.
  apply (reraise_inv_returns _ (fun e => [Lit "Error making prediction: "; Exc e])) in H.
  bind_inv H. bind_inv H. apply as_names_inv in H1 as [Hn ->].
  bind_inv H. destruct a1.
  do 4 eexists. repeat split; eassumption.
Qed.

(** C1.  Whenever [predict] returns an output, its probability and its
    confidence are in [0, 1].  When the classifier gave two probabilities
    [p0, p1] for the record, the probability of the output is [p1], the one
    of the positive class, and the confidence is the greater of [p0] and
    [p1]; when moreover the two sum to 1, the confidence is at least 0.5. *)
Theorem predict_probability_and_confidence
    (self : WaterQualityPredictor.t) (input_data : input) (w w' : world)
    (out : PredictionOutput.t) :
  predict self input_data w = (Returns out, w') ->
  in_unit_interval (PredictionOutput.probability out) /\
  in_unit_interval (PredictionOutput.confidence out) /\
  exists record probabilities,
    fst (convert_input input_data w) = Returns record /\
    probabilities_of self (PredictionInput.to_array record) probabilities /\
    forall p0 p1, probabilities = [p0; p1] ->
      PredictionOutput.probability out = p1 /\
      is_max_of (PredictionOutput.confidence out) p0 p1 /\
      forall q0 q1, p0 = Fin q0 -> p1 = Fin q1 -> q0 + q1 == 1 ->
        at_least (PredictionOutput.confidence out) 0.5.
Proof.
  intros H.
  apply predict_inv in H as (record & names & w1 & w2 & Hconv & _ & _ & H).
  apply infer_inv in H
    as (label & probabilities & _ & Hprobs & Hp & Hc & Hpu & Hcu & _).
  split; [exact Hpu|]. split; [exact Hcu|].
  exists record, probabilities. split; [now rewrite Hconv|]. split; [exact Hprobs|].
  intros p0 p1 ->. cbn in Hp, Hc. injection Hp as Hp. injection Hc as Hc.
  assert (is_max_of (PredictionOutput.confidence out) p0 p1) as Hmax.
  { rewrite <- Hc. apply max_of_pair; [now rewrite Hp | now rewrite Hc]. }
  split; [now symmetry|]. split; [exact Hmax|].
  intros q0 q1 -> -> Hsum. now apply (max_of_complements _ q0 q1).
Qed.

Lemma predict_probability_and_confidence_witness :
  predict (fallback_engine "ml") (InList safe_sample) empty_world
  = (Returns safe_output,
     logged [validation_passed_record;
             prediction_record "Safe" (Fin (0.5 + 0.25 + 0.15))] empty_world) /\
  in_unit_interval (PredictionOutput.probability safe_output) /\
  in_unit_interval (PredictionOutput.confidence safe_output).
Proof.
  split; [reflexivity|].
  destruct (predict_probability_and_confidence (fallback_engine "ml")
              (InList safe_sample) empty_world _ safe_output eq_refl)
    as (Hp & Hc & _).
  split; assumption.
Defined.

(** ** The fallback classifier and engine *)

Section FallbackRow.

Variables x0 x1 x2 x3 x4 x5 x6 x7 x8 : pyfloat.
Let row : list pyfloat := [x0; x1; x2; x3; x4; x5; x6; x7; x8].

Lemma MockModel_predict_row :
  MockModel.predict [row]
  = Returns [if ph_in_rule x0 && turbidity_in_rule x8 then 1%Z else 0%Z].
Proof.
  unfold MockModel.predict, collect, MockModel.predict_row, row, ph_in_rule,
    turbidity_in_rule.
  cbn [MockModel.row_inputs lookup list_lookup length Nat.ltb Nat.leb default
         from_option id].
  destruct (fle (Fin 6.5) x0 && fle x0 (Fin 8.5) && fle x8 (Fin 5.0)); reflexivity.
Qed.

Lemma MockModel_predict_proba_row :
  MockModel.predict_proba [row]
  = Returns
      [[Fin (1 - safe_probability (ph_in_rule x0) (turbidity_in_rule x8));
        Fin (safe_probability (ph_in_rule x0) (turbidity_in_rule x8))]].
Proof. reflexivity. Qed.

End FallbackRow.

Lemma safe_probability_values ph_ok turbidity_ok :
  safe_probability ph_ok turbidity_ok
  == 0.5 + (if ph_ok then 0.25 else 0) + (if turbidity_ok then 0.15 else 0).
Proof. destruct ph_ok, turbidity_ok; reflexivity. Qed.

Lemma safe_probability_clamp ph_ok turbidity_ok :
  safe_probability ph_ok turbidity_ok
  == clamp 0.01 0.99
       (0.5 + (if ph_ok then 0.25 else 0) + (if turbidity_ok then 0.15 else 0)).
Proof. destruct ph_ok, turbidity_ok; reflexivity. Qed.

Lemma safe_probability_unit ph_ok turbidity_ok :
  in_unit_interval (Fin (safe_probability ph_ok turbidity_ok)) /\
  in_unit_interval
    (if flt (Fin (1 - safe_probability ph_ok turbidity_ok))
            (Fin (safe_probability ph_ok turbidity_ok))
     then Fin (safe_probability ph_ok turbidity_ok)
     else Fin (1 - safe_probability ph_ok turbidity_ok)).
Proof. destruct ph_ok, turbidity_ok; cbn; repeat split; discriminate. Qed.

(** The fallback engine on one row: scaler, classifier and output. *)
Lemma infer_fallback model_dir names x0 x1 x2 x3 x4 x5 x6 x7 x8 w :
  let out := fallback_output x0 x8 in
  infer (fallback_engine model_dir) names [[x0; x1; x2; x3; x4; x5; x6; x7; x8]] w
  = (Returns
       {| PredictionOutput.prediction := PredictionOutput.prediction out;
          PredictionOutput.probability := PredictionOutput.probability out;
          PredictionOutput.confidence := PredictionOutput.confidence out;
          PredictionOutput.result := PredictionOutput.result out;
          PredictionOutput.model_version := "fallback-1.0.0";
          PredictionOutput.features_used := names |},
     logged [prediction_record (PredictionOutput.result out)
               (PredictionOutput.confidence out)] w).
Proof.
  cbv zeta. unfold infer.
  erewrite bind_returns by reflexivity.
  erewrite bind_returns by reflexivity.
  erewrite bind_returns by reflexivity.
  erewrite bind_returns
    by (unfold lift; cbn [Estimator.predict MockModel.new];
        rewrite MockModel_predict_row; reflexivity).
  erewrite bind_returns by reflexivity.
  erewrite bind_returns
    by (unfold lift; cbn [Estimator.predict_proba MockModel.new];
        rewrite MockModel_predict_proba_row; reflexivity).
  erewrite bind_returns by reflexivity.
  cbn [length Nat.ltb Nat.leb].
  erewrite bind_returns by reflexivity.
  rewrite py_max_pair.
  erewrite bind_returns by reflexivity.
  destruct (safe_probability_unit (ph_in_rule x0) (turbidity_in_rule x8)) as [Hp Hc].
  erewrite bind_returns by (apply PredictionOutput_new_valid; [exact Hp | exact Hc]).
  unfold fallback_output. cbn [PredictionOutput.prediction PredictionOutput.probability
    PredictionOutput.confidence PredictionOutput.result].
  destruct (ph_in_rule x0 && turbidity_in_rule x8); reflexivity.
Qed.

Lemma check_ge_nonneg x : nonneg x -> check_ge 0 x = None.
Proof.
  destruct x as [q| | |]; cbn -[Qle_bool]; try contradiction.
  intros H. unfold check_ge, fle, of_int. change (inject_Z 0) with 0.
  apply Qle_bool_iff in H. now rewrite H.
Qed.

Lemma ph_checks_pass x :
  nonneg x -> at_most x 14 ->
  first_error [check_le 14; check_ge 0; PredictionInput.validate_ph] x = None.
Proof.
  intros H0 H14. cbn [first_error]. rewrite (check_ge_nonneg _ H0).
  destruct x as [q| | |]; try contradiction.
  unfold check_le, PredictionInput.validate_ph, fle, of_int.
  change (inject_Z 0) with 0. change (inject_Z 14) with 14.
  cbn in H0, H14. apply Qle_bool_iff in H0, H14. now rewrite H0, H14.
Qed.

Lemma nonneg_not_nan x : nonneg x -> isnan x = false.
Proof. now destruct x. Qed.

Lemma nonneg_not_inf x : nonneg x -> isinf x = false.
Proof. now destruct x. Qed.

Lemma nonneg_not_below x : nonneg x -> flt x (of_int 0) = false.
Proof.
  destruct x as [q| | |]; try contradiction. intros H.
  apply flt_Fin_false. exact H.
Qed.

Section ValidRow.

Variables x0 x1 x2 x3 x4 x5 x6 x7 x8 : pyfloat.
Let row : list pyfloat := [x0; x1; x2; x3; x4; x5; x6; x7; x8].
Let kwargs : gmap string pyfloat :=
  <["pH" := x0]> (<["Hardness" := x1]> (<["Solids" := x2]>
  (<["Chloramines" := x3]> (<["Sulfate" := x4]>
  (<["Conductivity" := x5]> (<["Organic_carbon" := x6]>
  (<["Trihalomethanes" := x7]> (<["Turbidity" := x8]> ∅)))))))).

Hypothesis Hvalid : valid_features row.

Lemma valid_row_nonneg :
  nonneg x0 /\ nonneg x1 /\ nonneg x2 /\ nonneg x3 /\ nonneg x4 /\
  nonneg x5 /\ nonneg x6 /\ nonneg x7 /\ nonneg x8 /\ at_most x0 14.
Proof.
  destruct Hvalid as (_ & Hall & pH & HpH & H14).
  injection HpH as <-.
  repeat (apply Forall_cons_1 in Hall as [? Hall]).
  repeat split; assumption.
Qed.

Lemma valid_row_field_errors : field_errors PredictionInput.fields kwargs = [].
Proof.
  destruct valid_row_nonneg as (H0 & H1 & H2 & H3 & H4 & H5 & H6 & H7 & H8 & H14).
  unfold field_errors, PredictionInput.fields. cbn [omap list_omap].
  change (kwargs !! "pH") with (Some x0).
  change (kwargs !! "Hardness") with (Some x1).
  change (kwargs !! "Solids") with (Some x2).
  change (kwargs !! "Chloramines") with (Some x3).
  change (kwargs !! "Sulfate") with (Some x4).
  change (kwargs !! "Conductivity") with (Some x5).
  change (kwargs !! "Organic_carbon") with (Some x6).
  change (kwargs !! "Trihalomethanes") with (Some x7).
  change (kwargs !! "Turbidity") with (Some x8).
  cbv beta iota.
  rewrite (ph_checks_pass _ H0 H14).
  cbn [first_error].
  now rewrite !check_ge_nonneg by assumption.
Qed.

Lemma convert_input_valid w :
  convert_input (InList row) w
  = (Returns (PredictionInput.Build x0 x1 x2 x3 x4 x5 x6 x7 x8), w).
Proof.
  unfold convert_input, row. cbn [length Nat.eqb negb when].
  erewrite bind_returns by reflexivity.
  do 9 (erewrite bind_returns by reflexivity).
  unfold PredictionInput.new. fold kwargs. rewrite valid_row_field_errors.
  reflexivity.
Qed.

Lemma valid_row_finite : np_any isnan [row] = false /\ np_any isinf [row] = false.
Proof.
  destruct valid_row_nonneg as (H0 & H1 & H2 & H3 & H4 & H5 & H6 & H7 & H8 & _).
  unfold row, np_any. cbn [existsb].
  split.
  - now rewrite !(nonneg_not_nan _) by assumption.
  - now rewrite !(nonneg_not_inf _) by assumption.
Qed.

Lemma valid_row_not_below :
  existsb (below_minimum [row]) feature_ranges = false.
Proof.
  destruct valid_row_nonneg as (H0 & H1 & H2 & H3 & H4 & H5 & H6 & H7 & H8 & _).
  unfold feature_ranges, row.
  cbn [existsb below_minimum shape1 length Nat.ltb Nat.leb andb column omap
         list_omap lookup list_lookup].
  now rewrite !nonneg_not_below by assumption.
Qed.

Lemma validate_inference_data_valid w :
  validate_inference_data [row] canonical_feature_names w
  = (Returns tt,
     logged (range_warnings [row] canonical_feature_names feature_ranges
             ++ [validation_passed_record]) w).
Proof.
  destruct valid_row_finite as [Hnan Hinf].
  rewrite (validate_inference_data_finite [row] canonical_feature_names w
             eq_refl Hnan Hinf).
  pose proof (for_each_ranges [row] canonical_feature_names feature_ranges w eq_refl)
    as H.
  rewrite valid_row_not_below in H.
  rewrite (bind_returns _ _ _ _ _ H). unfold logger.
  now rewrite <- logged_logged.
Qed.

(** The fallback engine answers every valid row. *)
Lemma predict_fallback_valid model_dir w :
  predict (fallback_engine model_dir) (InList row) w
  = (Returns (fallback_output x0 x8),
     logged (range_warnings [row] canonical_feature_names feature_ranges
             ++ [validation_passed_record;
                 prediction_record
                   (PredictionOutput.result (fallback_output x0 x8))
                   (PredictionOutput.confidence (fallback_output x0 x8))]) w).
Proof.
  unfold predict. erewrite try_except_returns; [reflexivity|].
  erewrite bind_returns by apply convert_input_valid.
  cbn [PredictionInput.to_array PredictionInput.pH PredictionInput.Hardness
         PredictionInput.Solids PredictionInput.Chloramines PredictionInput.Sulfate
         PredictionInput.Conductivity PredictionInput.Organic_carbon
         PredictionInput.Trihalomethanes PredictionInput.Turbidity].
  erewrite bind_returns by reflexivity.
  erewrite bind_returns by apply validate_inference_data_valid.
  change (PredictionInput.to_array _) with [row]. unfold row at 1.
  rewrite infer_fallback. cbv zeta. rewrite logged_logged, <- app_assoc.
  reflexivity.
Qed.

End ValidRow.

Lemma valid_features_row (l : list pyfloat) :
  valid_features l ->
  exists x0 x1 x2 x3 x4 x5 x6 x7 x8, l = [x0; x1; x2; x3; x4; x5; x6; x7; x8].
Proof.
  intros (Hlen & _).
  do 9 (destruct l as [|? l]; [discriminate|]).
  destruct l; [|discriminate]. eauto 10.
Qed.

(** ** Loading and the fallback *)

Lemma io_returns {Self A} (m : M world A) (self : Self) w a w' :
  m w = (Returns a, w') -> io m (self, w) = (Returns a, (self, w')).
Proof. intros H. unfold io. now rewrite H. Qed.

Lemma io_logger {Self} lv m (self : Self) w :
  io (logger lv m) (self, w) = (Returns tt, (self, logged [LogRecord lv m] w)).
Proof. reflexivity. Qed.

Lemma io_raises {Self A} (m : M world A) (self : Self) w e w' :
  m w = (Raises e, w') -> io m (self, w) = (Raises e, (self, w')).
Proof. intros H. unfold io. now rewrite H. Qed.

Lemma joblib_load_pickle p w o :
  fs w !! p = Some (Pickle o) -> joblib_load p w = (Returns o, w).
Proof. intros H. unfold joblib_load. now rewrite H. Qed.

Lemma joblib_load_corrupt p w :
  fs w !! p = Some Corrupt ->
  joblib_load p w = (Raises (ExternalError "unpickling failed"), w).
Proof. intros H. unfold joblib_load. now rewrite H. Qed.

Lemma all_exist_pair p1 p2 w :
  all_exist [p1; p2] w
  = (Returns (bool_decide (is_Some (fs w !! p1)) &&
              bool_decide (is_Some (fs w !! p2))), w).
Proof.
  unfold all_exist, bind, path_exists, ret.
  destruct (bool_decide (is_Some (fs w !! p1))); [|reflexivity].
  destruct (bool_decide (is_Some (fs w !! p2))); reflexivity.
Qed.

(** [load_model] when a model file is missing. *)
Lemma load_model_missing self w :
  fs w !! path_join (model_dir self) "model.pkl" = None \/
  fs w !! path_join (model_dir self) "scaler.pkl" = None ->
  load_model (self, w)
  = (Returns false,
     (self, logged [LogRecord WARNING
                      [Lit ("Model files not found in " +:+ model_dir self)]] w)).
Proof.
  intros H. unfold load_model.
  erewrite try_except_returns; [reflexivity|].
  erewrite bind_returns by reflexivity.
  erewrite bind_returns by (apply io_returns, all_exist_pair).
  assert (bool_decide (is_Some (fs w !! path_join (model_dir self) "model.pkl")) &&
          bool_decide (is_Some (fs w !! path_join (model_dir self) "scaler.pkl"))
          = false) as ->.
  { destruct H as [-> | ->]; [reflexivity|]. apply andb_false_r. }
  reflexivity.
Qed.

(** [load_model] never raises; it sets [is_loaded] when, and only when, it
    returns [True]. *)
Lemma load_model_outcome self w :
  exists b self' w',
    load_model (self, w) = (Returns b, (self', w')) /\
    (b = true -> is_loaded self' = true) /\
    (b = false -> is_loaded self' = is_loaded self).
Proof.
  destruct (fs w !! path_join (model_dir self) "model.pkl") as [f1|] eqn:E1;
    [|rewrite load_model_missing by auto; do 3 eexists;
      split; [reflexivity|split; [discriminate|reflexivity]]].
  destruct (fs w !! path_join (model_dir self) "scaler.pkl") as [f2|] eqn:E2;
    [|rewrite load_model_missing by auto; do 3 eexists;
      split; [reflexivity|split; [discriminate|reflexivity]]].
  unfold load_model.
  assert (forall e self1 w1, is_loaded self1 = is_loaded self ->
    exists b self' w',
      (io (logger ERROR [Lit "Error loading model: "; Exc e]) ;; ret false) (self1, w1)
      = (Returns b, (self', w')) /\
      (b = true -> is_loaded self' = true) /\
      (b = false -> is_loaded self' = is_loaded self)) as Hhandler.
  { intros e self1 w1 Hl. do 3 eexists. split; [reflexivity|].
    split; [discriminate|]. intros _. exact Hl. }
  destruct f1 as [|o1].
  { erewrite try_except_raises; [apply Hhandler; reflexivity|].
    erewrite bind_returns by reflexivity.
    erewrite bind_returns by (apply io_returns, all_exist_pair).
    rewrite E1, E2, !bool_decide_true by eauto. cbn [andb negb].
    apply bind_raises, io_raises, joblib_load_corrupt, E1. }
  destruct f2 as [|o2].
  { erewrite try_except_raises; cycle 1.
    - erewrite bind_returns by reflexivity.
      erewrite bind_returns by (apply io_returns, all_exist_pair).
      rewrite E1, E2, !bool_decide_true by eauto. cbn [andb negb].
      erewrite bind_returns by (apply io_returns, joblib_load_pickle, E1).
      erewrite bind_returns by reflexivity.
      apply bind_raises, io_raises, joblib_load_corrupt, E2.
    - apply Hhandler. reflexivity. }
  destruct (fs w !! path_join (model_dir self) "features.pkl") as [[|o3]|] eqn:E3.
  - erewrite try_except_raises; cycle 1.
    + erewrite bind_returns by reflexivity.
      erewrite bind_returns by (apply io_returns, all_exist_pair).
      rewrite E1, E2, !bool_decide_true by eauto. cbn [andb negb].
      erewrite bind_returns by (apply io_returns, joblib_load_pickle, E1).
      erewrite bind_returns by reflexivity.
      erewrite bind_returns by (apply io_returns, joblib_load_pickle, E2).
      erewrite bind_returns by reflexivity.
      erewrite bind_returns by (apply io_returns; reflexivity).
      rewrite E3, bool_decide_true by eauto.
      apply bind_raises, bind_raises, io_raises, joblib_load_corrupt, E3.
    + apply Hhandler. reflexivity.
  - do 3 eexists. split.
    + erewrite try_except_returns; [reflexivity|].
      erewrite bind_returns by reflexivity.
      erewrite bind_returns by (apply io_returns, all_exist_pair).
      rewrite E1, E2, !bool_decide_true by eauto. cbn [andb negb].
      erewrite bind_returns by (apply io_returns, joblib_load_pickle, E1).
      erewrite bind_returns by reflexivity.
      erewrite bind_returns by (apply io_returns, joblib_load_pickle, E2).
      erewrite bind_returns by reflexivity.
      erewrite bind_returns by (apply io_returns; reflexivity).
      rewrite E3, bool_decide_true by eauto.
      erewrite bind_returns
        by (erewrite bind_returns by (apply io_returns, joblib_load_pickle, E3);
            reflexivity).
      reflexivity.
    + split; [intros _; reflexivity|discriminate].
  - do 3 eexists. split.
    + erewrite try_except_returns; [reflexivity|].
      erewrite bind_returns by reflexivity.
      erewrite bind_returns by (apply io_returns, all_exist_pair).
      rewrite E1, E2, !bool_decide_true by eauto. cbn [andb negb].
      erewrite bind_returns by (apply io_returns, joblib_load_pickle, E1).
      erewrite bind_returns by reflexivity.
      erewrite bind_returns by (apply io_returns, joblib_load_pickle, E2).
      erewrite bind_returns by reflexivity.
      erewrite bind_returns by (apply io_returns; reflexivity).
      rewrite E3, bool_decide_false by (intros [? ?]; discriminate).
      reflexivity.
    + split; [intros _; reflexivity|discriminate].
Qed.

(** [_initialize_fallback_model] replaces model, scaler, names and version,
    and leaves [is_loaded] as it is. *)
Lemma initialize_fallback_model_outcome self w :
  _initialize_fallback_model (self, w)
  = (Returns tt,
     ({| model_dir := model_dir self;
         model := Some (ObjModel MockModel.new);
         scaler := Some (ObjScaler MockScaler.new);
         feature_names := Some (ObjNames canonical_feature_names);
         model_version := "fallback-1.0.0";
         is_loaded := is_loaded self |},
      logged [LogRecord INFO [Lit "Fallback model initialized"]] w)).
Proof. reflexivity. Qed.

Lemma init_installs_fallback model_dir w :
  fs w !! path_join model_dir "model.pkl" = None \/
  fs w !! path_join model_dir "scaler.pkl" = None ->
  __init__ model_dir w
  = (Returns (fallback_engine model_dir), logged (fallback_records model_dir) w).
Proof.
  intros H. unfold __init__.
  erewrite bind_returns by (apply load_model_missing; exact H).
  cbn [negb when].
  erewrite bind_returns by apply io_logger.
  rewrite initialize_fallback_model_outcome, !logged_logged.
  reflexivity.
Qed.

(** ** The fallback rule, the engine without a model, batches *)

Lemma ph_in_rule_spec pH : ph_in_rule pH = true <-> in_range 6.5 8.5 pH.
Proof.
  unfold ph_in_rule. rewrite andb_true_iff.
  destruct pH as [q| | |]; cbn -[Qle_bool]; try (split; [intros [? ?]; discriminate|tauto]).
  now rewrite !Qle_bool_iff.
Qed.

Lemma turbidity_in_rule_spec turbidity :
  turbidity_in_rule turbidity = true <-> at_most turbidity 5.0.
Proof.
  unfold turbidity_in_rule.
  destruct turbidity as [q| | |]; cbn -[Qle_bool]; try (split; [discriminate|tauto]).
  - apply Qle_bool_iff.
  - tauto.
Qed.

Lemma above_not_in_rule turbidity : above turbidity 5.0 -> turbidity_in_rule turbidity = false.
Proof.
  intros H. destruct (turbidity_in_rule turbidity) eqn:E; [|reflexivity].
  apply turbidity_in_rule_spec in E.
  destruct turbidity as [q| | |]; cbn in H, E; try contradiction.
  exfalso. exact (Qlt_not_le _ _ H E).
Qed.

Lemma safe_sample_valid : valid_features safe_sample.
Proof.
  split; [reflexivity|]. split.
  - repeat constructor; discriminate.
  - exists (Fin 7.0). split; [reflexivity|discriminate].
Qed.

Lemma turbid_sample_valid : valid_features turbid_sample.
Proof.
  split; [reflexivity|]. split.
  - repeat constructor; discriminate.
  - exists (Fin 7.0). split; [reflexivity|discriminate].
Qed.

(** The fallback engine answers every valid list. *)
Lemma predict_fallback_list model_dir l w :
  valid_features l ->
  exists pH turbidity w',
    l !! 0%nat = Some pH /\ l !! 8%nat = Some turbidity /\
    predict (fallback_engine model_dir) (InList l) w
    = (Returns (fallback_output pH turbidity), w').
Proof.
  intros H.
  destruct (valid_features_row l H) as (x0 & x1 & x2 & x3 & x4 & x5 & x6 & x7 & x8 & ->).
  exists x0, x8. eexists. split; [reflexivity|]. split; [reflexivity|].
  now apply predict_fallback_valid.
Qed.

(** C2.  On every vector of nine features the fallback classifier, behind
    its identity scaler, gives the label 1 (safe) exactly when the pH is in
    [6.5, 8.5] and the turbidity is at most 5.0, and the label 0 otherwise;
    the probability of the safe class is 0.5, plus 0.25 when the pH is in
    range, plus 0.15 when the turbidity is in range, clamped to [0.01, 0.99],
    and the probability of the unsafe class is 1 minus it.  The engine built
    when a model file is missing is the fallback one, and it answers label 1,
    "Safe", on [[7.0, 200.0, 20000.0, 7.0, 300.0, 500.0, 15.0, 80.0, 4.0]]. *)
Theorem fallback_rule :
  (forall x : list pyfloat, length x = 9%nat ->
     exists (pH turbidity : pyfloat) (ph_ok turbidity_ok : bool) (label : Z)
            (safe_prob unsafe_prob : Q),
       x !! 0%nat = Some pH /\ x !! 8%nat = Some turbidity /\
       (ph_ok = true <-> in_range 6.5 8.5 pH) /\
       (turbidity_ok = true <-> at_most turbidity 5.0) /\
       MockScaler.transform [x] = Returns [x] /\
       MockModel.predict [x] = Returns [label] /\
       (label = 1%Z \/ label = 0%Z) /\
       (label = 1%Z <-> in_range 6.5 8.5 pH /\ at_most turbidity 5.0) /\
       MockModel.predict_proba [x] = Returns [[Fin unsafe_prob; Fin safe_prob]] /\
       safe_prob == clamp 0.01 0.99
                      (0.5 + (if ph_ok then 0.25 else 0)
                           + (if turbidity_ok then 0.15 else 0)) /\
       unsafe_prob == 1 - safe_prob) /\
  (forall (model_dir : string) (w : world),
     fs w !! path_join model_dir "model.pkl" = None \/
     fs w !! path_join model_dir "scaler.pkl" = None ->
     exists engine w1 out w2,
       __init__ model_dir w = (Returns engine, w1) /\
       model_version engine = "fallback-1.0.0" /\
       predict engine (InList safe_sample) w1 = (Returns out, w2) /\
       PredictionOutput.prediction out = 1%Z /\
       PredictionOutput.result out = "Safe").
Proof.
  split.
  - intros x Hlen.
    do 9 (destruct x as [|? x]; [discriminate|]). destruct x; [|discriminate].
    rename p into x0, p7 into x8.
    exists x0, x8, (ph_in_rule x0), (turbidity_in_rule x8),
      (if ph_in_rule x0 && turbidity_in_rule x8 then 1%Z else 0%Z),
      (safe_probability (ph_in_rule x0) (turbidity_in_rule x8)),
      (1 - safe_probability (ph_in_rule x0) (turbidity_in_rule x8)).
    split; [reflexivity|]. split; [reflexivity|].
    split; [apply ph_in_rule_spec|]. split; [apply turbidity_in_rule_spec|].
    split; [reflexivity|]. split; [apply MockModel_predict_row|].
    split; [destruct (ph_in_rule x0 && turbidity_in_rule x8); auto|].
    split.
    { rewrite <- ph_in_rule_spec, <- turbidity_in_rule_spec, <- andb_true_iff.
      destruct (ph_in_rule x0 && turbidity_in_rule x8); split;
        (reflexivity || discriminate). }
    split; [apply MockModel_predict_proba_row|].
    split; [apply safe_probability_clamp|reflexivity].
  - intros model_dir w H.
    destruct (predict_fallback_list model_dir safe_sample
                (logged (fallback_records model_dir) w) safe_sample_valid)
      as (pH & turbidity & w2 & HpH & Hturbidity & Hpredict).
    injection HpH as <-. injection Hturbidity as <-.
    exists (fallback_engine model_dir), (logged (fallback_records model_dir) w).
    eexists. exists w2.
    split; [now apply init_installs_fallback|]. split; [reflexivity|].
    split; [exact Hpredict|]. split; reflexivity.
Qed.

Lemma fallback_rule_witness :
  (exists (pH turbidity : pyfloat) (ph_ok turbidity_ok : bool) (label : Z)
          (safe_prob unsafe_prob : Q),
     safe_sample !! 0%nat = Some pH /\ safe_sample !! 8%nat = Some turbidity /\
     (ph_ok = true <-> in_range 6.5 8.5 pH) /\
     (turbidity_ok = true <-> at_most turbidity 5.0) /\
     MockScaler.transform [safe_sample] = Returns [safe_sample] /\
     MockModel.predict [safe_sample] = Returns [label] /\
     (label = 1%Z \/ label = 0%Z) /\
     (label = 1%Z <-> in_range 6.5 8.5 pH /\ at_most turbidity 5.0) /\
     MockModel.predict_proba [safe_sample]
     = Returns [[Fin unsafe_prob; Fin safe_prob]] /\
     safe_prob == clamp 0.01 0.99
                    (0.5 + (if ph_ok then 0.25 else 0)
                         + (if turbidity_ok then 0.15 else 0)) /\
     unsafe_prob == 1 - safe_prob) /\
  (exists engine w1 out w2,
     __init__ "ml" empty_world = (Returns engine, w1) /\
     model_version engine = "fallback-1.0.0" /\
     predict engine (InList safe_sample) w1 = (Returns out, w2) /\
     PredictionOutput.prediction out = 1%Z /\
     PredictionOutput.result out = "Safe").
Proof.
  split.
  - exact (proj1 fallback_rule safe_sample eq_refl).
  - exact (proj2 fallback_rule "ml" empty_world (or_introl eq_refl)).
Defined.

(** C9.  On every valid list whose pH is in [6.5, 8.5] and whose turbidity is
    above 5.0, the fallback engine answers label 0, "Not Safe", with
    probability 0.75 and confidence 0.75: the classifier gives 0.25 to the
    unsafe class and 0.75 to the safe class, so the label is not the class of
    greatest probability. *)
Theorem fallback_label_against_probabilities
    (l : list pyfloat) (pH turbidity : pyfloat) (model_dir : string) (w : world) :
  valid_features l ->
  l !! 0%nat = Some pH -> l !! 8%nat = Some turbidity ->
  in_range 6.5 8.5 pH -> above turbidity 5.0 ->
  exists out w' unsafe_prob safe_prob,
    predict (fallback_engine model_dir) (InList l) w = (Returns out, w') /\
    PredictionOutput.prediction out = 0%Z /\
    PredictionOutput.result out = "Not Safe" /\
    same_float (PredictionOutput.probability out) (Fin 0.75) /\
    same_float (PredictionOutput.confidence out) (Fin 0.75) /\
    probabilities_of (fallback_engine model_dir) [l] [Fin unsafe_prob; Fin safe_prob] /\
    unsafe_prob == 0.25 /\ safe_prob == 0.75 /\ unsafe_prob < safe_prob.
Proof.
  intros Hvalid HpH Hturbidity Hrange Habove.
  destruct (predict_fallback_list model_dir l w Hvalid)
    as (pH' & turbidity' & w' & HpH' & Hturbidity' & Hpredict).
  rewrite HpH in HpH'. injection HpH' as <-.
  rewrite Hturbidity in Hturbidity'. injection Hturbidity' as <-.
  apply ph_in_rule_spec in Hrange. apply above_not_in_rule in Habove.
  destruct (valid_features_row l Hvalid)
    as (x0 & x1 & x2 & x3 & x4 & x5 & x6 & x7 & x8 & ->).
  injection HpH as <-. injection Hturbidity as <-.
  exists (fallback_output x0 x8), w',
    (1 - safe_probability true false), (safe_probability true false).
  split; [exact Hpredict|].
  unfold fallback_output. rewrite Hrange, Habove.
  split; [reflexivity|]. split; [reflexivity|].
  split; [reflexivity|]. split; [reflexivity|].
  split.
  { exists MockScaler.new, MockModel.new,
      [[x0; x1; x2; x3; x4; x5; x6; x7; x8]], [].
    split; [reflexivity|]. split; [reflexivity|]. split; [reflexivity|].
    cbn [Estimator.predict_proba MockModel.new].
    now rewrite MockModel_predict_proba_row, Hrange, Habove. }
  split; [reflexivity|]. split; reflexivity.
Qed.

Lemma fallback_label_against_probabilities_witness :
  exists out w' unsafe_prob safe_prob,
    predict (fallback_engine "ml") (InList turbid_sample) empty_world
    = (Returns out, w') /\
    PredictionOutput.prediction out = 0%Z /\
    PredictionOutput.result out = "Not Safe" /\
    same_float (PredictionOutput.probability out) (Fin 0.75) /\
    same_float (PredictionOutput.confidence out) (Fin 0.75) /\
    probabilities_of (fallback_engine "ml") [turbid_sample]
      [Fin unsafe_prob; Fin safe_prob] /\
    unsafe_prob == 0.25 /\ safe_prob == 0.75 /\ unsafe_prob < safe_prob.
Proof.
  apply (fallback_label_against_probabilities turbid_sample (Fin 7.0) (Fin 6.0)
           "ml" empty_world turbid_sample_valid eq_refl eq_refl).
  - split; discriminate.
  - reflexivity.
Defined.

Lemma get_model_info_model_loaded self :
  get_model_info self !! "model_loaded" = Some (InfoBool (is_loaded self)).
Proof. reflexivity. Qed.

(** C10.  When a model file is missing, [__init__] returns an engine with
    [is_loaded] false and version "fallback-1.0.0"; [get_model_info] reports
    [model_loaded] false for it, and yet [predict] answers every valid list.
    [load_model] never raises, sets [is_loaded] when it returns [True] and
    leaves it as it was when it returns [False]; installing the fallback
    leaves it as it was too. *)
Theorem fallback_is_not_loaded :
  (forall (model_dir : string) (w : world),
     fs w !! path_join model_dir "model.pkl" = None \/
     fs w !! path_join model_dir "scaler.pkl" = None ->
     exists engine w',
       __init__ model_dir w = (Returns engine, w') /\
       is_loaded engine = false /\
       model_version engine = "fallback-1.0.0" /\
       get_model_info engine !! "model_loaded" = Some (InfoBool false) /\
       forall (l : list pyfloat) (w1 : world),
         valid_features l ->
         exists out w2, predict engine (InList l) w1 = (Returns out, w2)) /\
  (forall (self : WaterQualityPredictor.t) (w : world),
     exists b self' w',
       load_model (self, w) = (Returns b, (self', w')) /\
       (b = true -> is_loaded self' = true) /\
       (b = false -> is_loaded self' = is_loaded self)) /\
  (forall (self : WaterQualityPredictor.t) (w : world),
     exists self' w',
       _initialize_fallback_model (self, w) = (Returns tt, (self', w')) /\
       is_loaded self' = is_loaded self).
Proof.
  split; [|split].
  - intros model_dir w H.
    exists (fallback_engine model_dir), (logged (fallback_records model_dir) w).
    split; [now apply init_installs_fallback|].
    split; [reflexivity|]. split; [reflexivity|]. split; [reflexivity|].
    intros l w1 Hvalid.
    destruct (predict_fallback_list model_dir l w1 Hvalid)
      as (pH & turbidity & w2 & _ & _ & Hpredict).
    eauto.
  - apply load_model_outcome.
  - intros self w. do 2 eexists.
    split; [apply initialize_fallback_model_outcome|reflexivity].
Qed.

Lemma fallback_is_not_loaded_witness :
  exists engine w',
    __init__ "ml" empty_world = (Returns engine, w') /\
    is_loaded engine = false /\
    model_version engine = "fallback-1.0.0" /\
    get_model_info engine !! "model_loaded" = Some (InfoBool false) /\
    forall (l : list pyfloat) (w1 : world),
      valid_features l ->
      exists out w2, predict engine (InList l) w1 = (Returns out, w2).
Proof.
  exact (proj1 fallback_is_not_loaded "ml" empty_world (or_introl eq_refl)).
Defined.

(** ** Batches *)

(** Computations that only log. *)

Section LogsOnly.

Context {A B : Type}.

Lemma logs_only_ret (a : A) : logs_only (ret a).
Proof. exists (Returns a), []. intros w. unfold ret. now rewrite logged_nil. Qed.

Lemma logs_only_raise (e : exn) : logs_only (raise e : M world A).
Proof. exists (Raises e), []. intros w. unfold raise. now rewrite logged_nil. Qed.

Lemma logs_only_lift (o : outcome A) : logs_only (lift o).
Proof. exists o, []. intros w. unfold lift. now rewrite logged_nil. Qed.

Lemma logs_only_index (l : list A) i : logs_only (index l i).
Proof. unfold index. destruct (l !! i); [apply logs_only_ret|apply logs_only_raise]. Qed.

Lemma logs_only_bind (m : M world A) (k : A -> M world B) :
  logs_only m -> (forall a, logs_only (k a)) -> logs_only (bind m k).
Proof.
  intros (o & l & Hm) Hk. destruct o as [a|e].
  - destruct (Hk a) as (o' & l' & Hka). exists o', (l ++ l'). intros w.
    rewrite (bind_returns _ _ _ _ _ (Hm w)), Hka. now rewrite logged_logged.
  - exists (Raises e), l. intros w. now rewrite (bind_raises _ _ _ _ _ (Hm w)).
Qed.

Lemma logs_only_try_except (m : M world A) (h : exn -> M world A) :
  logs_only m -> (forall e, logs_only (h e)) -> logs_only (try_except m h).
Proof.
  intros (o & l & Hm) Hh. destruct o as [a|e].
  - exists (Returns a), l. intros w. now rewrite (try_except_returns _ _ _ _ _ (Hm w)).
  - destruct (Hh e) as (o' & l' & Hhe). exists o', (l ++ l'). intros w.
    rewrite (try_except_raises _ _ _ _ _ (Hm w)), Hhe. now rewrite logged_logged.
Qed.

End LogsOnly.

Lemma logs_only_logger lv m : logs_only (logger lv m).
Proof. exists (Returns tt), [LogRecord lv m]. reflexivity. Qed.

Lemma logs_only_when c (m : M world unit) : logs_only m -> logs_only (when c m).
Proof. intros H. destruct c; [exact H|apply logs_only_ret]. Qed.

Lemma logs_only_for_each {A} (l : list A) (body : A -> M world unit) :
  (forall x, logs_only (body x)) -> logs_only (for_each l body).
Proof.
  intros H. induction l as [|x rest IH]; cbn [for_each].
  - apply logs_only_ret.
  - apply logs_only_bind; [apply H|intros _; exact IH].
Qed.

Create HintDb logs_only.
#[local] Hint Resolve logs_only_ret logs_only_raise logs_only_lift logs_only_index
  logs_only_logger : logs_only.

Ltac logs_only :=
  repeat first
    [ solve [auto with logs_only]
    | apply logs_only_for_each; intros ?
    | apply logs_only_when
    | apply logs_only_try_except; [|intros ?]
    | apply logs_only_bind; [|intros ?]
    | match goal with
      | |- logs_only (if ?c then _ else _) => destruct c
      | |- logs_only (match ?x with _ => _ end) => destruct x
      end ].

Lemma logs_only_check_feature_range features names item :
  logs_only (check_feature_range features names item).
Proof.
  destruct item as [i [min_val max_val]]. unfold check_feature_range. logs_only.
Qed.

Lemma logs_only_validate features names :
  logs_only (validate_inference_data features names).
Proof.
  unfold validate_inference_data.
  do 3 (apply logs_only_bind; [logs_only|intros _]).
  apply logs_only_bind; [|intros _; logs_only].
  apply logs_only_for_each. intros item. apply logs_only_check_feature_range.
Qed.

Lemma logs_only_convert_input input_data : logs_only (convert_input input_data).
Proof.
  unfold convert_input. destruct input_data; unfold PredictionInput.new; logs_only.
Qed.

Lemma logs_only_infer self names features : logs_only (infer self names features).
Proof.
  unfold infer, as_transformer, as_estimator, PredictionOutput.new. logs_only.
Qed.

Lemma logs_only_predict self input_data : logs_only (predict self input_data).
Proof.
  unfold predict. apply logs_only_try_except; [|intros e; logs_only].
  apply logs_only_bind; [apply logs_only_convert_input|intros record].
  apply logs_only_bind; [unfold as_names; logs_only|intros names].
  apply logs_only_bind; [apply logs_only_validate|intros _].
  apply logs_only_infer.
Qed.

(** The outcome of [predict] does not depend on the world it runs in. *)
Lemma predict_any_world self input_data w1 w2 :
  fst (predict self input_data w1) = fst (predict self input_data w2).
Proof.
  destruct (logs_only_predict self input_data) as (o & l & H).
  now rewrite !H.
Qed.

Lemma predict_answer self input_data w :
  exists w', predict self input_data w = (answer self input_data, w').
Proof.
  unfold answer. rewrite (predict_any_world self input_data empty_world w).
  destruct (predict self input_data w) as [o w']. now exists w'.
Qed.

Lemma predict_each_accepted self input_batch results w :
  Forall (fun input_data => exists out, answer self input_data = Returns out)
    input_batch ->
  exists outs w',
    predict_each self input_batch results w = (Returns (results ++ outs), w') /\
    map Returns outs = map (answer self) input_batch.
Proof.
  intros H. revert results w.
  induction H as [|input_data rest [out Hout] _ IH]; intros results w.
  - exists [], w. split; [cbn; now rewrite app_nil_r|reflexivity].
  - destruct (predict_answer self input_data w) as [w1 Hrun]. rewrite Hout in Hrun.
    destruct (IH (results ++ [out]) w1) as (outs & w' & Hrest & Hall).
    exists (out :: outs), w'. split.
    + cbn [predict_each]. rewrite (bind_returns _ _ _ _ _ Hrun), Hrest.
      now rewrite <- app_assoc.
    + cbn [map]. now rewrite Hout, Hall.
Qed.

Lemma predict_each_rejected self input_batch results w :
  Exists (fun input_data => exists e, answer self input_data = Raises e)
    input_batch ->
  exists e w', predict_each self input_batch results w = (Raises e, w').
Proof.
  intros H. revert results w.
  induction H as [input_data rest [e He]|input_data rest _ IH]; intros results w;
    cbn [predict_each].
  - destruct (predict_answer self input_data w) as [w' Hrun]. rewrite He in Hrun.
    rewrite (bind_raises _ _ _ _ _ Hrun). eauto.
  - destruct (predict self input_data w) as [[out|e] w1] eqn:Hout.
    + rewrite (bind_returns _ _ _ _ _ Hout). apply IH.
    + rewrite (bind_raises _ _ _ _ _ Hout). eauto.
Qed.

(** C3.  The outcome of [predict] on an input is the same in every world.
    When [predict] returns an output for every input of the batch,
    [predict_batch] returns as many outputs as there are inputs, and the
    output at each position is the one [predict] returns for the input at
    that position.  When [predict] raises on some input of the batch,
    [predict_batch] raises: the caller gets no list at all. *)
Theorem predict_batch_all_or_nothing
    (self : WaterQualityPredictor.t) (input_batch : list input) (w : world) :
  (forall input_data w0, fst (predict self input_data w0) = answer self input_data) /\
  (Forall (fun input_data => exists out, answer self input_data = Returns out)
     input_batch ->
   exists outs w',
     predict_batch self input_batch w = (Returns outs, w') /\
     length outs = length input_batch /\
     map Returns outs = map (answer self) input_batch) /\
  (Exists (fun input_data => exists e, answer self input_data = Raises e)
     input_batch ->
   exists e w', predict_batch self input_batch w = (Raises e, w')).
Proof.
  split; [|split; intros H; unfold predict_batch].
  - intros input_data w0. apply predict_any_world.
  - destruct (predict_each_accepted self input_batch [] w H) as (outs & w1 & Heach & Hall).
    exists outs. eexists. split; [|split; [|exact Hall]].
    + erewrite try_except_returns; [reflexivity|].
      rewrite (bind_returns _ _ _ _ _ Heach). reflexivity.
    + rewrite <- (length_map Returns outs), Hall. apply length_map.
  - destruct (predict_each_rejected self input_batch [] w H) as (e & w1 & Heach).
    exists e. eexists.
    apply (reraise_raises _ (fun e => [Lit "Error in batch prediction: "; Exc e])).
    apply bind_raises. exact Heach.
Qed.

Lemma predict_batch_all_or_nothing_witness :
  (exists outs w',
     predict_batch (fallback_engine "ml")
       [InList safe_sample; InList turbid_sample] empty_world
     = (Returns outs, w') /\
     length outs = 2%nat /\
     map Returns outs
     = map (answer (fallback_engine "ml")) [InList safe_sample; InList turbid_sample]) /\
  (exists e w',
     predict_batch (fallback_engine "ml")
       [InList safe_sample; InList ph15_sample; InList turbid_sample] empty_world
     = (Raises e, w')).
Proof.
  split.
  - apply (proj1 (proj2 (predict_batch_all_or_nothing (fallback_engine "ml")
                    [InList safe_sample; InList turbid_sample] empty_world))).
    repeat constructor; eexists; reflexivity.
  - apply (proj2 (proj2 (predict_batch_all_or_nothing (fallback_engine "ml")
                    [InList safe_sample; InList ph15_sample; InList turbid_sample]
                    empty_world))).
    apply Exists_cons_tl, Exists_cons_hd. eexists. reflexivity.
Defined.

Example predict_batch_sample :
  fst (predict_batch (fallback_engine "ml")
         [InList safe_sample; InList turbid_sample] empty_world)
  = Returns [fallback_output (Fin 7.0) (Fin 4.0); fallback_output (Fin 7.0) (Fin 6.0)].
Proof. reflexivity. Qed.

(** ** The trainer *)

Import WaterQualityTrainer.

Lemma save_model_body_unset self w :
  model self = None \/ scaler self = None ->
  save_model_body (self, w)
  = (Raises (ValueError PersistenceError "Model or scaler not trained"), (self, w)).
Proof.
  intros H. unfold save_model_body, bind, get_self.
  destruct H as [H|H]; rewrite H; [reflexivity|].
  destruct (model self); reflexivity.
Qed.

Lemma save_model_never_raises st : exists b st', save_model st = (Returns b, st').
Proof.
  unfold save_model, try_except.
  destruct (save_model_body st) as [[b|e] [self w]]; [eauto|].
  rewrite (bind_returns _ _ _ _ _ (io_logger _ _ _ _)). unfold ret. eauto.
Qed.

(** C8, as the specification states it, fails on a trainer that was never
    trained: [save_model] does not fail with a persistence error, nor with
    any other error. *)
Lemma unset_save_does_not_fail :
  ~ exists e st',
      save_model (untrained "ml", empty_world) = (Raises e, st') /\
      class_of e = Some PersistenceError.
Proof.
  intros (e & st' & H & _).
  destruct (save_model_never_raises (untrained "ml", empty_world))
    as (b & st & Hb).
  congruence.
Qed.

(** C8, amended.  [save_model] never raises.  When the model or the scaler
    is unset, it catches the [ValueError] "Model or scaler not trained" of
    its own [try] block, logs it, writes no file and returns [False].  When
    the stages of [train_from_file] have produced the evaluation results,
    [train_from_file] returns these results whatever [save_model] answers,
    with [model_saved] set to that answer: [False] when saving failed. *)
Theorem save_failure_is_reported :
  (forall (st st' : WaterQualityTrainer.t * world) (e : exn),
     save_model st <> (Raises e, st')) /\
  (forall (self : WaterQualityTrainer.t) (w : world),
     model self = None \/ scaler self = None ->
     exists cls,
       save_model (self, w)
       = (Returns false,
          (self,
           logged [save_error_record
                     (ValueError cls "Model or scaler not trained")] w))) /\
  (forall (DataFrame Dataset : Type)
          (load_data : string -> M (t * world) DataFrame)
          (preprocess_data : DataFrame -> M (t * world) Dataset)
          (train_model : Dataset -> M (t * world) (gmap string pyval))
          (data_path : string) (self self1 self2 : t) (w w1 w2 : world)
          (results : gmap string pyval) (saved : bool),
     (data <- load_data data_path ;;
      Xy <- preprocess_data data ;;
      train_model Xy) (self, w) = (Returns results, (self1, w1)) ->
     save_model (self1, w1) = (Returns saved, (self2, w2)) ->
     train_from_file DataFrame Dataset load_data preprocess_data train_model
       data_path (self, w)
     = (Returns (<["model_saved" := VBool saved]> results),
        (self2, logged [pipeline_record saved] w2))).
Proof.
  split; [|split].
  - intros st st' e H.
    destruct (save_model_never_raises st) as (b & st1 & Hb). congruence.
  - intros self w H. exists PersistenceError.
    pose proof (save_model_body_unset self w H) as Hb.
    unfold save_model. rewrite (try_except_raises _ _ _ _ _ Hb).
    reflexivity.
  - intros DataFrame Dataset load_data preprocess_data train_model
      data_path self self1 self2 w w1 w2 results saved Hstages Hsave.
    unfold train_from_file.
    apply bind_inv_returns in Hstages as (data & [s1 v1] & Hload & Hstages).
    apply bind_inv_returns in Hstages as (Xy & [s2 v2] & Hpre & Htrain).
    erewrite try_except_returns; [reflexivity|].
    rewrite (bind_returns _ _ _ _ _ Hload).
    rewrite (bind_returns _ _ _ _ _ Hpre).
    rewrite (bind_returns _ _ _ _ _ Htrain).
    rewrite (bind_returns _ _ _ _ _ Hsave).
    destruct saved; reflexivity.
Qed.

Lemma save_failure_is_reported_witness :
  (exists cls,
     save_model (untrained "ml", empty_world)
     = (Returns false,
        (untrained "ml",
         logged [save_error_record
                   (ValueError cls "Model or scaler not trained")]
           empty_world))) /\
  train_from_file unit unit sample_load_data sample_preprocess_data
    sample_train_model "data.csv" (untrained "ml", read_only_world)
  = (Returns (<["model_saved" := VBool false]> sample_results),
     (trained "ml",
      logged [save_error_record (OSError "ml/model.pkl"); pipeline_record false]
        read_only_world)).
Proof.
  split.
  - apply (proj1 (proj2 save_failure_is_reported) (untrained "ml") empty_world
             (or_introl eq_refl)).
  - apply (proj2 (proj2 save_failure_is_reported) unit unit sample_load_data
                sample_preprocess_data sample_train_model "data.csv"
                (untrained "ml") (trained "ml") (trained "ml")
                read_only_world read_only_world
                (logged [save_error_record (OSError "ml/model.pkl")] read_only_world)
                sample_results false eq_refl eq_refl).
Defined.

(** * Further properties *)

Import WaterQualityPredictor.

(** ** The order of the checks of the validator *)

Lemma validate_inference_data_width features names w :
  (shape1 features =? length names)%nat = false ->
  validate_inference_data features names w
  = (Raises (ValueError ShapeError
               (width_message (length names) (shape1 features))), w).
Proof. intros H. unfold validate_inference_data. now rewrite H. Qed.

Lemma validate_inference_data_nan features names w :
  (shape1 features =? length names)%nat = true ->
  np_any isnan features = true ->
  validate_inference_data features names w
  = (Raises (ValueError NonFiniteError "Features contain NaN values"), w).
Proof. intros H1 H2. unfold validate_inference_data. now rewrite H1, H2. Qed.

Lemma validate_inference_data_inf features names w :
  (shape1 features =? length names)%nat = true ->
  np_any isnan features = false ->
  np_any isinf features = true ->
  validate_inference_data features names w
  = (Raises (ValueError NonFiniteError "Features contain infinite values"), w).
Proof. intros H1 H2 H3. unfold validate_inference_data. now rewrite H1, H2, H3. Qed.

(** X1. On a matrix with at least one row, [validate_inference_data] returns
    exactly when the matrix is as wide as the list of names, holds no NaN and
    no infinity, and has no value below the minimum of its feature. Otherwise
    what it raises is settled in this order: the shape error, which names the
    expected and the received width, then the NaN error, then the infinity
    error, each of them with the log as it was, and then a range error. *)
Theorem validate_inference_data_verdict
    (features : matrix) (feature_names : list string) (w : world) :
  features <> [] ->
  let width_ok := (shape1 features =? length feature_names)%nat in
  let has_nan := np_any isnan features in
  let has_inf := np_any isinf features in
  let below := existsb (below_minimum features) feature_ranges in
  ((exists w', validate_inference_data features feature_names w = (Returns tt, w'))
   <-> width_ok = true /\ has_nan = false /\ has_inf = false /\ below = false) /\
  (forall e w',
     validate_inference_data features feature_names w = (Raises e, w') ->
     (width_ok = false /\ w' = w /\
      e = ValueError ShapeError
            (width_message (length feature_names) (shape1 features))) \/
     (width_ok = true /\ has_nan = true /\ w' = w /\
      e = ValueError NonFiniteError "Features contain NaN values") \/
     (width_ok = true /\ has_nan = false /\ has_inf = true /\ w' = w /\
      e = ValueError NonFiniteError "Features contain infinite values") \/
     (width_ok = true /\ has_nan = false /\ has_inf = false /\ below = true /\
      class_of e = Some RangeError)).
Proof.
  intros _. cbv zeta.
  destruct (shape1 features =? length feature_names)%nat eqn:Hw.
  2:{ rewrite (validate_inference_data_width _ _ _ Hw). split.
      - split; [intros [w' H]; discriminate|intros (H & _); discriminate].
      - intros e w' H. injection H as <- <-. left. auto. }
  destruct (np_any isnan features) eqn:Hn.
  { rewrite (validate_inference_data_nan _ _ _ Hw Hn). split.
    - split; [intros [w' H]; discriminate|intros (_ & H & _); discriminate].
    - intros e w' H. injection H as <- <-. right. left. auto. }
  destruct (np_any isinf features) eqn:Hi.
  { rewrite (validate_inference_data_inf _ _ _ Hw Hn Hi). split.
    - split; [intros [w' H]; discriminate|intros (_ & _ & H & _); discriminate].
    - intros e w' H. injection H as <- <-. right. right. left. auto 6. }
  apply Nat.eqb_eq in Hw.
  rewrite (validate_inference_data_finite _ _ _ Hw Hn Hi).
  pose proof (for_each_ranges features feature_names feature_ranges w Hw) as H.
  destruct (existsb (below_minimum features) feature_ranges) eqn:Hb.
  - destruct H as (i & mn & mx & name & w1 & _ & _ & _ & H).
    rewrite (bind_raises _ _ _ _ _ H). split.
    + split; [intros [w' H']; discriminate|intros (_ & _ & _ & H'); discriminate].
    + intros e w' H'. injection H' as <- <-. right. right. right. auto 6.
  - rewrite (bind_returns _ _ _ _ _ H). split.
    + split; [auto|]. intros _. unfold logger. eauto.
    + intros e w' H'. discriminate.
Qed.

Lemma validate_inference_data_verdict_witness :
  (exists w',
     validate_inference_data [safe_sample] canonical_feature_names empty_world
     = (Returns tt, w')) /\
  forall e w',
    validate_inference_data [negative_sample] canonical_feature_names empty_world
    = (Raises e, w') ->
    class_of e = Some RangeError.
Proof.
  split.
  - apply (proj2 (proj1 (validate_inference_data_verdict [safe_sample]
                           canonical_feature_names empty_world
                           ltac:(discriminate)))).
    repeat split; reflexivity.
  - intros e w' H.
    destruct (proj2 (validate_inference_data_verdict [negative_sample]
                       canonical_feature_names empty_world
                       ltac:(discriminate)) e w' H)
      as [(Hw & _)|[(_ & Hn & _)|[(_ & _ & Hi & _)|(_ & _ & _ & _ & Hc)]]];
      [discriminate Hw|discriminate Hn|discriminate Hi|exact Hc].
Defined.

(** ** The field checks of [PredictionInput] *)

Lemma field_errors_nil fields (kwargs : gmap string pyfloat) :
  field_errors fields kwargs = [] <->
  Forall (fun '(name, checks) =>
            exists v, kwargs !! name = Some v /\ first_error checks v = None) fields.
Proof.
  induction fields as [|[name checks] rest IH].
  - split; [constructor|reflexivity].
  - unfold field_errors in *. cbn [omap list_omap].
    destruct (kwargs !! name) as [v|] eqn:Hv.
    + destruct (first_error checks v) as [fe|] eqn:Hfe.
      * split; [discriminate|]. intros H. apply Forall_cons_1 in H as [(v' & Hv' & H) _].
        congruence.
      * rewrite IH. split.
        -- intros H. constructor; [eauto|exact H].
        -- intros H. now apply Forall_cons_1 in H as [_ H].
    + split; [discriminate|]. intros H. apply Forall_cons_1 in H as [(v' & Hv' & _) _].
      congruence.
Qed.

Lemma field_errors_elem fields (kwargs : gmap string pyfloat) name fe :
  (name, fe) ∈ field_errors fields kwargs ->
  exists checks, (name, checks) ∈ fields /\
    ((kwargs !! name = None /\ fe = FieldRequired) \/
     (exists v, kwargs !! name = Some v /\ first_error checks v = Some fe)).
Proof.
  unfold field_errors. intros H. apply list_elem_of_omap in H as ([name' checks] & Hin & H).
  exists checks. destruct (kwargs !! name') as [v|] eqn:Hv.
  - destruct (first_error checks v) as [fe'|] eqn:Hfe; [|discriminate].
    injection H as <- <-. split; [exact Hin|]. right. eauto.
  - injection H as <- <-. split; [exact Hin|]. left. auto.
Qed.

Lemma field_errors_order fields (kwargs : gmap string pyfloat) :
  sublist (map fst (field_errors fields kwargs)) (map fst fields).
Proof.
  unfold field_errors. induction fields as [|[name checks] rest IH]; [constructor|].
  cbn [omap list_omap map fst].
  destruct (kwargs !! name) as [v|].
  - destruct (first_error checks v) as [fe|].
    + cbn. now apply sublist_skip.
    + now apply sublist_cons.
  - cbn. now apply sublist_skip.
Qed.

Lemma field_errors_ext fields (d d' : gmap string pyfloat) :
  (forall name, name ∈ map fst fields -> d !! name = d' !! name) ->
  field_errors fields d = field_errors fields d'.
Proof.
  unfold field_errors. induction fields as [|[name checks] rest IH]; intros H;
    [reflexivity|].
  cbn [omap list_omap]. rewrite <- (H name) by (cbn; left).
  rewrite IH; [reflexivity|]. intros n Hn. apply H. cbn. now right.
Qed.

Lemma ge0_check x : check_ge 0 x = None <-> passes_ge0 x.
Proof.
  unfold check_ge, passes_ge0. destruct (fle (of_int 0) x); split; congruence.
Qed.

Lemma ge0_check_error x fe : first_error [check_ge 0] x = Some fe -> fe = NotGe 0.
Proof.
  cbn [first_error]. unfold check_ge. destruct (fle (of_int 0) x); [discriminate|].
  now intros [= <-].
Qed.

Lemma ph_checks x :
  first_error [check_le 14; check_ge 0; PredictionInput.validate_ph] x = None
  <-> passes_ge0 x /\ fle x (of_int 14) = true.
Proof.
  cbn [first_error]. unfold check_ge, check_le, PredictionInput.validate_ph, passes_ge0.
  destruct (fle (of_int 0) x), (fle x (of_int 14)); cbn; split;
    (discriminate || tauto || (intros [? ?]; discriminate) || auto).
Qed.

Lemma ph_checks_error x fe :
  first_error [check_le 14; check_ge 0; PredictionInput.validate_ph] x = Some fe ->
  fe = NotGe 0 \/ fe = NotLe 14.
Proof.
  cbn [first_error]. unfold check_ge, check_le, PredictionInput.validate_ph.
  destruct (fle (of_int 0) x), (fle x (of_int 14)); cbn; intros [= <-]; auto.
Qed.

Lemma PredictionInput_fields_elem name checks :
  (name, checks) ∈ PredictionInput.fields ->
  name ∈ canonical_feature_names /\
  ((name = "pH" /\
    checks = [check_le 14; check_ge 0; PredictionInput.validate_ph]) \/
   checks = [check_ge 0]).
Proof.
  unfold PredictionInput.fields, canonical_feature_names. intros H.
  repeat (apply elem_of_cons in H as [[= -> ->]|H];
          [split; [set_solver|auto]|]).
  now apply elem_of_nil in H.
Qed.

(** X2. When [PredictionInput] rejects its arguments, it raises a
    [ValidationError] with at least one field error and changes nothing. The
    errors come in the order the fields are declared; each one is a missing
    field, a pH that is not at most 14, or a value that is not at least 0
    and, if it is the pH, is at most 14. A NaN is neither at most 14 nor at
    least 0: it is reported against the upper bound for the pH and against
    the lower bound for the other fields. The [@validator] of pH never adds
    an error of its own. *)
Theorem prediction_input_errors {S : Type}
    (kwargs : gmap string pyfloat) (s s' : S) (e : exn) :
  PredictionInput.new kwargs s = (Raises e, s') ->
  s' = s /\
  exists errors,
    e = ValidationError "PredictionInput" errors /\
    errors <> [] /\
    sublist (map fst errors) canonical_feature_names /\
    Forall (fun '(name, fe) =>
              (fe = FieldRequired /\ kwargs !! name = None) \/
              (fe = NotLe 14 /\ name = "pH" /\
               exists v, kwargs !! name = Some v /\ fle v (of_int 14) = false) \/
              (fe = NotGe 0 /\
               exists v, kwargs !! name = Some v /\ ~ passes_ge0 v /\
                         (name = "pH" -> fle v (of_int 14) = true))) errors.
Proof.
  unfold PredictionInput.new.
  destruct (field_errors PredictionInput.fields kwargs) as [|err errors] eqn:E;
    [discriminate|].
  intros H. injection H as <- <-. split; [reflexivity|].
  exists (err :: errors). split; [reflexivity|]. split; [discriminate|]. split.
  { rewrite <- E. apply (field_errors_order PredictionInput.fields). }
  apply Forall_forall. intros [name fe] Hin. rewrite <- E in Hin.
  apply field_errors_elem in Hin as (checks & Hfield & Hcase).
  pose proof Hfield as Hname.
  apply PredictionInput_fields_elem in Hfield as [_ Hchecks].
  destruct Hcase as [[Hnone ->]|(v & Hv & Hfe)]; [now left|right].
  destruct Hchecks as [[-> ->]| ->].
  - unfold first_error, check_ge, check_le, PredictionInput.validate_ph in Hfe.
    unfold passes_ge0.
    destruct (fle v (of_int 14)) eqn:H14.
    + destruct (fle (of_int 0) v) eqn:H0; cbn in Hfe; [discriminate|].
      injection Hfe as <-. right. split; [reflexivity|]. exists v.
      split; [exact Hv|]. split; [congruence|auto].
    + injection Hfe as <-. left. eauto 10.
  - right. split; [now apply ge0_check_error in Hfe|].
    exists v. split; [exact Hv|]. split.
    + intros Hp. apply ge0_check in Hp.
      cbn [first_error] in Hfe. rewrite Hp in Hfe. discriminate.
    + intros ->. exfalso. clear -Hname.
      unfold PredictionInput.fields in Hname.
      repeat (apply elem_of_cons in Hname as [Hname|Hname]; [discriminate|]).
      now apply elem_of_nil in Hname.
Qed.

Lemma prediction_input_errors_witness :
  exists errors,
    PredictionInput.new (as_kwargs negative_sample) empty_world
    = (Raises (ValidationError "PredictionInput" errors), empty_world) /\
    sublist (map fst errors) canonical_feature_names.
Proof.
  assert (PredictionInput.new (as_kwargs negative_sample) empty_world
          = (Raises (ValidationError "PredictionInput" [("Hardness", NotGe 0)]),
             empty_world)) as H by reflexivity.
  destruct (prediction_input_errors _ _ _ _ H) as (_ & errors & He & _ & Hsub & _).
  exists errors. split; [rewrite H; now rewrite He|exact Hsub].
Defined.

Lemma PredictionInput_new_ext {S : Type} (d d' : gmap string pyfloat) (s : S) :
  (forall name, name ∈ canonical_feature_names -> d !! name = d' !! name) ->
  PredictionInput.new d s = PredictionInput.new d' s.
Proof.
  intros H. unfold PredictionInput.new, PredictionInput.field.
  rewrite (field_errors_ext PredictionInput.fields d d') by exact H.
  rewrite !(H _) by (unfold canonical_feature_names; set_solver).
  reflexivity.
Qed.

Lemma as_kwargs_lookup (l : list pyfloat) i name :
  length l = 9%nat ->
  canonical_feature_names !! i = Some name ->
  as_kwargs l !! name = l !! i.
Proof.
  intros Hlen Hname.
  do 9 (destruct l as [|? l]; [discriminate|]). destruct l; [|discriminate].
  do 9 (destruct i as [|i]; [injection Hname as <-; reflexivity|]).
  discriminate.
Qed.

Lemma convert_input_row x0 x1 x2 x3 x4 x5 x6 x7 x8 w :
  convert_input (InList [x0; x1; x2; x3; x4; x5; x6; x7; x8]) w
  = PredictionInput.new (as_kwargs [x0; x1; x2; x3; x4; x5; x6; x7; x8]) w.
Proof. reflexivity. Qed.

Lemma passes_fields_row x0 x1 x2 x3 x4 x5 x6 x7 x8 :
  passes_fields [x0; x1; x2; x3; x4; x5; x6; x7; x8] <->
  field_errors PredictionInput.fields (as_kwargs [x0; x1; x2; x3; x4; x5; x6; x7; x8])
  = [].
Proof.
  rewrite field_errors_nil. unfold PredictionInput.fields, passes_fields.
  rewrite !Forall_cons, !Forall_nil.
  change (as_kwargs [x0; x1; x2; x3; x4; x5; x6; x7; x8] !! "pH") with (Some x0).
  change (as_kwargs [x0; x1; x2; x3; x4; x5; x6; x7; x8] !! "Hardness") with (Some x1).
  change (as_kwargs [x0; x1; x2; x3; x4; x5; x6; x7; x8] !! "Solids") with (Some x2).
  change (as_kwargs [x0; x1; x2; x3; x4; x5; x6; x7; x8] !! "Chloramines") with (Some x3).
  change (as_kwargs [x0; x1; x2; x3; x4; x5; x6; x7; x8] !! "Sulfate") with (Some x4).
  change (as_kwargs [x0; x1; x2; x3; x4; x5; x6; x7; x8] !! "Conductivity") with (Some x5).
  change (as_kwargs [x0; x1; x2; x3; x4; x5; x6; x7; x8] !! "Organic_carbon") with (Some x6).
  change (as_kwargs [x0; x1; x2; x3; x4; x5; x6; x7; x8] !! "Trihalomethanes") with (Some x7).
  change (as_kwargs [x0; x1; x2; x3; x4; x5; x6; x7; x8] !! "Turbidity") with (Some x8).
  split.
  - intros (_ & (H0 & H1 & H2 & H3 & H4 & H5 & H6 & H7 & H8 & _) & pH & [= <-] & H14).
    repeat split;
      (eexists; split; [reflexivity|]);
      try (cbn [first_error]; now rewrite (proj2 (ge0_check _))).
    apply ph_checks. auto.
  - intros ((v0 & [= <-] & E0) & (v1 & [= <-] & E1) & (v2 & [= <-] & E2) &
            (v3 & [= <-] & E3) & (v4 & [= <-] & E4) & (v5 & [= <-] & E5) &
            (v6 & [= <-] & E6) & (v7 & [= <-] & E7) & (v8 & [= <-] & E8) & _).
    apply ph_checks in E0 as [E0 E14].
    assert (forall x, first_error [check_ge 0] x = None -> passes_ge0 x) as Hge.
    { intros x. cbn [first_error]. destruct (check_ge 0 x) eqn:E; [discriminate|].
      intros _. now apply ge0_check. }
    split; [reflexivity|]. split; [|exists x0; auto].
    repeat constructor; auto.
Qed.

Lemma convert_input_list_inv
    (l : list pyfloat) (w w' : world) (record : PredictionInput.t) :
  convert_input (InList l) w = (Returns record, w') ->
  passes_fields l /\ PredictionInput.to_array record = [l] /\ w' = w.
Proof.
  destruct (decide (length l = 9%nat)) as [Hlen|Hlen];
    [|rewrite (convert_input_wrong_length l w Hlen); discriminate].
  do 9 (destruct l as [|? l]; [discriminate|]). destruct l; [|discriminate].
  rewrite convert_input_row, passes_fields_row. unfold PredictionInput.new.
  destruct (field_errors _ _) as [|err errors]; [|discriminate].
  intros [= <- <-]. auto.
Qed.

Lemma convert_input_passes (l : list pyfloat) (w : world) :
  passes_fields l ->
  exists record,
    convert_input (InList l) w = (Returns record, w) /\
    PredictionInput.to_array record = [l].
Proof.
  intros Hpass. pose proof Hpass as (Hlen & _).
  do 9 (destruct l as [|? l]; [discriminate|]). destruct l; [|discriminate].
  rewrite convert_input_row. unfold PredictionInput.new.
  apply passes_fields_row in Hpass. rewrite Hpass.
  eexists. split; reflexivity.
Qed.

(** X3. [to_array] gives back the list a record was built from, and a list
    makes a record exactly when it passes the field checks. *)
Theorem convert_input_list_round_trip
    (l : list pyfloat) (w w' : world) (record : PredictionInput.t) :
  convert_input (InList l) w = (Returns record, w') <->
  passes_fields l /\ PredictionInput.to_array record = [l] /\ w' = w.
Proof.
  split; [apply convert_input_list_inv|].
  intros (Hpass & Harr & ->).
  destruct (convert_input_passes l w Hpass) as (record' & Hconv & Harr').
  rewrite Hconv. f_equal. f_equal.
  destruct record, record'. cbn in Harr, Harr'.
  rewrite <- Harr' in Harr. now inversion Harr.
Qed.

(** X4. A dictionary that holds the values of a list under the nine field
    names is treated as the list, whatever other keys it holds. *)
Theorem predict_dict_as_list
    (self : WaterQualityPredictor.t) (l : list pyfloat)
    (d : gmap string pyfloat) (w : world) :
  length l = 9%nat ->
  (forall i name, canonical_feature_names !! i = Some name -> d !! name = l !! i) ->
  predict self (InDict d) w = predict self (InList l) w.
Proof.
  intros Hlen Hd.
  assert (convert_input (InDict d) w = convert_input (InList l) w) as Hconv.
  { assert (forall name, name ∈ canonical_feature_names ->
                         d !! name = as_kwargs l !! name) as Hext.
    { intros name Hin. apply list_elem_of_lookup in Hin as [i Hi].
      now rewrite (Hd i name Hi), (as_kwargs_lookup l i name Hlen Hi). }
    do 9 (destruct l as [|? l]; [discriminate|]). destruct l; [|discriminate].
    rewrite convert_input_row. cbn [convert_input].
    now apply PredictionInput_new_ext. }
  unfold predict, try_except, bind. now rewrite Hconv.
Qed.

Lemma predict_dict_as_list_witness :
  predict (fallback_engine "ml") (InDict safe_dict_with_source) empty_world
  = predict (fallback_engine "ml") (InList safe_sample) empty_world.
Proof.
  apply predict_dict_as_list; [reflexivity|].
  intros i name H.
  do 9 (destruct i as [|i]; [injection H as <-; reflexivity|]). discriminate.
Defined.

Lemma validate_inference_data_returns_inv features names w w' :
  validate_inference_data features names w = (Returns tt, w') ->
  shape1 features = length names /\
  np_any isnan features = false /\ np_any isinf features = false.
Proof.
  intros H.
  destruct (shape1 features =? length names)%nat eqn:Hw;
    [|rewrite (validate_inference_data_width _ _ _ Hw) in H; discriminate].
  destruct (np_any isnan features) eqn:Hn;
    [rewrite (validate_inference_data_nan _ _ _ Hw Hn) in H; discriminate|].
  destruct (np_any isinf features) eqn:Hi;
    [rewrite (validate_inference_data_inf _ _ _ Hw Hn Hi) in H; discriminate|].
  apply Nat.eqb_eq in Hw. auto.
Qed.

Lemma passes_finite_nonneg x :
  passes_ge0 x -> isinf x = false -> nonneg x.
Proof.
  unfold passes_ge0. destruct x as [q| | |]; try discriminate.
  intros H _. now apply fle_Fin in H.
Qed.

Lemma passes_fields_finite_valid l :
  passes_fields l -> np_any isinf [l] = false -> valid_features l.
Proof.
  intros (Hlen & Hall & pH & HpH & H14) Hinf.
  unfold np_any in Hinf. cbn [existsb] in Hinf. rewrite orb_false_r in Hinf.
  assert (Forall (fun x => isinf x = false) l) as Hfin.
  { apply Forall_forall. intros x Hx.
    destruct (isinf x) eqn:E; [|reflexivity].
    assert (existsb isinf l = true) as Hex.
    { apply existsb_exists. exists x. split; [now apply list_elem_of_In|exact E]. }
    congruence. }
  split; [exact Hlen|]. split.
  - apply Forall_forall. intros x Hx. apply passes_finite_nonneg.
    + now apply (proj1 (Forall_forall _ _) Hall).
    + now apply (proj1 (Forall_forall _ _) Hfin).
  - exists pH. split; [exact HpH|].
    assert (pH ∈ l) as Hin by (apply list_elem_of_lookup; eauto).
    pose proof (proj1 (Forall_forall _ _) Hall pH Hin) as Hge.
    pose proof (proj1 (Forall_forall _ _) Hfin pH Hin) as Hf.
    destruct pH as [q| | |]; try discriminate. now apply fle_Fin in H14.
Qed.

(** X5. [predict] returns on a list only if the list is a valid record,
    whatever the model; with the fallback it returns on every valid record. *)
Theorem predict_returns_on_valid_only (l : list pyfloat) (w : world) :
  (forall (self : WaterQualityPredictor.t) out w',
     predict self (InList l) w = (Returns out, w') -> valid_features l) /\
  (forall model_dir,
     (exists out w',
        predict (fallback_engine model_dir) (InList l) w = (Returns out, w'))
     <-> valid_features l).
Proof.
  assert (forall (self : WaterQualityPredictor.t) out w',
            predict self (InList l) w = (Returns out, w') -> valid_features l) as H.
  { intros self out w' Hp.
    apply predict_inv in Hp as (record & names & w1 & w2 & Hconv & _ & Hval & _).
    apply convert_input_list_inv in Hconv as (Hpass & Harr & _).
    rewrite Harr in Hval.
    apply validate_inference_data_returns_inv in Hval as (_ & _ & Hinf).
    now apply passes_fields_finite_valid. }
  split; [exact H|]. intros model_dir. split.
  - intros (out & w' & Hp). now apply (H _ _ _ Hp).
  - intros Hvalid.
    destruct (predict_fallback_list model_dir l w Hvalid) as (pH & t & w' & _ & _ & Hp).
    eauto.
Qed.

(** ** [validate_input] against [predict] *)

Lemma validate_input_outcome d w :
  validate_input d w
  = match field_errors PredictionInput.fields d with
    | [] => (Returns true, w)
    | errors =>
        (Returns false,
         logged [input_validation_record
                   (ValidationError "PredictionInput" errors)] w)
    end.
Proof.
  unfold validate_input, try_except, bind, PredictionInput.new.
  destruct (field_errors PredictionInput.fields d); reflexivity.
Qed.

Lemma PredictionInput_fields_lookup i name :
  canonical_feature_names !! i = Some name ->
  exists checks,
    PredictionInput.fields !! i = Some (name, checks) /\
    (checks = [check_ge 0] \/
     checks = [check_le 14; check_ge 0; PredictionInput.validate_ph]) /\
    (name = "pH" ->
     checks = [check_le 14; check_ge 0; PredictionInput.validate_ph]) /\
    (name <> "pH" -> checks = [check_ge 0]).
Proof.
  intros Hi.
  do 9 (destruct i as [|i];
        [injection Hi as <-; eexists; split; [reflexivity|];
         split; [auto|]; split;
         [first [intros H; discriminate H|auto]
         |first [intros H; now elim H|auto]]|]).
  discriminate.
Qed.

Lemma passes_dict_field_errors d :
  passes_dict d <-> field_errors PredictionInput.fields d = [].
Proof.
  rewrite field_errors_nil, Forall_forall. unfold passes_dict. split.
  - intros H [name checks] Hin.
    apply PredictionInput_fields_elem in Hin as [Hname Hchecks].
    destruct (H name Hname) as (v & Hv & Hge & Hle). exists v. split; [exact Hv|].
    destruct Hchecks as [[-> ->]| ->].
    + apply ph_checks. auto.
    + cbn [first_error]. now rewrite (proj2 (ge0_check v)).
  - intros H name Hname.
    apply list_elem_of_lookup in Hname as [i Hi].
    destruct (PredictionInput_fields_lookup i name Hi)
      as (checks & Hin & Hchecks & Hph & _).
    apply list_elem_of_lookup_2 in Hin.
    destruct (H _ Hin) as (v & Hv & Hfe). exists v. split; [exact Hv|].
    destruct Hchecks as [-> | ->].
    + split.
      * cbn [first_error] in Hfe. destruct (check_ge 0 v) eqn:E; [discriminate|].
        now apply ge0_check.
      * intros Hn. specialize (Hph Hn). discriminate.
    + apply ph_checks in Hfe as [H0 H14]. auto.
Qed.

(** X6. [validate_input] never raises, and answers [True] exactly for the
    dictionaries that pass the field checks. *)
Theorem validate_input_verdict (d : gmap string pyfloat) (w : world) :
  exists b w',
    validate_input d w = (Returns b, w') /\
    (b = true <-> passes_dict d) /\
    (b = true -> w' = w) /\
    (b = false ->
     exists errors,
       w' = logged [input_validation_record
                      (ValidationError "PredictionInput" errors)] w).
Proof.
  rewrite validate_input_outcome.
  destruct (field_errors PredictionInput.fields d) as [|err errors] eqn:E.
  - exists true, w. split; [reflexivity|]. split; [|split; [auto|discriminate]].
    split; [intros _; now apply passes_dict_field_errors|auto].
  - exists false. eexists. split; [reflexivity|].
    split; [|split; [discriminate|eauto]].
    split; [discriminate|]. intros H. apply passes_dict_field_errors in H. congruence.
Qed.

Lemma passes_ge0_not_nan x : passes_ge0 x -> isnan x = false.
Proof. unfold passes_ge0. now destruct x. Qed.

Lemma existsb_Forall_false {A} (p : A -> bool) (l : list A) :
  Forall (fun x => p x = false) l -> existsb p l = false.
Proof. induction 1 as [|x rest Hx _ IH]; [reflexivity|]. cbn. now rewrite Hx, IH. Qed.

(** X7. A list with [inf] in a field that only has a lower bound passes
    [validate_input] and is rejected by [predict]. *)
Theorem infinity_passes_validate_input_only
    (self : WaterQualityPredictor.t) (names : list string)
    (l : list pyfloat) (w : world) :
  feature_names self = Some (ObjNames names) ->
  length names = 9%nat ->
  passes_fields l ->
  PosInf ∈ l ->
  validate_input (as_kwargs l) w = (Returns true, w) /\
  predict self (InList l) w
  = (Raises infinite_error, logged [prediction_error_record infinite_error] w).
Proof.
  intros Hnames Hnine Hpass Hinf. split.
  - rewrite validate_input_outcome.
    pose proof Hpass as (Hlen & _).
    do 9 (destruct l as [|? l]; [discriminate|]). destruct l; [|discriminate].
    apply passes_fields_row in Hpass. now rewrite Hpass.
  - destruct (convert_input_passes l w Hpass) as (record & Hconv & Harr).
    destruct Hpass as (Hlen & Hall & _).
    unfold predict.
    apply (reraise_raises _ (fun e => [Lit "Error making prediction: "; Exc e])).
    rewrite (bind_returns _ _ _ _ _ Hconv), Harr, Hnames.
    erewrite bind_returns by reflexivity.
    apply bind_raises, validate_inference_data_inf.
    + cbn [shape1]. rewrite Hlen, Hnine. reflexivity.
    + unfold np_any. cbn [existsb]. rewrite orb_false_r.
      apply existsb_Forall_false. eapply Forall_impl; [exact Hall|].
      intros x. apply passes_ge0_not_nan.
    + unfold np_any. cbn [existsb]. rewrite orb_false_r.
      apply existsb_exists. exists PosInf. split; [now apply list_elem_of_In|reflexivity].
Qed.

(** X8. [nan] in a list is reported by the field checks of [PredictionInput]:
    as a pH that is not at most 14 when it is the pH, and as a value that is
    not at least 0 in every other field; the check for NaN of the validator
    is not reached. *)
Theorem nan_is_a_field_error
    (self : WaterQualityPredictor.t) (l : list pyfloat) (i : nat)
    (name : string) (w : world) :
  length l = 9%nat ->
  l !! i = Some NaN ->
  canonical_feature_names !! i = Some name ->
  exists errors,
    (name, nan_report name) ∈ errors /\
    predict self (InList l) w
    = (Raises (ValidationError "PredictionInput" errors),
       logged [prediction_error_record (ValidationError "PredictionInput" errors)] w).
Proof.
  intros Hlen Hnan Hname.
  assert ((name, nan_report name)
          ∈ field_errors PredictionInput.fields (as_kwargs l)) as Hin.
  { destruct (PredictionInput_fields_lookup i name Hname)
      as (checks & Hfield & _ & Hph & Hother).
    apply list_elem_of_omap. exists (name, checks).
    split; [now apply list_elem_of_lookup_2 in Hfield|].
    rewrite (as_kwargs_lookup l i name Hlen Hname), Hnan. unfold nan_report.
    destruct (String.eqb_spec name "pH") as [Heq|Hne].
    - now rewrite (Hph Heq).
    - now rewrite (Hother Hne). }
  exists (field_errors PredictionInput.fields (as_kwargs l)). split; [exact Hin|].
  apply predict_conversion_raises.
  do 9 (destruct l as [|? l]; [discriminate|]). destruct l; [|discriminate].
  rewrite convert_input_row. unfold PredictionInput.new.
  destruct (field_errors PredictionInput.fields _) as [|err errors];
    [now apply elem_of_nil in Hin|reflexivity].
Qed.

Lemma infinity_passes_validate_input_only_witness :
  validate_input (as_kwargs infinite_sample) empty_world
  = (Returns true, empty_world) /\
  predict (fallback_engine "ml") (InList infinite_sample) empty_world
  = (Raises infinite_error,
     logged [prediction_error_record infinite_error] empty_world).
Proof.
  apply (infinity_passes_validate_input_only _ canonical_feature_names);
    [reflexivity|reflexivity| |].
  - split; [reflexivity|]. split; [repeat constructor|].
    exists (Fin 7.0). split; reflexivity.
  - repeat constructor.
Defined.

Lemma nan_is_a_field_error_witness :
  (exists errors,
     ("Solids", NotGe 0) ∈ errors /\
     predict (fallback_engine "ml") (InList nan_sample) empty_world
     = (Raises (ValidationError "PredictionInput" errors),
        logged [prediction_error_record (ValidationError "PredictionInput" errors)]
          empty_world)) /\
  (exists errors,
     ("pH", NotLe 14) ∈ errors /\
     predict (fallback_engine "ml") (InList nan_ph_sample) empty_world
     = (Raises (ValidationError "PredictionInput" errors),
        logged [prediction_error_record (ValidationError "PredictionInput" errors)]
          empty_world)).
Proof.
  split.
  - apply (nan_is_a_field_error _ nan_sample 2 "Solids"); reflexivity.
  - apply (nan_is_a_field_error _ nan_ph_sample 0 "pH"); reflexivity.
Defined.

(** ** The fallback classifier on a matrix *)

Lemma MockModel_row_answers (x : list pyfloat) :
  x <> [] ->
  exists label row,
    MockModel.predict_row x = Returns label /\
    MockModel.predict_proba_row x = Returns row /\
    mock_answer label row.
Proof.
  destruct x as [|pH rest]; [congruence|]. intros _.
  unfold MockModel.predict_row, MockModel.predict_proba_row, MockModel.row_inputs.
  cbn [lookup list_lookup].
  set (turbidity := if (8 <? _)%nat then _ else Fin 5.0).
  unfold mock_answer.
  destruct (fle (Fin 6.5) pH && fle pH (Fin 8.5)) eqn:Hph;
    destruct (fle turbidity (Fin 5.0)) eqn:Hturbidity; cbn [andb];
    do 2 eexists; (split; [reflexivity|]); (split; [reflexivity|]);
    eexists; (split; [reflexivity|]); split.
  all: try (right; right; right; reflexivity).
  all: try (right; right; left; reflexivity).
  all: try (right; left; reflexivity).
  all: try (left; reflexivity).
  all: try (left; split; reflexivity).
  all: right; split; [reflexivity|]; intros H; discriminate H.
Qed.

(** X9. The fallback classifier answers every matrix without an empty row,
    rows that hold NaN or fewer than nine values included, with one label and
    one pair of probabilities per row; the label is 1 exactly when the
    probability of the safe class is 0.9. An empty row makes both methods
    raise [IndexError]. *)
Theorem mock_model_answers (X : matrix) :
  (Forall (fun x => x <> []) X ->
   exists labels probabilities,
     MockModel.predict X = Returns labels /\
     MockModel.predict_proba X = Returns probabilities /\
     Forall2 mock_answer labels probabilities /\
     length labels = length X) /\
  (Exists (fun x => x = []) X ->
   MockModel.predict X = Raises IndexError /\
   MockModel.predict_proba X = Raises IndexError).
Proof.
  unfold MockModel.predict, MockModel.predict_proba. split.
  - induction 1 as [|x rest Hx _ IH].
    + exists [], []. repeat split; constructor.
    + destruct (MockModel_row_answers x Hx) as (label & row & Hl & Hr & Ha).
      destruct IH as (labels & probabilities & Hls & Hps & Hall & Hlen).
      exists (label :: labels), (row :: probabilities). cbn [collect].
      rewrite Hl, Hr, Hls, Hps. repeat split; [now constructor|].
      cbn. now rewrite Hlen.
  - induction 1 as [x rest ->|x rest _ IH]; [split; reflexivity|].
    cbn [collect]. destruct IH as [-> ->].
    destruct x as [|pH more]; [split; reflexivity|].
    destruct (MockModel_row_answers (pH :: more)) as (label & row & -> & -> & _);
      [discriminate|].
    split; reflexivity.
Qed.

(** ** [load_model], case by case *)

Section Loading.

Variable self : WaterQualityPredictor.t.
Variable w : world.

Let model_path := path_join (model_dir self) "model.pkl".
Let scaler_path := path_join (model_dir self) "scaler.pkl".
Let feature_path := path_join (model_dir self) "features.pkl".

Lemma load_model_found m s names :
  artifacts (model_dir self) w m s names ->
  load_model (self, w)
  = (Returns true,
     (loaded_engine (model_dir self) (model_version self) m s names,
      logged [model_loaded_record] w)).
Proof.
  intros (E1 & E2 & E3). unfold load_model.
  erewrite try_except_returns; [reflexivity|].
  erewrite bind_returns by reflexivity.
  erewrite bind_returns by (apply io_returns, all_exist_pair).
  rewrite E1, E2, !bool_decide_true by eauto. cbn [andb negb].
  erewrite bind_returns by (apply io_returns, joblib_load_pickle, E1).
  erewrite bind_returns by reflexivity.
  erewrite bind_returns by (apply io_returns, joblib_load_pickle, E2).
  erewrite bind_returns by reflexivity.
  erewrite bind_returns by (apply io_returns; reflexivity).
  destruct E3 as [E3|[E3 ->]]; rewrite E3.
  - rewrite bool_decide_true by eauto.
    erewrite bind_returns; cycle 1.
    { erewrite bind_returns by (apply io_returns, joblib_load_pickle, E3).
      reflexivity. }
    reflexivity.
  - rewrite bool_decide_false by (intros [? ?]; discriminate).
    reflexivity.
Qed.

Lemma load_model_corrupt_model f :
  fs w !! model_path = Some Corrupt ->
  fs w !! scaler_path = Some f ->
  load_model (self, w)
  = (Returns false,
     (self, logged [load_error_record (ExternalError "unpickling failed")] w)).
Proof.
  intros E1 E2. unfold load_model.
  erewrite try_except_raises; cycle 1.
  { erewrite bind_returns by reflexivity.
    erewrite bind_returns by (apply io_returns, all_exist_pair).
    fold model_path scaler_path.
    rewrite E1, E2, !bool_decide_true by eauto. cbn [andb negb].
    apply bind_raises, io_raises, joblib_load_corrupt, E1. }
  reflexivity.
Qed.

Lemma load_model_corrupt_scaler m :
  fs w !! model_path = Some (Pickle m) ->
  fs w !! scaler_path = Some Corrupt ->
  load_model (self, w)
  = (Returns false,
     (set_model (Some m) self,
      logged [load_error_record (ExternalError "unpickling failed")] w)).
Proof.
  intros E1 E2. unfold load_model.
  erewrite try_except_raises; cycle 1.
  { erewrite bind_returns by reflexivity.
    erewrite bind_returns by (apply io_returns, all_exist_pair).
    fold model_path scaler_path.
    rewrite E1, E2, !bool_decide_true by eauto. cbn [andb negb].
    erewrite bind_returns by (apply io_returns, joblib_load_pickle, E1).
    erewrite bind_returns by reflexivity.
    apply bind_raises, io_raises, joblib_load_corrupt, E2. }
  reflexivity.
Qed.

Lemma load_model_corrupt_features m s :
  fs w !! model_path = Some (Pickle m) ->
  fs w !! scaler_path = Some (Pickle s) ->
  fs w !! feature_path = Some Corrupt ->
  load_model (self, w)
  = (Returns false,
     (set_scaler (Some s) (set_model (Some m) self),
      logged [load_error_record (ExternalError "unpickling failed")] w)).
Proof.
  intros E1 E2 E3. unfold load_model.
  erewrite try_except_raises; cycle 1.
  { erewrite bind_returns by reflexivity.
    erewrite bind_returns by (apply io_returns, all_exist_pair).
    fold model_path scaler_path feature_path.
    rewrite E1, E2, !bool_decide_true by eauto. cbn [andb negb].
    erewrite bind_returns by (apply io_returns, joblib_load_pickle, E1).
    erewrite bind_returns by reflexivity.
    erewrite bind_returns by (apply io_returns, joblib_load_pickle, E2).
    erewrite bind_returns by reflexivity.
    erewrite bind_returns by (apply io_returns; reflexivity).
    rewrite E3, bool_decide_true by eauto.
    apply bind_raises, bind_raises, io_raises, joblib_load_corrupt, E3. }
  reflexivity.
Qed.

(** Either the artifacts are there and [load_model] installs them, or they
    are not and [load_model] answers [False], keeping the directory, the
    version and [is_loaded] of the engine. *)
Lemma load_model_cases :
  (exists m s names,
     artifacts (model_dir self) w m s names /\
     load_model (self, w)
     = (Returns true,
        (loaded_engine (model_dir self) (model_version self) m s names,
         logged [model_loaded_record] w))) \/
  ((forall m s names, ~ artifacts (model_dir self) w m s names) /\
   exists self' record,
     load_model (self, w) = (Returns false, (self', logged [record] w)) /\
     model_dir self' = model_dir self /\
     model_version self' = model_version self /\
     is_loaded self' = is_loaded self).
Proof.
  destruct (fs w !! model_path) as [f1|] eqn:E1; cycle 1.
  { right. split; [intros m s names (H & _); fold model_path in H; congruence|].
    exists self. eexists. split; [apply load_model_missing; now left|auto]. }
  destruct (fs w !! scaler_path) as [f2|] eqn:E2; cycle 1.
  { right. split; [intros m s names (_ & H & _); fold scaler_path in H; congruence|].
    exists self. eexists. split; [apply load_model_missing; now right|auto]. }
  destruct f1 as [|m].
  { right. split; [intros m s names (H & _); fold model_path in H; congruence|].
    exists self. eexists. split; [apply (load_model_corrupt_model _ E1 E2)|auto]. }
  destruct f2 as [|s].
  { right. split; [intros m' s names (_ & H & _); fold scaler_path in H; congruence|].
    eexists. eexists. split; [apply (load_model_corrupt_scaler _ E1 E2)|auto]. }
  destruct (fs w !! feature_path) as [[|names]|] eqn:E3.
  - right. split.
    { intros m' s' names (_ & _ & [H|[H _]]); fold feature_path in H; congruence. }
    eexists. eexists. split; [apply (load_model_corrupt_features _ _ E1 E2 E3)|auto].
  - left. exists m, s, names.
    assert (artifacts (model_dir self) w m s names) as H by (repeat split; auto).
    split; [exact H|now apply load_model_found].
  - left. exists m, s, (ObjNames canonical_feature_names).
    assert (artifacts (model_dir self) w m s (ObjNames canonical_feature_names)) as H
      by (repeat split; auto).
    split; [exact H|now apply load_model_found].
Qed.

End Loading.

Lemma artifacts_unique model_dir w m s names m' s' names' :
  artifacts model_dir w m s names -> artifacts model_dir w m' s' names' ->
  m' = m /\ s' = s /\ names' = names.
Proof.
  intros (E1 & E2 & E3) (E1' & E2' & E3').
  repeat split; [congruence|congruence|].
  destruct E3 as [E3|[E3 ->]], E3' as [E3'|[E3' ->]]; congruence.
Qed.

(** X10. [load_model] never raises and never touches the files. It answers
    [True] exactly when the model and scaler files unpickle and the feature
    file unpickles or is absent; the engine then holds what the files hold,
    with the canonical names for an absent feature file, and [is_loaded] is
    set. *)
Theorem load_model_verdict (self : WaterQualityPredictor.t) (w : world) :
  exists b self' w',
    load_model (self, w) = (Returns b, (self', w')) /\
    fs w' = fs w /\ unwritable w' = unwritable w /\
    (b = true <-> exists m s names, artifacts (model_dir self) w m s names) /\
    (forall m s names,
       artifacts (model_dir self) w m s names ->
       self' = loaded_engine (model_dir self) (model_version self) m s names /\
       w' = logged [model_loaded_record] w).
Proof.
  destruct (load_model_cases self w)
    as [(m & s & names & Ha & Hl)|(Hnone & self' & record & Hl & _)];
    rewrite Hl; do 3 eexists; (split; [reflexivity|]);
    (split; [reflexivity|]); (split; [reflexivity|]); split.
  - split; [eauto|reflexivity].
  - intros m' s' names' Ha'.
    destruct (artifacts_unique _ _ _ _ _ _ _ _ Ha Ha') as (-> & -> & ->). auto.
  - split; [discriminate|]. intros (m & s & names & Ha). now apply Hnone in Ha.
  - intros m s names Ha. now apply Hnone in Ha.
Qed.

(** X11. A load that fails at the scaler file keeps the model it has read from
    the model file, next to the scaler, the names, the version and the
    [is_loaded] flag the engine had. *)
Theorem failed_load_keeps_new_model
    (self : WaterQualityPredictor.t) (w : world) (m : pyobj) :
  fs w !! path_join (model_dir self) "model.pkl" = Some (Pickle m) ->
  fs w !! path_join (model_dir self) "scaler.pkl" = Some Corrupt ->
  exists self' w',
    load_model (self, w) = (Returns false, (self', w')) /\
    model self' = Some m /\
    scaler self' = scaler self /\
    feature_names self' = feature_names self /\
    model_version self' = model_version self /\
    is_loaded self' = is_loaded self /\
    get_model_info self' !! "model_loaded" = Some (InfoBool (is_loaded self)).
Proof.
  intros E1 E2. rewrite (load_model_corrupt_scaler self w m E1 E2).
  do 2 eexists. split; [reflexivity|]. repeat split.
Qed.

Lemma failed_load_keeps_new_model_witness :
  exists self' w',
    load_model (loaded_engine "ml" "1.0.0" (ObjNames []) (ObjScaler MockScaler.new)
                  (ObjNames canonical_feature_names), half_corrupt_world)
    = (Returns false, (self', w')) /\
    model self' = Some (ObjModel MockModel.new) /\
    scaler self' = Some (ObjScaler MockScaler.new) /\
    is_loaded self' = true.
Proof.
  destruct (failed_load_keeps_new_model
              (loaded_engine "ml" "1.0.0" (ObjNames []) (ObjScaler MockScaler.new)
                 (ObjNames canonical_feature_names))
              half_corrupt_world (ObjModel MockModel.new) eq_refl eq_refl)
    as (self' & w' & H & Hm & Hs & _ & _ & Hl & _).
  exists self', w'. auto.
Defined.

(** X12. [__init__] never raises and never touches the files: it returns the
    engine loaded from the artifacts when they are there, and exactly the
    fallback engine when they are not, also when a file does not unpickle. *)
Theorem init_engine (model_dir : string) (w : world) :
  exists engine w',
    __init__ model_dir w = (Returns engine, w') /\
    fs w' = fs w /\ unwritable w' = unwritable w /\
    ((exists m s names,
        artifacts model_dir w m s names /\
        engine = loaded_engine model_dir "1.0.0" m s names) \/
     ((forall m s names, ~ artifacts model_dir w m s names) /\
      engine = fallback_engine model_dir)).
Proof.
  pose proof (load_model_cases (blank_engine model_dir) w) as H.
  cbn [WaterQualityPredictor.model_dir model_version is_loaded blank_engine] in H.
  unfold __init__. fold (blank_engine model_dir).
  destruct H as [(m & s & names & Ha & Hl)|(Hnone & self' & record & Hl & Hd & _ & Hf)].
  - rewrite (bind_returns _ _ _ _ _ Hl). cbn [negb when ret].
    do 2 eexists. split; [reflexivity|]. split; [reflexivity|].
    split; [reflexivity|]. left. eauto.
  - rewrite (bind_returns _ _ _ _ _ Hl). cbn [negb when].
    erewrite bind_returns by apply io_logger.
    rewrite initialize_fallback_model_outcome, Hd, Hf.
    do 2 eexists. split; [reflexivity|]. split; [reflexivity|].
    split; [reflexivity|]. right. split; [exact Hnone|reflexivity].
Qed.

(** ** [save_model], case by case *)

Lemma joblib_dump_writable o p w :
  writable w p ->
  joblib_dump o p w = (Returns tt, with_fs (<[p := Pickle o]> (fs w)) w).
Proof. intros H. unfold joblib_dump. now rewrite bool_decide_false. Qed.

Lemma joblib_dump_unwritable o p w :
  ~ writable w p -> joblib_dump o p w = (Raises (OSError p), w).
Proof.
  intros H. unfold joblib_dump, writable in *.
  rewrite bool_decide_true; [reflexivity|].
  destruct (decide (p ∈ unwritable w)); [assumption|contradiction].
Qed.

Section Saving.

Variable trainer : WaterQualityTrainer.t.
Variable w : world.
Variables m s : pyobj.
Hypothesis Hready : ready trainer m s.

Let model_path := path_join (WaterQualityTrainer.model_dir trainer) "model.pkl".
Let scaler_path := path_join (WaterQualityTrainer.model_dir trainer) "scaler.pkl".
Let feature_path := path_join (WaterQualityTrainer.model_dir trainer) "features.pkl".

Lemma save_model_body_ready :
  WaterQualityTrainer.save_model_body (trainer, w)
  = (io (joblib_dump m model_path) ;;
     io (joblib_dump s scaler_path) ;;
     io (logger INFO [Lit ("Model saved to " +:+ model_path)]) ;;
     io (logger INFO [Lit ("Scaler saved to " +:+ scaler_path)]) ;;
     io (joblib_dump (ObjNames (WaterQualityTrainer.feature_names trainer))
           feature_path) ;;
     ret true) (trainer, w).
Proof.
  destruct Hready as [Hm Hs]. unfold WaterQualityTrainer.save_model_body.
  erewrite bind_returns by reflexivity. now rewrite Hm, Hs.
Qed.

Lemma save_model_model_unwritable :
  ~ writable w model_path ->
  WaterQualityTrainer.save_model (trainer, w)
  = (Returns false, (trainer, logged [save_error_record (OSError model_path)] w)).
Proof.
  intros H1. unfold WaterQualityTrainer.save_model.
  erewrite try_except_raises; cycle 1.
  { rewrite save_model_body_ready.
    apply bind_raises, io_raises, joblib_dump_unwritable, H1. }
  reflexivity.
Qed.

Lemma save_model_scaler_unwritable :
  writable w model_path -> ~ writable w scaler_path ->
  WaterQualityTrainer.save_model (trainer, w)
  = (Returns false,
     (trainer,
      logged [save_error_record (OSError scaler_path)]
        (with_fs (<[model_path := Pickle m]> (fs w)) w))).
Proof.
  intros H1 H2. unfold WaterQualityTrainer.save_model.
  erewrite try_except_raises; cycle 1.
  { rewrite save_model_body_ready.
    erewrite bind_returns by (apply io_returns, joblib_dump_writable, H1).
    apply bind_raises, io_raises, joblib_dump_unwritable, H2. }
  reflexivity.
Qed.

Lemma save_model_features_unwritable :
  writable w model_path -> writable w scaler_path -> ~ writable w feature_path ->
  WaterQualityTrainer.save_model (trainer, w)
  = (Returns false,
     (trainer,
      logged (saved_records (WaterQualityTrainer.model_dir trainer)
              ++ [save_error_record (OSError feature_path)])
        (with_fs (<[scaler_path := Pickle s]> (<[model_path := Pickle m]> (fs w)))
           w))).
Proof.
  intros H1 H2 H3. unfold WaterQualityTrainer.save_model.
  erewrite try_except_raises; cycle 1.
  { rewrite save_model_body_ready.
    erewrite bind_returns by (apply io_returns, joblib_dump_writable, H1).
    erewrite bind_returns by (apply io_returns, joblib_dump_writable, H2).
    erewrite bind_returns by apply io_logger.
    erewrite bind_returns by apply io_logger.
    apply bind_raises, io_raises, joblib_dump_unwritable, H3. }
  erewrite bind_returns by apply io_logger.
  now rewrite !logged_logged.
Qed.

Lemma save_model_saves :
  writable w model_path -> writable w scaler_path -> writable w feature_path ->
  WaterQualityTrainer.save_model (trainer, w)
  = (Returns true,
     (trainer,
      logged (saved_records (WaterQualityTrainer.model_dir trainer))
        (with_fs
           (<[feature_path :=
                Pickle (ObjNames (WaterQualityTrainer.feature_names trainer))]>
              (<[scaler_path := Pickle s]> (<[model_path := Pickle m]> (fs w))))
           w))).
Proof.
  intros H1 H2 H3. unfold WaterQualityTrainer.save_model.
  erewrite try_except_returns; cycle 1.
  { rewrite save_model_body_ready.
    erewrite bind_returns by (apply io_returns, joblib_dump_writable, H1).
    erewrite bind_returns by (apply io_returns, joblib_dump_writable, H2).
    erewrite bind_returns by apply io_logger.
    erewrite bind_returns by apply io_logger.
    erewrite bind_returns by (apply io_returns, joblib_dump_writable, H3).
    reflexivity. }
  now rewrite !logged_logged.
Qed.

End Saving.

(** X13. [save_model] never raises and never assigns to the trainer. It
    answers [True] exactly when model and scaler are set and the three files
    can be written; the directory then holds the model, the scaler and the
    feature names. Whatever it answers, no other file is touched. *)
Theorem save_model_verdict (trainer : WaterQualityTrainer.t) (w : world) :
  let dir := WaterQualityTrainer.model_dir trainer in
  exists b w',
    WaterQualityTrainer.save_model (trainer, w) = (Returns b, (trainer, w')) /\
    unwritable w' = unwritable w /\
    (b = true <->
     (exists m s, ready trainer m s) /\
     writable w (path_join dir "model.pkl") /\
     writable w (path_join dir "scaler.pkl") /\
     writable w (path_join dir "features.pkl")) /\
    (b = true ->
     forall m s, ready trainer m s ->
       fs w' = <[path_join dir "features.pkl" :=
                   Pickle (ObjNames (WaterQualityTrainer.feature_names trainer))]>
                 (<[path_join dir "scaler.pkl" := Pickle s]>
                    (<[path_join dir "model.pkl" := Pickle m]> (fs w)))) /\
    (forall p,
       p <> path_join dir "model.pkl" -> p <> path_join dir "scaler.pkl" ->
       p <> path_join dir "features.pkl" ->
       fs w' !! p = fs w !! p).
Proof.
  intros dir.
  assert (WaterQualityTrainer.model trainer = None \/
          WaterQualityTrainer.scaler trainer = None \/
          exists m s, ready trainer m s) as [Hm|[Hs|(m & s & Hready)]].
  { unfold ready. destruct (WaterQualityTrainer.model trainer);
      destruct (WaterQualityTrainer.scaler trainer); eauto 10. }
  1,2: exists false; eexists; split;
    [unfold WaterQualityTrainer.save_model;
     erewrite try_except_raises by (apply save_model_body_unset; auto);
     reflexivity|];
    split; [reflexivity|]; split;
    [split; [discriminate|intros ((m & s & Hm' & Hs') & _); congruence]|];
    split; [discriminate|reflexivity].
  destruct (decide (path_join dir "model.pkl" ∈ unwritable w)) as [H1|H1].
  { rewrite (save_model_model_unwritable trainer w m s Hready) by (intros H; now apply H).
    do 2 eexists. split; [reflexivity|]. split; [reflexivity|].
    split; [split; [discriminate|intros (_ & H & _); now apply H in H1]|].
    split; [discriminate|reflexivity]. }
  destruct (decide (path_join dir "scaler.pkl" ∈ unwritable w)) as [H2|H2].
  { rewrite (save_model_scaler_unwritable trainer w m s Hready H1)
      by (intros H; now apply H).
    do 2 eexists. split; [reflexivity|]. split; [reflexivity|].
    split; [split; [discriminate|intros (_ & _ & H & _); now apply H in H2]|].
    split; [discriminate|]. intros p Hp _ _. cbn.
    now rewrite lookup_insert_ne. }
  destruct (decide (path_join dir "features.pkl" ∈ unwritable w)) as [H3|H3].
  { rewrite (save_model_features_unwritable trainer w m s Hready H1 H2)
      by (intros H; now apply H).
    do 2 eexists. split; [reflexivity|]. split; [reflexivity|].
    split; [split; [discriminate|intros (_ & _ & _ & H); now apply H in H3]|].
    split; [discriminate|]. intros p Hp1 Hp2 _. cbn.
    now rewrite !lookup_insert_ne. }
  rewrite (save_model_saves trainer w m s Hready H1 H2 H3).
  do 2 eexists. split; [reflexivity|]. split; [reflexivity|].
  split; [split; [eauto 6|reflexivity]|]. split.
  - intros _ m' s' [Hm' Hs']. destruct Hready as [Hm Hs].
    assert (m' = m) as -> by congruence. assert (s' = s) as -> by congruence.
    reflexivity.
  - intros p Hp1 Hp2 Hp3. cbn. now rewrite !lookup_insert_ne.
Qed.

(** ** From the trainer to the engine *)

Lemma path_join_inj dir a b : path_join dir a = path_join dir b -> a = b.
Proof.
  unfold path_join. induction dir as [|c dir IH]; cbn; intros H.
  - now injection H.
  - injection H as H. auto.
Qed.

Lemma path_join_ne dir a b : a <> b -> path_join dir a <> path_join dir b.
Proof. intros H E. now apply path_join_inj in E. Qed.

Lemma init_loads model_dir w m s names :
  artifacts model_dir w m s names ->
  __init__ model_dir w
  = (Returns (loaded_engine model_dir "1.0.0" m s names),
     logged [model_loaded_record] w).
Proof.
  intros H. unfold __init__.
  erewrite bind_returns by (apply load_model_found; exact H).
  reflexivity.
Qed.

(** X14. What [save_model] writes, [__init__] of the engine loads: after a
    save into a directory whose three files can be written, an engine made for
    that directory holds the model, the scaler and the feature names of the
    trainer, and is loaded. *)
Theorem saved_model_is_loaded
    (trainer : WaterQualityTrainer.t) (w : world) (m s : pyobj) :
  let dir := WaterQualityTrainer.model_dir trainer in
  ready trainer m s ->
  writable w (path_join dir "model.pkl") ->
  writable w (path_join dir "scaler.pkl") ->
  writable w (path_join dir "features.pkl") ->
  exists w1 w2,
    WaterQualityTrainer.save_model (trainer, w) = (Returns true, (trainer, w1)) /\
    __init__ dir w1
    = (Returns (loaded_engine dir "1.0.0" m s
                  (ObjNames (WaterQualityTrainer.feature_names trainer))), w2).
Proof.
  intros dir Hready H1 H2 H3.
  rewrite (save_model_saves trainer w m s Hready H1 H2 H3).
  do 2 eexists. split; [reflexivity|].
  apply init_loads. unfold artifacts, logged, with_fs, with_logs; cbn [fs].
  split; [|split; [|left]].
  - rewrite !lookup_insert_ne by (apply path_join_ne; discriminate).
    apply lookup_insert_eq.
  - rewrite lookup_insert_ne by (apply path_join_ne; discriminate).
    apply lookup_insert_eq.
  - apply lookup_insert_eq.
Qed.

Lemma saved_model_is_loaded_witness :
  exists w1 w2,
    WaterQualityTrainer.save_model (trained "ml", empty_world)
    = (Returns true, (trained "ml", w1)) /\
    __init__ "ml" w1
    = (Returns (loaded_engine "ml" "1.0.0" (ObjModel MockModel.new)
                  (ObjScaler MockScaler.new) (ObjNames canonical_feature_names)),
       w2).
Proof.
  apply (saved_model_is_loaded (trained "ml") empty_world
           (ObjModel MockModel.new) (ObjScaler MockScaler.new)).
  - split; reflexivity.
  - unfold writable. cbn. set_solver.
  - unfold writable. cbn. set_solver.
  - unfold writable. cbn. set_solver.
Defined.

(** X15. A save that fails at the scaler file has already replaced the model
    file: an engine made for the directory afterwards is loaded, with the new
    model next to the scaler that was there before. *)
Theorem failed_save_leaves_new_model
    (trainer : WaterQualityTrainer.t) (w : world) (m s s_old names : pyobj) :
  let dir := WaterQualityTrainer.model_dir trainer in
  ready trainer m s ->
  writable w (path_join dir "model.pkl") ->
  ~ writable w (path_join dir "scaler.pkl") ->
  fs w !! path_join dir "scaler.pkl" = Some (Pickle s_old) ->
  (fs w !! path_join dir "features.pkl" = Some (Pickle names) \/
   fs w !! path_join dir "features.pkl" = None /\
   names = ObjNames canonical_feature_names) ->
  exists w1 w2,
    WaterQualityTrainer.save_model (trainer, w) = (Returns false, (trainer, w1)) /\
    __init__ dir w1 = (Returns (loaded_engine dir "1.0.0" m s_old names), w2).
Proof.
  intros dir Hready H1 H2 Hs Hf.
  rewrite (save_model_scaler_unwritable trainer w m s Hready H1 H2).
  do 2 eexists. split; [reflexivity|].
  apply init_loads. unfold artifacts, logged, with_fs, with_logs; cbn [fs].
  split; [apply lookup_insert_eq|].
  rewrite !lookup_insert_ne by (apply path_join_ne; discriminate).
  split; [exact Hs|exact Hf].
Qed.

Lemma failed_save_leaves_new_model_witness :
  exists w1 w2,
    WaterQualityTrainer.save_model (trained "ml", stale_scaler_world)
    = (Returns false, (trained "ml", w1)) /\
    __init__ "ml" w1
    = (Returns (loaded_engine "ml" "1.0.0" (ObjModel MockModel.new)
                  (ObjScaler MockScaler.new) (ObjNames canonical_feature_names)),
       w2).
Proof.
  apply (failed_save_leaves_new_model (trained "ml") stale_scaler_world
           (ObjModel MockModel.new) (ObjScaler MockScaler.new)).
  - split; reflexivity.
  - unfold writable. cbn. set_solver.
  - unfold writable. cbn. set_solver.
  - reflexivity.
  - right. split; reflexivity.
Defined.

(** ** Failures of the training pipeline *)

Lemma bind_inv_raises {S A B} (m : M S A) (k : A -> M S B) s e s2 :
  bind m k s = (Raises e, s2) ->
  m s = (Raises e, s2) \/
  exists a s1, m s = (Returns a, s1) /\ k a s1 = (Raises e, s2).
Proof.
  unfold bind. destruct (m s) as [[a|e1] s1]; intros H; [right; eauto|left; now injection H as -> ->].
Qed.

Section PipelineFailures.

Variable DataFrame : Type.
Variable Dataset : Type.
Variable load_data : string -> M (WaterQualityTrainer.t * world) DataFrame.
Variable preprocess_data : DataFrame -> M (WaterQualityTrainer.t * world) Dataset.
Variable train_model : Dataset -> M (WaterQualityTrainer.t * world) (gmap string pyval).
Variable data_path : string.

Let stages : M (WaterQualityTrainer.t * world) (gmap string pyval) :=
  data <- load_data data_path ;;
  Xy <- preprocess_data data ;;
  train_model Xy.

Let run := WaterQualityTrainer.train_from_file DataFrame Dataset load_data
             preprocess_data train_model data_path.

Lemma train_from_file_stage_raises st e self1 w1 :
  stages st = (Raises e, (self1, w1)) ->
  run st = (Raises e, (self1, logged [pipeline_failed_record e] w1)).
Proof.
  intros H. unfold run, WaterQualityTrainer.train_from_file.
  erewrite try_except_raises; cycle 1.
  { apply bind_inv_raises in H as [H|(data & st1 & Hload & H)];
      [apply bind_raises, H|].
    rewrite (bind_returns _ _ _ _ _ Hload).
    apply bind_inv_raises in H as [H|(Xy & st2 & Hpre & H)];
      [apply bind_raises, H|].
    rewrite (bind_returns _ _ _ _ _ Hpre).
    apply bind_raises, H. }
  reflexivity.
Qed.

Lemma train_from_file_stage_returns st results st1 :
  stages st = (Returns results, st1) ->
  exists results' st', run st = (Returns results', st').
Proof.
  intros H. unfold run, WaterQualityTrainer.train_from_file.
  apply bind_inv_returns in H as (data & s1 & Hload & H).
  apply bind_inv_returns in H as (Xy & s2 & Hpre & Htrain).
  destruct (save_model_never_raises st1) as (saved & [self2 w2] & Hsave).
  destruct saved; do 2 eexists;
    (erewrite try_except_returns; [reflexivity|]);
    rewrite (bind_returns _ _ _ _ _ Hload);
    rewrite (bind_returns _ _ _ _ _ Hpre);
    rewrite (bind_returns _ _ _ _ _ Htrain);
    rewrite (bind_returns _ _ _ _ _ Hsave); reflexivity.
Qed.

End PipelineFailures.

(** X16. [train_from_file] raises exactly when one of its three stages raises:
    it then raises the error of the stage, having logged it as a failure of
    the pipeline, and [save_model] has not run. A failure to save never makes
    it raise. *)
Theorem train_from_file_raises
    (DataFrame Dataset : Type)
    (load_data : string -> M (WaterQualityTrainer.t * world) DataFrame)
    (preprocess_data : DataFrame -> M (WaterQualityTrainer.t * world) Dataset)
    (train_model : Dataset -> M (WaterQualityTrainer.t * world) (gmap string pyval))
    (data_path : string) (st st' : WaterQualityTrainer.t * world) (e : exn) :
  WaterQualityTrainer.train_from_file DataFrame Dataset load_data preprocess_data
    train_model data_path st = (Raises e, st')
  <->
  exists self1 w1,
    (data <- load_data data_path ;;
     Xy <- preprocess_data data ;;
     train_model Xy) st = (Raises e, (self1, w1)) /\
    st' = (self1, logged [pipeline_failed_record e] w1).
Proof.
  split.
  - intros H.
    destruct ((data <- load_data data_path ;;
               Xy <- preprocess_data data ;;
               train_model Xy) st) as [[results|e1] [self1 w1]] eqn:Hstages.
    + destruct (train_from_file_stage_returns _ _ _ _ _ _ _ _ _ Hstages)
        as (results' & st2 & Hrun).
      congruence.
    + rewrite (train_from_file_stage_raises _ _ _ _ _ _ _ _ _ _ Hstages) in H.
      injection H as -> <-. eauto.
  - intros (self1 & w1 & Hstages & ->).
    apply (train_from_file_stage_raises _ _ _ _ _ _ _ _ _ _ Hstages).
Qed.

(** ** The overfitting score on any results *)

Lemma overfitting_by_numbers {S} (results : gmap string pyval) (s : S) :
  ModelEvaluator._calculate_overfitting results s
  = (Returns
       match number_of (default (VFloat 0) (results !! "train_f1")),
             number_of (default (VFloat 0) (results !! "f1")) with
       | Some x, Some y => if Qeq_bool x 0 then 0.0 else qmax2 0.0 ((x - y) / x)
       | _, _ => 0.0
       end, s).
Proof.
  unfold ModelEvaluator._calculate_overfitting, try_except.
  destruct (default (VFloat 0) (results !! "train_f1")) as [x|[|]|];
    destruct (default (VFloat 0) (results !! "f1")) as [y|[|]|];
    cbn [eq_zero number_of negb]; try reflexivity.
  all: destruct (Qeq_bool x 0) eqn:E; [reflexivity|].
  all: unfold py_sub, py_div, as_number, bind, ret; now rewrite E.
Qed.

Lemma qmax2_nonneg x : 0 <= qmax2 0.0 x.
Proof. rewrite qmax2_Qmax, zero_point_zero. apply Q.le_max_l. Qed.

(** X17. On results whose entries are finite floats, flags or objects that
    are no numbers, present or missing, [_calculate_overfitting] never raises
    and its score is never negative. The score is 0 when the training F1 is
    missing and when either F1 is no number; it is 1 when the training F1 is
    a finite float that is not zero and the test F1 is missing; and it is at
    most 1 for a positive training F1 and a test F1 that is not negative. *)
Theorem overfitting_score_total {S : Type} (results : gmap string pyval) (s : S) :
  exists score,
    ModelEvaluator._calculate_overfitting results s = (Returns score, s) /\
    0 <= score /\
    (results !! "train_f1" = None -> score == 0) /\
    (results !! "train_f1" = Some VOther \/ results !! "f1" = Some VOther ->
     score == 0) /\
    (forall train_f1,
       results !! "train_f1" = Some (VFloat train_f1) -> ~ train_f1 == 0 ->
       results !! "f1" = None -> score == 1) /\
    (forall train_f1 test_f1,
       results !! "train_f1" = Some (VFloat train_f1) ->
       results !! "f1" = Some (VFloat test_f1) ->
       0 < train_f1 -> 0 <= test_f1 -> score <= 1).
Proof.
  rewrite overfitting_by_numbers. eexists. split; [reflexivity|].
  split; [|split; [|split; [|split]]].
  - destruct (number_of _) as [x|]; [|discriminate].
    destruct (number_of _) as [y|]; [|discriminate].
    destruct (Qeq_bool x 0); [discriminate|apply qmax2_nonneg].
  - intros ->. cbn. destruct (number_of _); reflexivity.
  - intros [-> | ->]; cbn; [reflexivity|].
    destruct (number_of _); reflexivity.
  - intros x -> Hx ->. cbn.
    destruct (Qeq_bool x 0) eqn:E; [now apply Qeq_bool_iff in E|].
    rewrite qmax2_Qmax, zero_point_zero.
    assert ((x - 0) / x == 1) as -> by (field; exact Hx).
    now apply Q.max_r.
  - intros x y -> -> Hx Hy. cbn.
    destruct (Qeq_bool x 0) eqn:E; [discriminate|].
    rewrite qmax2_Qmax, zero_point_zero.
    apply Q.max_lub; [discriminate|].
    apply Qle_shift_div_r; [exact Hx|]. lra.
Qed.

(** ** The first rejected input of a batch *)

Lemma predict_each_app self batch1 batch2 results w :
  predict_each self (batch1 ++ batch2) results w
  = (rs <- predict_each self batch1 results ;; predict_each self batch2 rs) w.
Proof.
  revert results w. induction batch1 as [|input_data batch1 IH]; intros results w;
    [reflexivity|].
  cbn [app predict_each]. unfold bind.
  destruct (predict self input_data w) as [[out|e] w1]; [|reflexivity].
  now rewrite IH.
Qed.

Lemma predict_raises_logged self input_data w e w' :
  predict self input_data w = (Raises e, w') ->
  exists w0, w' = logged [prediction_error_record e] w0.
Proof.
  unfold predict, try_except.
  match goal with |- context [match ?body w with _ => _ end] =>
    destruct (body w) as [[out|e0] w0] end; [discriminate|].
  intros H. injection H as <- <-. now exists w0.
Qed.

(** X18. [predict_batch] stops at the first input [predict] rejects: it raises
    the error of that input, which is then in the log twice, as an error of
    the prediction and as an error of the batch, and the inputs after it are
    not looked at. *)
Theorem predict_batch_first_failure
    (self : WaterQualityPredictor.t) (accepted rest : list input)
    (input_data : input) (e : exn) (w : world) :
  Forall (fun i => exists out, answer self i = Returns out) accepted ->
  answer self input_data = Raises e ->
  exists outs w1 w2,
    predict_each self accepted [] w = (Returns outs, w1) /\
    predict self input_data w1
    = (Raises e, logged [prediction_error_record e] w2) /\
    predict_batch self (accepted ++ input_data :: rest) w
    = (Raises e,
       logged [prediction_error_record e; batch_error_record e] w2).
Proof.
  intros Haccepted Hrejected.
  destruct (predict_each_accepted self accepted [] w Haccepted)
    as (outs & w1 & Heach & _).
  destruct (predict_answer self input_data w1) as [w' Hrun].
  rewrite Hrejected in Hrun.
  destruct (predict_raises_logged _ _ _ _ _ Hrun) as [w2 ->].
  exists outs, w1, w2. split; [exact Heach|]. split; [exact Hrun|].
  unfold predict_batch.
  erewrite (reraise_raises _ (fun e => [Lit "Error in batch prediction: "; Exc e]));
    cycle 1.
  { apply bind_raises. rewrite predict_each_app.
    rewrite (bind_returns _ _ _ _ _ Heach). cbn [predict_each].
    apply bind_raises, Hrun. }
  now rewrite logged_logged.
Qed.

Lemma predict_batch_first_failure_witness :
  exists outs w1 w2,
    predict_each (fallback_engine "ml") [InList safe_sample] [] empty_world
    = (Returns outs, w1) /\
    predict (fallback_engine "ml") (InList ph15_sample) w1
    = (Raises (ValidationError "PredictionInput" [("pH", NotLe 14)]),
       logged [prediction_error_record
                 (ValidationError "PredictionInput" [("pH", NotLe 14)])] w2) /\
    predict_batch (fallback_engine "ml")
      ([InList safe_sample] ++ InList ph15_sample :: [InList short_sample])
      empty_world
    = (Raises (ValidationError "PredictionInput" [("pH", NotLe 14)]),
       logged [prediction_error_record
                 (ValidationError "PredictionInput" [("pH", NotLe 14)]);
               batch_error_record
                 (ValidationError "PredictionInput" [("pH", NotLe 14)])] w2).
Proof.
  apply predict_batch_first_failure.
  - constructor; [|constructor]. eexists. reflexivity.
  - reflexivity.
Defined.

(** ** The endpoints of app.py *)

Lemma and_then_reply {A B} (m : Endpoint A) (k : A -> Endpoint B) s a s1 :
  m s = (Reply a, s1) -> and_then m k s = k a s1.
Proof. intros H. unfold and_then. now rewrite H. Qed.

Lemma and_then_raised {A B} (m : Endpoint A) (k : A -> Endpoint B) s r s1 :
  m s = (Raised r, s1) -> and_then m k s = (Raised r, s1).
Proof. intros H. unfold and_then. now rewrite H. Qed.

Lemma core_returns {A} (m : M world A) w app_log a w' :
  m w = (Returns a, w') -> core m (w, app_log) = (Reply a, (w', app_log)).
Proof. intros H. unfold core. now rewrite H. Qed.

Lemma core_raises {A} (m : M world A) w app_log e w' :
  m w = (Raises e, w') -> core m (w, app_log) = (Raised (Core e), (w', app_log)).
Proof. intros H. unfold core. now rewrite H. Qed.

(** What the two handlers of an endpoint make of what its body raised. *)
Lemma try_except_ValueError_raised {A} (body : Endpoint A) (note1 note2 : string)
    (failure : string) s r s1 :
  body s = (Raised r, s1) ->
  fst (try_except_ValueError body
         (fun e =>
            _ <~ app_logger ERROR [Text note1; Str (Core e)] ;;
            raise_in_app (HTTPException 400 (Exc e)))
         (fun r =>
            _ <~ app_logger ERROR [Text note2; Str r] ;;
            raise_in_app (HTTPException 500 (Lit failure))) s)
  = match r with
    | Core e => delivered failure (Raises e)
    | HTTPException _ _ => Raised (HTTPException 500 (Lit failure))
    end.
Proof.
  intros H. unfold try_except_ValueError. rewrite H. destruct s1 as [w app_log].
  destruct r as [e|code detail]; [|reflexivity].
  cbn [delivered]. destruct (is_ValueError e); reflexivity.
Qed.

Lemma try_except_ValueError_reply {A} (body : Endpoint A) h1 h2 s a s1 :
  body s = (Reply a, s1) -> try_except_ValueError body h1 h2 s = (Reply a, s1).
Proof. intros H. unfold try_except_ValueError. now rewrite H. Qed.

(** X19. Neither prediction endpoint lets anything but an [HTTPException] with
    status 400 or 500 out of its [try] block: status 400 carries the text of a
    [ValueError] of the core, and everything else, the status 503 for a
    missing predictor and the status 400 for a batch of more than 100 samples
    included, leaves as status 500. The endpoint [/model/info], which has no
    [try] block, does answer a missing predictor with status 503. *)
Theorem endpoint_failures (predictor : option WaterQualityPredictor.t) (s : server) :
  (forall features r s',
     App.predict_water_quality predictor features s = (Raised r, s') ->
     (exists e, is_ValueError e = true /\ r = HTTPException 400 (Exc e)) \/
     r = HTTPException 500 (Lit "Prediction failed")) /\
  (forall batch r s',
     App.predict_batch predictor batch s = (Raised r, s') ->
     (exists e, is_ValueError e = true /\ r = HTTPException 400 (Exc e)) \/
     r = HTTPException 500 (Lit "Batch prediction failed")) /\
  (forall features batch,
     fst (App.predict_water_quality None features s)
     = Raised (HTTPException 500 (Lit "Prediction failed")) /\
     fst (App.predict_batch None batch s)
     = Raised (HTTPException 500 (Lit "Batch prediction failed"))) /\
  (forall batch,
     (100 < length batch)%nat ->
     fst (App.predict_batch predictor batch s)
     = Raised (HTTPException 500 (Lit "Batch prediction failed"))) /\
  App.get_model_info None s
  = (Raised (HTTPException 503 (Lit "Predictor not available")), s).
Proof.
  assert (forall A (body : Endpoint A) note1 note2 failure r s',
    try_except_ValueError body
      (fun e =>
         _ <~ app_logger ERROR [Text note1; Str (Core e)] ;;
         raise_in_app (HTTPException 400 (Exc e)))
      (fun r =>
         _ <~ app_logger ERROR [Text note2; Str r] ;;
         raise_in_app (HTTPException 500 (Lit failure))) s = (Raised r, s') ->
    (exists e, is_ValueError e = true /\ r = HTTPException 400 (Exc e)) \/
    r = HTTPException 500 (Lit failure)) as Hfailures.
  { intros A body note1 note2 failure r s' H.
    destruct (body s) as [[a|r0] s1] eqn:Hbody.
    - rewrite (try_except_ValueError_reply _ _ _ _ _ _ Hbody) in H. discriminate.
    - pose proof (try_except_ValueError_raised _ note1 note2 failure _ _ _ Hbody) as Hr.
      rewrite H in Hr. cbn [fst] in Hr.
      destruct r0 as [e|code detail]; [|injection Hr as ->; now right].
      cbn [delivered] in Hr.
      destruct (is_ValueError e) eqn:He; injection Hr as ->; [left; eauto|now right]. }
  split; [|split; [|split; [|split; [|reflexivity]]]].
  - intros features r s'. apply Hfailures.
  - intros batch r s'. apply Hfailures.
  - intros features batch. destruct s as [w app_log]. split; reflexivity.
  - intros batch Hlarge. destruct predictor as [predictor|];
      [|destruct s as [w app_log]; reflexivity].
    unfold App.predict_batch.
    erewrite try_except_ValueError_raised; cycle 1.
    { apply and_then_raised. unfold raise_if.
      apply Nat.ltb_lt in Hlarge. rewrite Hlarge. reflexivity. }
    reflexivity.
Qed.

Lemma predict_converted self input_data record w :
  convert_input input_data w = (Returns record, w) ->
  predict self input_data w = predict self (InModel record) w.
Proof.
  intros H. unfold predict, try_except.
  now rewrite (bind_returns _ _ _ _ _ H).
Qed.

(** X20. The endpoint [/predict] answers a request of nine features as
    [predict] answers the list: with the same output when there is one, with
    status 400 and the text of the error when [predict] raises a [ValueError],
    and with status 500 otherwise. *)
Theorem predict_endpoint_delivers
    (predictor : WaterQualityPredictor.t) (features : list pyfloat) (s : server) :
  length features = 9%nat ->
  fst (App.predict_water_quality (Some predictor) features s)
  = delivered "Prediction failed" (answer predictor (InList features)).
Proof.
  intros Hlen. destruct s as [w app_log].
  unfold answer. rewrite (predict_any_world predictor (InList features) empty_world w).
  destruct features as [|x0 [|x1 [|x2 [|x3 [|x4 [|x5 [|x6 [|x7 [|x8 [|]]]]]]]]]];
    try discriminate.
  unfold App.predict_water_quality.
  destruct (convert_input (InList [x0; x1; x2; x3; x4; x5; x6; x7; x8]) w)
    as [[record|e] w1] eqn:Hconv.
  - pose proof Hconv as Hnew. rewrite convert_input_row in Hnew.
    assert (w1 = w) as ->.
    { unfold PredictionInput.new in Hnew.
      destruct (field_errors _ _); now injection Hnew. }
    rewrite (predict_converted _ _ _ _ Hconv).
    destruct (predict predictor (InModel record) w) as [[out|e] w2] eqn:Hpredict.
    + erewrite try_except_ValueError_reply; [reflexivity|].
      erewrite and_then_reply by reflexivity.
      do 9 (erewrite and_then_reply by reflexivity).
      erewrite and_then_reply by (apply core_returns, Hnew).
      erewrite and_then_reply by (apply core_returns, Hpredict).
      reflexivity.
    + erewrite try_except_ValueError_raised; cycle 1.
      { erewrite and_then_reply by reflexivity.
        do 9 (erewrite and_then_reply by reflexivity).
        erewrite and_then_reply by (apply core_returns, Hnew).
        apply and_then_raised, core_raises, Hpredict. }
      reflexivity.
  - pose proof Hconv as Hnew. rewrite convert_input_row in Hnew.
    rewrite (predict_conversion_raises _ _ _ _ _ Hconv).
    erewrite try_except_ValueError_raised; cycle 1.
    { erewrite and_then_reply by reflexivity.
      do 9 (erewrite and_then_reply by reflexivity).
      apply and_then_raised, core_raises, Hnew. }
    reflexivity.
Qed.

Lemma predict_endpoint_delivers_witness :
  fst (App.predict_water_quality (Some (fallback_engine "ml")) ph15_sample
         (empty_world, []))
  = Raised (HTTPException 400
              (Exc (ValidationError "PredictionInput" [("pH", NotLe 14)]))).
Proof.
  apply (predict_endpoint_delivers (fallback_engine "ml") ph15_sample
           (empty_world, []) eq_refl).
Defined.

(** The loop of the batch endpoint runs [predict] as the loop of
    [predict_batch] of the engine does, when every sample has nine values. *)
Lemma predict_samples_each predictor batch results w app_log :
  Forall (fun features : list pyfloat => length features = 9%nat) batch ->
  App.predict_samples predictor batch results (w, app_log)
  = match predict_each predictor (map InList batch) results w with
    | (Returns outs, w') => (Reply outs, (w', app_log))
    | (Raises e, w') => (Raised (Core e), (w', app_log))
    end.
Proof.
  intros H. revert results w.
  induction H as [|features rest Hlen _ IH]; intros results w; [reflexivity|].
  cbn [App.predict_samples map predict_each].
  rewrite Hlen. cbn [Nat.eqb negb raise_if].
  erewrite and_then_reply by reflexivity.
  destruct (predict predictor (InList features) w) as [[out|e] w1] eqn:Hpredict.
  - erewrite and_then_reply by (apply core_returns, Hpredict).
    rewrite (bind_returns _ _ _ _ _ Hpredict). apply IH.
  - erewrite and_then_raised by (apply core_raises, Hpredict).
    now rewrite (bind_raises _ _ _ _ _ Hpredict).
Qed.

(** X21. The endpoint [/predict/batch] answers a batch of at most 100 samples
    of nine values each as [predict_batch] of the engine answers the lists:
    with the same outputs, or with status 400 for a [ValueError] and status
    500 otherwise. *)
Theorem batch_endpoint_delivers
    (predictor : WaterQualityPredictor.t) (batch : list (list pyfloat))
    (w : world) (app_log : list app_record) :
  (length batch <= 100)%nat ->
  Forall (fun features : list pyfloat => length features = 9%nat) batch ->
  fst (App.predict_batch (Some predictor) batch (w, app_log))
  = delivered "Batch prediction failed"
      (fst (WaterQualityPredictor.predict_batch predictor (map InList batch) w)).
Proof.
  intros Hsize Hnine. unfold App.predict_batch, WaterQualityPredictor.predict_batch.
  assert ((100 <? length batch)%nat = false) as Hsmall by (apply Nat.ltb_ge, Hsize).
  pose proof (predict_samples_each predictor batch [] w
                (app_log ++ [AppRecord INFO
                   [Text ("Batch prediction request: "
                          +:+ str_nat (length batch) +:+ " samples")]]) Hnine)
    as Hloop.
  destruct (predict_each predictor (map InList batch) [] w) as [[outs|e] w1] eqn:Heach.
  - erewrite try_except_ValueError_reply; cycle 1.
    { rewrite Hsmall. erewrite and_then_reply by reflexivity.
      erewrite and_then_reply by reflexivity.
      erewrite and_then_reply by exact Hloop.
      reflexivity. }
    erewrite try_except_returns; [reflexivity|].
    now rewrite (bind_returns _ _ _ _ _ Heach).
  - erewrite try_except_ValueError_raised; cycle 1.
    { rewrite Hsmall. erewrite and_then_reply by reflexivity.
      erewrite and_then_reply by reflexivity.
      apply and_then_raised. exact Hloop. }
    erewrite (reraise_raises _ (fun e => [Lit "Error in batch prediction: "; Exc e]));
      [reflexivity|].
    apply bind_raises, Heach.
Qed.

Lemma batch_endpoint_delivers_witness :
  fst (App.predict_batch (Some (fallback_engine "ml")) [safe_sample; turbid_sample]
         (empty_world, []))
  = delivered "Batch prediction failed"
      (fst (WaterQualityPredictor.predict_batch (fallback_engine "ml")
              (map InList [safe_sample; turbid_sample]) empty_world)).
Proof.
  apply batch_endpoint_delivers.
  - cbn. lia.
  - repeat constructor.
Defined.

Lemma predict_samples_wrong_length predictor accepted features rest results w app_log :
  Forall (fun l => length l = 9%nat /\
                   exists out, answer predictor (InList l) = Returns out) accepted ->
  length features <> 9%nat ->
  exists w',
    App.predict_samples predictor (accepted ++ features :: rest) results (w, app_log)
    = (Raised (Core (sample_length_error (length features))), (w', app_log)).
Proof.
  intros Haccepted Hlen. revert results w.
  induction Haccepted as [|l accepted [Hnine [out Hout]] _ IH];
    intros results w; cbn [app App.predict_samples].
  - apply Nat.eqb_neq in Hlen. rewrite Hlen. cbn [negb raise_if].
    exists w. apply and_then_raised. reflexivity.
  - rewrite Hnine. cbn [Nat.eqb negb raise_if].
    erewrite and_then_reply by reflexivity.
    destruct (predict_answer predictor (InList l) w) as [w1 Hrun].
    rewrite Hout in Hrun.
    erewrite and_then_reply by (apply core_returns, Hrun).
    apply IH.
Qed.

(** X22. A sample whose length is not 9 makes the endpoint [/predict/batch]
    answer with status 400 and an error text that names the length it
    received, once the samples before it have been predicted. *)
Theorem batch_endpoint_sample_length
    (predictor : WaterQualityPredictor.t) (accepted rest : list (list pyfloat))
    (features : list pyfloat) (s : server) :
  (length (accepted ++ features :: rest) <= 100)%nat ->
  Forall (fun l => length l = 9%nat /\
                   exists out, answer predictor (InList l) = Returns out) accepted ->
  length features <> 9%nat ->
  fst (App.predict_batch (Some predictor) (accepted ++ features :: rest) s)
  = Raised (HTTPException 400 (Exc (sample_length_error (length features)))).
Proof.
  intros Hsize Haccepted Hlen. destruct s as [w app_log].
  unfold App.predict_batch.
  assert ((100 <? length (accepted ++ features :: rest))%nat = false) as Hsmall
    by (apply Nat.ltb_ge, Hsize).
  destruct (predict_samples_wrong_length predictor accepted features rest [] w
              (app_log ++ [AppRecord INFO
                 [Text ("Batch prediction request: "
                        +:+ str_nat (length (accepted ++ features :: rest))
                        +:+ " samples")]]) Haccepted Hlen) as [w' Hloop].
  erewrite try_except_ValueError_raised; cycle 1.
  { rewrite Hsmall. erewrite and_then_reply by reflexivity.
    erewrite and_then_reply by reflexivity.
    apply and_then_raised. exact Hloop. }
  reflexivity.
Qed.

Lemma batch_endpoint_sample_length_witness :
  fst (App.predict_batch (Some (fallback_engine "ml"))
         ([safe_sample] ++ short_sample :: [turbid_sample]) (empty_world, []))
  = Raised (HTTPException 400 (Exc (sample_length_error 3))).
Proof.
  apply (batch_endpoint_sample_length (fallback_engine "ml") [safe_sample]
           [turbid_sample] short_sample (empty_world, [])).
  - cbn. lia.
  - constructor; [|constructor]. split; [reflexivity|]. eexists. reflexivity.
  - cbn. lia.
Defined.

(** ** Missing values *)

Lemma lookup_map {A B} (f : A -> B) (l : list A) (i : nat) :
  map f l !! i = f <$> l !! i.
Proof. revert i. induction l as [|x l IH]; intros [|i]; cbn; auto. Qed.

Lemma cell_fill_column X i r j :
  cell (fill_column X i) r j
  = if decide (j = i) then filled X i <$> cell X r j else cell X r j.
Proof.
  unfold fill_column, filled, cell, matrix in *. cbv zeta.
  destruct (0 <? length (present (column X i)))%nat; cbv iota.
  - rewrite lookup_map. destruct (X !! r) as [row|]; cbn; [|now destruct (decide _)].
    destruct (decide (j = i)) as [->|Hne].
    + destruct (row !! i) as [v|] eqn:Hv; [|exact Hv].
      destruct (isnan v) eqn:Hnan; cbn; [|now rewrite ?Hv, ?Hnan].
      rewrite list_lookup_insert_eq; [now rewrite ?Hnan|].
      now apply lookup_lt_Some in Hv.
    + destruct (row !! i) as [v|]; [|reflexivity].
      destruct (isnan v); [|reflexivity].
      now rewrite list_lookup_insert_ne.
  - destruct (decide (j = i)) as [->|]; [|reflexivity].
    destruct (X !! r) as [row|]; cbn; [|reflexivity].
    destruct (row !! i) as [v|]; cbn; [|reflexivity].
    now rewrite andb_false_r.
Qed.

Lemma length_fill_column X i : length (fill_column X i) = length X.
Proof.
  unfold fill_column. cbv zeta.
  destruct (0 <? length (present (column X i)))%nat; [apply length_map|reflexivity].
Qed.

(** A column is made of the cells of its index. *)
Lemma column_cells X Y j (f : pyfloat -> pyfloat) :
  length Y = length X ->
  (forall r, cell Y r j = f <$> cell X r j) ->
  column Y j = map f (column X j).
Proof.
  unfold column, matrix in *. revert Y.
  induction X as [|x X IH]; intros [|y Y] Hlen Hcells; try discriminate;
    [reflexivity|].
  pose proof (Hcells 0%nat) as H0. unfold cell in H0. cbn in H0.
  assert (omap (fun row : list pyfloat => row !! j) Y
          = map f (omap (fun row : list pyfloat => row !! j) X)) as Hrest.
  { apply IH; [cbn in Hlen; lia|]. intros r. apply (Hcells (S r)). }
  cbn [omap list_omap]. rewrite H0.
  destruct (x !! j) as [v|]; cbn [fmap option_fmap option_map map];
    [f_equal|]; exact Hrest.
Qed.

Lemma map_id_ext {A} (f : A -> A) (l : list A) :
  (forall x, f x = x) -> map f l = l.
Proof. intros H. induction l as [|x l IH]; cbn; [reflexivity|]. now rewrite H, IH. Qed.

(** After the first [k] turns of the loop the columns below [k] are filled
    and the others are as they were. *)
Lemma handle_missing_values_prefix X k :
  length (foldl fill_column X (seq 0 k)) = length X /\
  forall r j,
    cell (foldl fill_column X (seq 0 k)) r j
    = if (j <? k)%nat then filled X j <$> cell X r j else cell X r j.
Proof.
  induction k as [|k [IHlen IHcells]]; [split; reflexivity|].
  rewrite seq_S, foldl_app. cbn [foldl Nat.add].
  set (Y := foldl fill_column X (seq 0 k)) in *.
  split; [now rewrite length_fill_column|].
  intros r j. rewrite cell_fill_column.
  assert (column Y k = column X k) as Hcolumn.
  { rewrite (column_cells X Y k id IHlen).
    - apply map_id_ext. reflexivity.
    - intros r'. rewrite IHcells, Nat.ltb_irrefl. now destruct (cell X r' k). }
  destruct (decide (j = k)) as [->|Hne].
  - rewrite IHcells, Nat.ltb_irrefl.
    assert ((k <? S k)%nat = true) as -> by (apply Nat.ltb_lt; lia).
    unfold filled. now rewrite Hcolumn.
  - rewrite IHcells.
    destruct (j <? k)%nat eqn:Hlt.
    + apply Nat.ltb_lt in Hlt.
      assert ((j <? S k)%nat = true) as -> by (apply Nat.ltb_lt; lia). reflexivity.
    + apply Nat.ltb_ge in Hlt.
      assert ((j <? S k)%nat = false) as -> by (apply Nat.ltb_ge; lia). reflexivity.
Qed.

(** X23. [_handle_missing_values] keeps the shape of the matrix and every
    value that is not NaN. A NaN becomes the median of the values of its
    column that are not NaN; in a column that holds nothing but NaN it stays.
    *)
Theorem handle_missing_values_cells (X : matrix) :
  length (_handle_missing_values X) = length X /\
  forall r j,
    (j < shape1 X)%nat ->
    match cell X r j with
    | None => cell (_handle_missing_values X) r j = None
    | Some v =>
        cell (_handle_missing_values X) r j
        = Some (if isnan v
                then match present (column X j) with
                     | [] => v
                     | _ :: _ => np_median (present (column X j))
                     end
                else v)
    end.
Proof.
  unfold _handle_missing_values.
  destruct (handle_missing_values_prefix X (shape1 X)) as [Hlen Hcells].
  split; [exact Hlen|]. intros r j Hj. rewrite Hcells.
  apply Nat.ltb_lt in Hj. rewrite Hj.
  destruct (cell X r j) as [v|]; [|reflexivity]. cbn. unfold filled.
  destruct (isnan v); [|reflexivity].
  now destruct (present (column X j)).
Qed.

Lemma Forall_insert_float (P : pyfloat -> Prop) x l :
  P x -> Forall P l -> Forall P (insert_float x l).
Proof.
  intros Hx. induction 1 as [|y l Hy Hl IH]; cbn; [now repeat constructor|].
  destruct (fle x y); repeat constructor; auto.
Qed.

Lemma Forall_sort_floats (P : pyfloat -> Prop) l :
  Forall P l -> Forall P (sort_floats l).
Proof.
  induction 1 as [|x l Hx Hl IH]; [constructor|].
  cbn [sort_floats foldr]. now apply Forall_insert_float.
Qed.

Lemma length_insert_float x l : length (insert_float x l) = S (length l).
Proof.
  induction l as [|y l IH]; cbn; [reflexivity|].
  destruct (fle x y); cbn; now rewrite ?IH.
Qed.

Lemma length_sort_floats l : length (sort_floats l) = length l.
Proof.
  induction l as [|x l IH]; [reflexivity|].
  cbn [sort_floats foldr length]. fold (sort_floats l).
  now rewrite length_insert_float, IH.
Qed.

Lemma fadd_not_nan x y :
  isnan x = false -> isnan y = false ->
  (x <> NegInf /\ y <> NegInf) \/ (x <> PosInf /\ y <> PosInf) ->
  isnan (fhalf (fadd x y)) = false.
Proof.
  destruct x, y; cbn; intros Hx Hy [[H1 H2]|[H1 H2]];
    congruence.
Qed.

(** The median of values without NaN that are not of both infinities is no
    NaN. *)
Lemma np_median_not_nan l :
  l <> [] -> Forall (fun v => isnan v = false) l -> one_sided l ->
  isnan (np_median l) = false.
Proof.
  intros Hne Hall Hside. unfold np_median. cbv zeta.
  pose proof (Forall_sort_floats _ _ Hall) as Hordered.
  assert (one_sided (sort_floats l)) as Hsorted
    by (destruct Hside; [left|right]; now apply Forall_sort_floats).
  pose proof (length_sort_floats l) as Hlen.
  set (ordered := sort_floats l) in *.
  assert (0 < length ordered)%nat as Hpos.
  { rewrite Hlen. destruct l; [congruence|cbn; lia]. }
  assert (forall i, (i < length ordered)%nat ->
                    exists x, ordered !! i = Some x /\ isnan x = false /\
                              (Forall (fun v => v <> NegInf) ordered -> x <> NegInf) /\
                              (Forall (fun v => v <> PosInf) ordered -> x <> PosInf))
    as Hat.
  { intros i Hi. destruct (lookup_lt_is_Some_2 ordered i Hi) as [x Hx].
    exists x. split; [exact Hx|]. split; [|split].
    - now apply (Forall_lookup_1 _ _ _ _ Hordered Hx).
    - intros H. now apply (Forall_lookup_1 _ _ _ _ H Hx).
    - intros H. now apply (Forall_lookup_1 _ _ _ _ H Hx). }
  assert (length ordered / 2 < length ordered)%nat as Hmid
    by (apply Nat.div_lt; lia).
  destruct (Hat _ Hmid) as (b & -> & Hb & Hbn & Hbp).
  destruct (Nat.even (length ordered)); [|exact Hb].
  destruct (Hat (length ordered / 2 - 1)%nat) as (a & -> & Ha & Han & Hap); [lia|].
  cbn [default from_option id]. apply fadd_not_nan; [exact Ha|exact Hb|].
  destruct Hsorted as [H|H]; [left|right]; auto.
Qed.

(** X24. A column that has a value that is not NaN, and that does not hold
    both [inf] and [-inf], is left without NaN by [_handle_missing_values]. *)
Theorem handle_missing_values_fills (X : matrix) (j : nat) :
  (j < shape1 X)%nat ->
  one_sided (column X j) ->
  Exists (fun v => isnan v = false) (column X j) ->
  Forall (fun v => isnan v = false) (column (_handle_missing_values X) j).
Proof.
  intros Hj Hside Hsome. unfold _handle_missing_values.
  destruct (handle_missing_values_prefix X (shape1 X)) as [Hlen Hcells].
  rewrite (column_cells X _ j (filled X j) Hlen); cycle 1.
  { intros r. rewrite Hcells. apply Nat.ltb_lt in Hj. now rewrite Hj. }
  assert (Forall (fun v => isnan v = false) (present (column X j))) as Hpresent.
  { unfold present. apply Forall_forall. intros v Hv.
    now apply list_elem_of_filter in Hv as [Hnan Hv]. }
  assert (one_sided (present (column X j))) as Hone.
  { unfold present. destruct Hside as [H|H]; [left|right];
      apply Forall_forall; intros v Hv;
      apply list_elem_of_filter in Hv as [_ Hv];
      now apply (proj1 (Forall_forall _ _) H). }
  assert (present (column X j) <> []) as Hne.
  { apply Exists_exists in Hsome as (v & Hv & Hnan). intros Hnil.
    assert (v ∈ present (column X j)) as Hin
      by (unfold present; now apply list_elem_of_filter).
    rewrite Hnil in Hin. now apply elem_of_nil in Hin. }
  apply Forall_forall. intros v' Hv'.
  apply list_elem_of_In, in_map_iff in Hv' as (v & <- & Hv).
  unfold filled. destruct (isnan v) eqn:Hnan; cbn [andb]; [|exact Hnan].
  destruct (present (column X j)) as [|x rest] eqn:Hp; [congruence|].
  cbn [length Nat.ltb Nat.leb]. now apply np_median_not_nan.
Qed.

Lemma handle_missing_values_fills_witness :
  Forall (fun v => isnan v = false)
    (column (_handle_missing_values gappy_matrix) 1).
Proof.
  apply handle_missing_values_fills.
  - cbn. lia.
  - left. repeat constructor; discriminate.
  - constructor. reflexivity.
Defined.

(** ** The output of the fallback classifier is well formed *)

Lemma MockModel_matrix_answers (X : matrix) :
  Forall (fun x => x <> []) X ->
  exists labels probabilities,
    MockModel.predict X = Returns labels /\
    MockModel.predict_proba X = Returns probabilities /\
    Forall2 mock_answer labels probabilities /\
    length probabilities = length X.
Proof.
  unfold MockModel.predict, MockModel.predict_proba.
  induction 1 as [|x rest Hx _ IH].
  - exists [], []. repeat split; constructor.
  - destruct (MockModel_row_answers x Hx) as (label & row & Hl & Hr & Ha).
    destruct IH as (labels & probabilities & Hls & Hps & Hall & Hlen).
    exists (label :: labels), (row :: probabilities). cbn [collect].
    rewrite Hl, Hr, Hls, Hps. repeat split; [now constructor|].
    cbn. now rewrite Hlen.
Qed.

Lemma mock_answer_checks label row :
  mock_answer label row ->
  ((label =? 0)%Z || (label =? 1)%Z = true) /\
  length row = 2%nat /\
  forallb (fun v => fle (of_int 0) v && fle v (of_int 1)) row = true /\
  isclose_one (np_sum row) = true.
Proof.
  intros (p & -> & Hp & Hlabel).
  assert (0 <= p /\ p <= 1) as [Hlo Hhi].
  { destruct Hp as [Hp|[Hp|[Hp|Hp]]]; rewrite Hp; split; discriminate. }
  split; [destruct Hlabel as [[-> _]|[-> _]]; reflexivity|].
  split; [reflexivity|]. split.
  - cbn [forallb fle of_int]. change (inject_Z 0) with 0. change (inject_Z 1) with 1.
    rewrite !andb_true_iff, !Qle_bool_iff. repeat split; try reflexivity; lra.
  - cbn [np_sum foldl fadd isclose_one]. apply Qle_bool_iff.
    change (Qabs 1.0) with 1.0. apply Qabs_Qle_condition. split; lra.
Qed.

(** X25. What [MockModel] answers on a matrix with at least one row and no
    empty row passes [validate_model_output]; what it answers on the empty
    matrix does not, for want of a second dimension. *)
Theorem mock_model_output_is_valid (X : matrix) (w : world) :
  (X <> [] -> Forall (fun x => x <> []) X ->
   exists labels probabilities,
     MockModel.predict X = Returns labels /\
     MockModel.predict_proba X = Returns probabilities /\
     validate_model_output labels probabilities w
     = (Returns tt, logged [output_passed_record] w)) /\
  (exists labels probabilities,
     MockModel.predict [] = Returns labels /\
     MockModel.predict_proba [] = Returns probabilities /\
     validate_model_output labels probabilities w
     = (Raises (ValueError ShapeError
                  "Probabilities must be 2D array with 2 columns"), w)).
Proof.
  split; [|exists [], []; repeat split].
  intros Hne Hrows.
  destruct (MockModel_matrix_answers X Hrows)
    as (labels & probabilities & Hl & Hp & Hall & Hlen).
  exists labels, probabilities. split; [exact Hl|]. split; [exact Hp|].
  assert (forallb (fun p => (p =? 0)%Z || (p =? 1)%Z) labels = true /\
          Forall (fun row : list pyfloat => length row = 2%nat) probabilities /\
          forallb (forallb (fun v => fle (of_int 0) v && fle v (of_int 1)))
            probabilities = true /\
          forallb isclose_one (map np_sum probabilities) = true)
    as (H1 & H2 & H3 & H4).
  { clear Hl Hp Hlen. induction Hall as [|label row labels probabilities Ha _ IH];
      [repeat split; constructor|].
    destruct (mock_answer_checks _ _ Ha) as (Ha1 & Ha2 & Ha3 & Ha4).
    destruct IH as (IH1 & IH2 & IH3 & IH4).
    cbn [forallb map]. rewrite Ha1, Ha3, Ha4, IH1, IH3, IH4.
    repeat split. now constructor. }
  unfold validate_model_output.
  rewrite H1. cbn [negb when]. erewrite bind_returns by reflexivity.
  destruct probabilities as [|row probabilities];
    [destruct X; [congruence|discriminate]|].
  inversion H2 as [|? ? Hrow _]; subst. cbn [shape1]. rewrite Hrow.
  cbn [Nat.eqb negb when]. erewrite bind_returns by reflexivity.
  rewrite H3. cbn [negb when]. erewrite bind_returns by reflexivity.
  cbv zeta. rewrite H4. cbn [negb when]. erewrite bind_returns by reflexivity.
  reflexivity.
Qed.

(** ** Startup and reload *)

Lemma init_outcome (w : world) :
  exists engine records,
    __init__ "ml" w = (Returns engine, logged records w) /\
    engine_of_directory w engine.
Proof.
  destruct (load_model_cases (blank_engine "ml") w)
    as [(m & s & names & Ha & _)|(Hnone & self' & record & Hl & Hd & _ & Hf)].
  - exists (loaded_engine "ml" "1.0.0" m s names). eexists.
    split; [now apply init_loads|]. left. eauto.
  - exists (fallback_engine "ml"). eexists. split; [|now right].
    unfold __init__. fold (blank_engine "ml").
    rewrite (bind_returns _ _ _ _ _ Hl). cbn [negb when].
    erewrite bind_returns by apply io_logger.
    rewrite initialize_fallback_model_outcome, Hd, Hf, !logged_logged.
    reflexivity.
Qed.

(** X26. Startup always leaves the global [predictor] set, and [/model/reload]
    always answers with the status "success" and replaces the predictor,
    whatever it was: by the engine loaded from the directory "ml" when its
    artifacts are there, and by the fallback engine when they are not. Neither
    touches the files. *)
Theorem reload_reports_success
    (predictor : option WaterQualityPredictor.t) (w : world)
    (app_log : list app_record) :
  (exists engine w' app_log',
     Service.lifespan_startup (predictor, (w, app_log))
     = (Some engine, (w', app_log')) /\
     engine_of_directory w engine /\ fs w' = fs w) /\
  (exists engine w' app_log',
     Service.reload_model (predictor, (w, app_log))
     = (Reply (<["status" := "success"]> (<["message" := "Model reloaded"]> ∅)),
        (Some engine, (w', app_log'))) /\
     engine_of_directory w engine /\ fs w' = fs w).
Proof.
  destruct (init_outcome w) as (engine & records & Hinit & Hengine).
  split; exists engine; do 2 eexists.
  - split; [|split; [exact Hengine|]].
    + unfold Service.lifespan_startup.
      erewrite and_then_reply by reflexivity.
      unfold try_except_Exception.
      erewrite and_then_reply by (apply core_returns, Hinit).
      reflexivity.
    + reflexivity.
  - split; [|split; [exact Hengine|]].
    + unfold Service.reload_model, try_except_Exception.
      erewrite and_then_reply by reflexivity.
      erewrite and_then_reply by (apply core_returns, Hinit).
      reflexivity.
    + reflexivity.
Qed.
